(** * Description generator of dbt_yaml_generator: a shallow embedding

    The development follows [utils/description_generator.py]: the class
    [DescriptionGenerator] with [_clean_column_name], [_analyze_sample_data],
    [generate_column_description] and [generate_table_description].

    Python values are embedded as an inductive type, text as [string],
    floats as IEEE 754 binary64 values of [spec_float], exceptions as an
    explicit result type.  Library behaviour the program relies on but does
    not define (the spaCy entity recogniser, [repr] of floats, [str] of
    decimals, float summation, iteration order of a [set]) is collected in a
    record [runtime] over which the functions are parameterised. *)

From Stdlib Require Import String Ascii List ZArith Bool Lia Arith PeanoNat.
From Stdlib Require Import Permutation Sorted DecimalString DecimalPos DecimalZ.
From Stdlib Require Import Floats.SpecFloat.
Import ListNotations.

Open Scope string_scope.

(** ** Text: the [str] methods and regular expressions the program uses

    Column names, types and sample text are sequences of 7-bit ASCII
    characters; a character outside that range is caseless and is not a word
    character. *)

Module PyStr.

Definition newline : ascii := ascii_of_nat 10.

Definition is_upper (c : ascii) : bool :=
  let n := nat_of_ascii c in (65 <=? n)%nat && (n <=? 90)%nat.

Definition is_lower (c : ascii) : bool :=
  let n := nat_of_ascii c in (97 <=? n)%nat && (n <=? 122)%nat.

Definition is_digit (c : ascii) : bool :=
  let n := nat_of_ascii c in (48 <=? n)%nat && (n <=? 57)%nat.

(** [\w] of the [re] module on ASCII text. *)
Definition is_word (c : ascii) : bool :=
  is_upper c || is_lower c || is_digit c || Ascii.eqb c "_"%char.

Definition lower_char (c : ascii) : ascii :=
  if is_upper c then ascii_of_nat (nat_of_ascii c + 32) else c.

Definition upper_char (c : ascii) : ascii :=
  if is_lower c then ascii_of_nat (nat_of_ascii c - 32) else c.

(** [s.lower()] *)
Fixpoint lower (s : string) : string :=
  match s with
  | EmptyString => EmptyString
  | String c s' => String (lower_char c) (lower s')
  end.

(** [s.startswith(p)], also the regular expression [^p] for a literal [p]. *)
Definition startswith (p s : string) : bool := String.prefix p s.

(** [s.endswith(p)] *)
Fixpoint endswith (p s : string) : bool :=
  String.eqb s p ||
  match s with
  | EmptyString => false
  | String _ s' => endswith p s'
  end.

(** [p in s] *)
Fixpoint contains (p s : string) : bool :=
  String.prefix p s ||
  match s with
  | EmptyString => false
  | String _ s' => contains p s'
  end.

(** [re.search(p + '$', s)] for a literal [p]: without [re.MULTILINE] the
    anchor [$] matches at the end of the text and also just before a newline
    that ends the text. *)
Definition re_search_end (p s : string) : bool :=
  endswith p s || endswith (p ++ String newline EmptyString) s.

(** [s.replace(old, new)] for a non-empty [old]: the occurrences are found
    from the left and do not overlap.  [skip] counts the characters of the
    occurrence just replaced that are still to be dropped. *)
Fixpoint replace_from (old new : string) (skip : nat) (s : string) : string :=
  match s with
  | EmptyString => EmptyString
  | String c s' =>
      match skip with
      | S k => replace_from old new k s'
      | O =>
          if String.prefix old s
          then new ++ replace_from old new (String.length old - 1) s'
          else String c (replace_from old new 0 s')
      end
  end.

Definition replace (old new s : string) : string := replace_from old new 0 s.

(** Is the character at offset [n] of [s] a word character?  ([false] at
    the end of the text.) *)
Definition word_at (n : nat) (s : string) : bool :=
  match String.get n s with
  | Some c => is_word c
  | None => false
  end.

(** [re.sub(r'\bw\b', rep, s)] for a literal [w] made of word characters:
    [w] matches where the character before it and the character after it
    are not word characters (or are missing).  [prev] tells whether the
    character before the current position is a word character. *)
Fixpoint sub_word_from (w rep : string) (prev : bool) (skip : nat) (s : string)
  : string :=
  match s with
  | EmptyString => EmptyString
  | String c s' =>
      match skip with
      | S k => sub_word_from w rep (is_word c) k s'
      | O =>
          if negb prev && String.prefix w s && negb (word_at (String.length w) s)
          then rep ++ sub_word_from w rep (is_word c) (String.length w - 1) s'
          else String c (sub_word_from w rep (is_word c) 0 s')
      end
  end.

Definition sub_word (w rep s : string) : string := sub_word_from w rep false 0 s.

(** [s.split(sep)[0]] for a one-character [sep]. *)
Fixpoint split_head (sep : ascii) (s : string) : string :=
  match s with
  | EmptyString => EmptyString
  | String c s' => if Ascii.eqb c sep then EmptyString else String c (split_head sep s')
  end.

(** [sep.join(l)] *)
Definition join (sep : string) (l : list string) : string := String.concat sep l.

(** [s[:n]] *)
Fixpoint take (n : N) (s : string) : string :=
  match s with
  | EmptyString => EmptyString
  | String c s' => if (n =? 0)%N then EmptyString else String c (take (N.pred n) s')
  end.

(** [s.split('_')], used to state what a name segment is. *)
Fixpoint split_on (sep : ascii) (cur : string) (s : string) : list string :=
  match s with
  | EmptyString => [cur]
  | String c s' =>
      if Ascii.eqb c sep then cur :: split_on sep EmptyString s'
      else split_on sep (cur ++ String c EmptyString) s'
  end.

(** [str(n)] for an integer. *)
Definition of_Z (z : Z) : string := NilZero.string_of_int (Z.to_int z).

End PyStr.

(** ** [_clean_column_name] *)

Definition abbreviations : list (string * string) :=
  [ ("adt", "audit"); ("anb", "account number"); ("sk", "surrogate key");
    ("pk", "primary key"); ("fk", "foreign key"); ("id", "identifier");
    ("scd", "slowly changing dimension"); ("dob", "date of birth");
    ("ssn", "social security number"); ("num", "number"); ("amt", "amount");
    ("qty", "quantity"); ("addr", "address"); ("tel", "telephone") ].

Definition capitalize_first (name : string) : string :=
  match name with
  | EmptyString => EmptyString
  | String c rest => String (PyStr.upper_char c) rest
  end.

Definition _clean_column_name (column_name : string) : string :=
  let name := PyStr.lower (PyStr.replace "_" " " column_name) in
  let name := fold_left (fun acc p => PyStr.sub_word (fst p) (snd p) acc)
                        abbreviations name in
  capitalize_first name.

(** ** Floats: IEEE 754 binary64

    A Python [float] is a [spec_float] for [prec = 53] and [emax = 1024];
    the values the interpreter builds satisfy [valid_binary prec emax]. *)

Module PyFloat.

Definition prec : Z := 53.
Definition emax : Z := 1024.

(** [a < b] and [a <= b] on floats; both are [false] when an operand is NaN. *)
Definition ltb (a b : spec_float) : bool := SFltb a b.
Definition leb (a b : spec_float) : bool := SFleb a b.

Definition is_nan (f : spec_float) : bool :=
  match f with S754_nan => true | _ => false end.

Definition is_finite (f : spec_float) : bool :=
  match f with S754_zero _ | S754_finite _ _ _ => true | _ => false end.

(** The float nearest to the integer [z] (ties to even); an infinity when
    [z] is beyond the largest float. *)
Definition of_Z (z : Z) : spec_float := binary_normalize prec emax z 0 false.

(** The float nearest to [n / d] (ties to even), signed by [neg].  The
    quotient is computed with more than [prec + 2] bits and a sticky bit
    for the remainder, which rounds like the exact quotient. *)
Definition of_ratio (neg : bool) (n d : positive) : spec_float :=
  let k := Z.max 0 (56 + Z.log2 (Zpos d) - Z.log2 (Zpos n)) in
  let '(q, r) := Z.div_eucl (Zpos n * 2 ^ k) (Zpos d) in
  let m := (2 * q + (if r =? 0 then 0 else 1))%Z in
  binary_normalize prec emax (if neg then - m else m) (- (k + 1)) false.

(** The exact value of a finite float times one hundred, rounded to the
    nearest integer, ties to even. *)
Definition hundredths (m : positive) (e : Z) : Z :=
  let n := (Zpos m * 100)%Z in
  match e with
  | Zneg p =>
      let d := (2 ^ Zpos p)%Z in
      let '(q, r) := Z.div_eucl n d in
      match (2 * r ?= d)%Z with
      | Lt => q
      | Gt => (q + 1)%Z
      | Eq => if Z.even q then q else (q + 1)%Z
      end
  | _ => (n * 2 ^ e)%Z
  end.

Definition two_digits (n : Z) : string :=
  PyStr.of_Z (n / 10) ++ PyStr.of_Z (n mod 10).

Definition sign_text (neg : bool) : string := if neg then "-" else "".

(** [f"{x:.2f}"]: fixed-point notation with two digits after the point,
    correctly rounded; [inf] and [nan] are written as words. *)
Definition format_2f (x : spec_float) : string :=
  match x with
  | S754_nan => "nan"
  | S754_infinity neg => sign_text neg ++ "inf"
  | S754_zero neg => sign_text neg ++ "0.00"
  | S754_finite neg m e =>
      let h := hundredths m e in
      sign_text neg ++ PyStr.of_Z (h / 100) ++ "." ++ two_digits (h mod 100)
  end.

End PyFloat.

(** ** Exceptions and results *)

Inductive exn : Type := ValueError | TypeError | OverflowError | IndexError.

Inductive result (A : Type) : Type :=
| Ok (a : A)
| Raise (e : exn).

Arguments Ok {A} a.
Arguments Raise {A} e.

Definition bind {A B : Type} (r : result A) (k : A -> result B) : result B :=
  match r with
  | Ok a => k a
  | Raise e => Raise e
  end.

Notation "x <- r ;; k" := (bind r (fun x => k))
  (at level 61, r at next level, right associativity).

(** ** Sample values

    The items of a column sample, as the warehouse driver hands them over:
    [None], [bool], [int], [float], [decimal.Decimal], [str] and the
    temporal classes of [datetime].  A temporal value is kept as its class
    and its text [str(item)]. *)

Inductive decimal : Type :=
| DFinite (neg : bool) (coeff : N) (exp : Z)   (* (-1)^neg * coeff * 10^exp *)
| DInfinity (neg : bool)
| DNaN (neg : bool)
| DsNaN (neg : bool).

Inductive number : Type :=
| NInt (z : Z)
| NFloat (f : spec_float)
| NDecimal (d : decimal).

Inductive temporal : Type := TDate | TTime | TDatetime.

Inductive pyval : Type :=
| PNone
| PBool (b : bool)
| PNum (n : number)
| PStr (s : string)
| PTemporal (k : temporal) (text : string).

(** [type(item).__name__] *)
Definition type_name (item : pyval) : string :=
  match item with
  | PNone => "NoneType"
  | PBool _ => "bool"
  | PNum (NInt _) => "int"
  | PNum (NFloat _) => "float"
  | PNum (NDecimal _) => "Decimal"
  | PStr _ => "str"
  | PTemporal TDate _ => "date"
  | PTemporal TTime _ => "time"
  | PTemporal TDatetime _ => "datetime"
  end.

(** [item is None] *)
Definition is_none (item : pyval) : bool :=
  match item with PNone => true | _ => false end.

(** [float(d)] for a decimal goes through the text of [d]: a signalling NaN
    is refused with [ValueError], a value too large becomes an infinity. *)
Definition float_of_decimal (d : decimal) : result spec_float :=
  match d with
  | DsNaN _ => Raise ValueError
  | DNaN _ => Ok S754_nan
  | DInfinity neg => Ok (S754_infinity neg)
  | DFinite neg 0%N _ => Ok (S754_zero neg)
  | DFinite neg (Npos c) (Zneg p) => Ok (PyFloat.of_ratio neg c (10 ^ p))
  | DFinite neg (Npos c) e =>
      Ok (binary_normalize PyFloat.prec PyFloat.emax
            ((if neg then Zneg c else Zpos c) * 10 ^ e) 0 false)
  end.

(** [float(item)] for an item of a numeric class.  An integer beyond the
    float range raises [OverflowError]. *)
Definition py_float (n : number) : result spec_float :=
  match n with
  | NInt z =>
      match PyFloat.of_Z z with
      | S754_infinity _ => Raise OverflowError
      | f => Ok f
      end
  | NFloat f => Ok f
  | NDecimal d => float_of_decimal d
  end.

(** ** The interpreter and the libraries

    What the program takes from outside its own source. *)

Record runtime : Type := {
  (** [[ent.label_ for ent in self.nlp(text).ents]]: the labels of the
      entities spaCy finds in [text], in document order *)
  nlp_labels : string -> list string;
  (** [str(x)] for a float *)
  repr_float : spec_float -> string;
  (** [str(d)] for a decimal *)
  str_decimal : decimal -> string;
  (** [sum(xs) / len(xs)] for a non-empty list of floats *)
  float_mean : list spec_float -> spec_float;
  (** [list(set(xs))]: the elements of [xs], each once, in the order the
      hash table yields them *)
  set_list : list string -> list string;
  set_list_NoDup : forall xs, NoDup (set_list xs);
  set_list_In : forall xs x, In x (set_list xs) <-> In x xs
}.

(** ** [collections.Counter]

    A counter is kept as the list of its keys with their counts, in the
    order the keys were first seen, which is the iteration order of the
    dictionary underneath. *)

Definition counter : Type := list (string * nat).

Fixpoint counter_add (k : string) (c : counter) : counter :=
  match c with
  | [] => [(k, 1)]
  | (k', n) :: c' =>
      if String.eqb k k' then (k', S n) :: c' else (k', n) :: counter_add k c'
  end.

Definition Counter (keys : list string) : counter :=
  fold_left (fun c k => counter_add k c) keys [].

(** Insertion into a list sorted by decreasing count; [x] was seen before
    every entry of [l] and goes before the entries of the same count. *)
Fixpoint rank_insert (x : string * nat) (l : counter) : counter :=
  match l with
  | [] => [x]
  | y :: l' => if (snd y <=? snd x)%nat then x :: l else y :: rank_insert x l'
  end.

Definition ranked (c : counter) : counter := fold_right rank_insert [] c.

(** [c.most_common(n)]: the [n] entries of highest count, equal counts in
    first-seen order ([heapq.nlargest] is stable). *)
Definition most_common (n : nat) (c : counter) : counter := firstn n (ranked c).

(** ** [_analyze_sample_data] *)

Record stats_t : Type := {
  st_min : spec_float;
  st_max : spec_float;
  st_avg : spec_float
}.

(** The dictionary [analysis]; [stats] is [None] for the empty dictionary. *)
Record profile : Type := {
  p_type : option string;
  common_values : option counter;
  patterns : list string;
  entity_types : counter;
  stats : option stats_t
}.

Definition empty_profile : profile :=
  {| p_type := None; common_values := None; patterns := [];
     entity_types := []; stats := None |}.

Definition in_names (n : string) (names : list string) : bool :=
  existsb (String.eqb n) names.

Definition numeric_names : list string := ["int"; "float"; "Decimal"].

(** [types.add(t)] on the set of type names, kept in first-seen order. *)
Definition types_add (t : string) (types : list string) : list string :=
  if in_names t types then types else types ++ [t].

(** The loop over [data] that fills [types] and [numbers].  [ValueError]
    and [TypeError] of the conversion are swallowed, any other exception
    leaves the function.  Only the items of [PNum] bear one of the three
    numeric type names, so the last branch of the inner match is never
    taken. *)
Fixpoint scan_items (data : list pyval) (types : list string)
  (numbers : list spec_float) : result (list string * list spec_float) :=
  match data with
  | [] => Ok (types, numbers)
  | item :: rest =>
      if is_none item then scan_items rest types numbers
      else
        let item_type := type_name item in
        let types := types_add item_type types in
        if in_names item_type numeric_names then
          match item with
          | PNum n =>
              match py_float n with
              | Ok f => scan_items rest types (numbers ++ [f])
              | Raise ValueError | Raise TypeError => scan_items rest types numbers
              | Raise e => Raise e
              end
          | _ => scan_items rest types numbers
          end
        else scan_items rest types numbers
  end.

(** [min(x :: xs)] and [max(x :: xs)]: the builtins keep the current
    extreme unless the next item compares strictly below (above) it. *)
Definition py_min (x : spec_float) (xs : list spec_float) : spec_float :=
  fold_left (fun m y => if PyFloat.ltb y m then y else m) xs x.

Definition py_max (x : spec_float) (xs : list spec_float) : spec_float :=
  fold_left (fun m y => if PyFloat.ltb m y then y else m) xs x.

Definition not_none (data : list pyval) : list pyval :=
  filter (fun item => negb (is_none item)) data.

Section Analyzer.

Variable rt : runtime.

(** [str(item)] *)
Definition py_str (item : pyval) : string :=
  match item with
  | PNone => "None"
  | PBool b => if b then "True" else "False"
  | PNum (NInt z) => PyStr.of_Z z
  | PNum (NFloat f) => repr_float rt f
  | PNum (NDecimal d) => str_decimal rt d
  | PStr s => s
  | PTemporal _ text => text
  end.

Definition numeric_stats (numbers : list spec_float) : option stats_t :=
  match numbers with
  | [] => None
  | x :: xs =>
      Some {| st_min := py_min x xs; st_max := py_max x xs;
              st_avg := float_mean rt numbers |}
  end.

(** The predominant type: the only type seen, or the key of the first
    entry of [most_common(1)]; [[0]] on an empty list raises [IndexError]. *)
Definition predominant_type (data : list pyval) (types : list string)
  : result (option string) :=
  match types with
  | [] => Ok None
  | [t] => Ok (Some t)
  | _ =>
      let type_counts := Counter (map type_name (not_none data)) in
      match most_common 1 type_counts with
      | (t, _) :: _ => Ok (Some t)
      | [] => Raise IndexError
      end
  end.

(** [analysis['type'] in ('str', 'string')] *)
Definition is_text_type (ty : option string) : bool :=
  match ty with
  | Some t => in_names t ["str"; "string"]
  | None => false
  end.

Definition text_limit : N := 10000.

(** The function past its guard [if not data or len(data) == 0]. *)
Definition analyze_items (data : list pyval) : result profile :=
  scanned <- scan_items data [] [] ;;
  let '(types, numbers) := scanned in
  ty <- predominant_type data types ;;
  let st := numeric_stats numbers in
  if is_text_type ty then
    let texts := map py_str (not_none data) in
    let value_counts := Counter texts in
    let common := most_common 5 value_counts in
    let sample_text := PyStr.join " " texts in
    let found :=
      if (0 <? String.length sample_text)%nat then
        let entities := Counter (nlp_labels rt (PyStr.take text_limit sample_text)) in
        match entities with
        | [] => []
        | _ => most_common 3 entities
        end
      else [] in
    Ok {| p_type := ty;
          common_values := match common with [] => None | _ => Some common end;
          patterns := [];
          entity_types := found;
          stats := st |}
  else
    Ok {| p_type := ty; common_values := None; patterns := [];
          entity_types := []; stats := st |}.

Definition _analyze_sample_data (data : list pyval) : result profile :=
  match data with
  | [] => Ok empty_profile
  | _ => analyze_items data
  end.

End Analyzer.

(** ** [generate_column_description] *)

(** The naming patterns, each on the lower-cased column name [l]. *)

(** [re.search(r'id$|^id|_id$', l)] *)
Definition id_pattern (l : string) : bool :=
  PyStr.re_search_end "id" l || PyStr.startswith "id" l
  || PyStr.re_search_end "_id" l.

(** [re.search(r'^pk_|^primary_', l)] *)
Definition primary_pattern (l : string) : bool :=
  PyStr.startswith "pk_" l || PyStr.startswith "primary_" l.

(** [re.search(r'^fk_|^foreign_', l)] *)
Definition foreign_pattern (l : string) : bool :=
  PyStr.startswith "fk_" l || PyStr.startswith "foreign_" l.

(** ['date' in l or re.search(r'_dt$|_date$', l)] *)
Definition date_pattern (l : string) : bool :=
  PyStr.contains "date" l
  || (PyStr.re_search_end "_dt" l || PyStr.re_search_end "_date" l).

(** ['amount' in l or re.search(r'_amt$|_amount$', l)] *)
Definition amount_pattern (l : string) : bool :=
  PyStr.contains "amount" l
  || (PyStr.re_search_end "_amt" l || PyStr.re_search_end "_amount" l).

(** ['count' in l or 'qty' in l or 'quantity' in l] *)
Definition count_pattern (l : string) : bool :=
  PyStr.contains "count" l || PyStr.contains "qty" l
  || PyStr.contains "quantity" l.

(** [re.search(r'is_|_flag$|_flg$', l)] *)
Definition flag_pattern (l : string) : bool :=
  PyStr.contains "is_" l || PyStr.re_search_end "_flag" l
  || PyStr.re_search_end "_flg" l.

(** The sentences of the audit and SCD columns, by lower-cased name. *)
Definition special_columns : list (string * string) :=
  [ ("adt_load_date",
     "Audit load date used for record identification across the data pipeline");
    ("adt_file_source",
     "Audit file source used for record identification across the data pipeline");
    ("adt_hash_key",
     "Hash key used for record identification across the data pipeline");
    ("dbt_scd_id",
     "SCD type 2 identifier, used for tracking different versions of a each record");
    ("dbt_updated_at",
     "SCD type 2 updated timestamp, indicating when the record was last modified");
    ("dbt_valid_from",
     "SCD type 2 validity start timestamp, indicating since when the record was valid");
    ("dbt_valid_to",
     "SCD type 2 validity end timestamp, indicating since when the record was valid");
    ("record_sk", "Unique key identifier for each record") ].

(** The chain of [elif column_name.lower() == ...] tests. *)
Fixpoint special_sentence (l : string) (table : list (string * string))
  : option string :=
  match table with
  | [] => None
  | (name, sentence) :: rest =>
      if String.eqb l name then Some sentence else special_sentence l rest
  end.

(** [[v[0] for v in analysis['common_values']]], comma-joined. *)
Definition value_list (common : counter) : string :=
  PyStr.join ", " (map fst common).

(** The branch [elif data_type:] for a non-empty declared type. *)
Definition describe_by_type (clean_name data_type : string)
  (analysis : profile) : string :=
  let tn := PyStr.lower (PyStr.split_head "(" data_type) in
  if PyStr.contains "varchar" tn || PyStr.contains "char" tn
     || PyStr.contains "string" tn || PyStr.contains "text" tn
  then
    "Text field containing " ++ clean_name ++
    match common_values analysis with
    | Some common =>
        if (List.length common <=? 3)%nat
        then " (e.g., " ++ value_list common ++ ")"
        else ""
    | None => ""
    end
  else if PyStr.contains "int" tn || PyStr.contains "number" tn
          || PyStr.contains "decimal" tn || PyStr.contains "float" tn
  then "Numeric value representing " ++ clean_name
  else if PyStr.contains "date" tn || PyStr.contains "time" tn
  then "Date/time value for " ++ clean_name
  else if PyStr.contains "bool" tn
  then "Boolean flag indicating " ++ clean_name
  else clean_name.

(** The body of [generate_column_description] once the sample has been
    analysed: the [if]/[elif] cascade over the column name. *)
Definition describe_column (column_name data_type : string)
  (analysis : profile) : string :=
  let clean_name := _clean_column_name column_name in
  let l := PyStr.lower column_name in
  if id_pattern l then
    if primary_pattern l then "Primary identifier for " ++ clean_name
    else if foreign_pattern l then "Foreign key reference to " ++ clean_name
    else "Identifier for " ++ clean_name
  else if date_pattern l then
    if PyStr.contains "create" l || PyStr.contains "insert" l
    then "Date when the record was created"
    else if PyStr.contains "update" l || PyStr.contains "modify" l
    then "Date when the record was last updated"
    else if PyStr.contains "valid_from" l
    then "Date from which this record is valid"
    else if PyStr.contains "valid_to" l
    then "Date until which this record is valid"
    else if PyStr.contains "birth" l
    then "Date of birth"
    else "Date associated with " ++ clean_name
  else if amount_pattern l then
    "Monetary amount for " ++ clean_name ++
    match stats analysis with
    | Some st =>
        " (ranges from " ++ PyFloat.format_2f (st_min st) ++ " to "
        ++ PyFloat.format_2f (st_max st) ++ ")"
    | None => ""
    end
  else if count_pattern l then "Count or quantity of " ++ clean_name
  else if flag_pattern l then
    "Flag indicating " ++ clean_name ++
    match common_values analysis with
    | Some common => " (possible values: " ++ value_list common ++ ")"
    | None => ""
    end
  else
    match special_sentence l special_columns with
    | Some sentence => sentence
    | None =>
        if String.eqb data_type "" then clean_name
        else describe_by_type clean_name data_type analysis
    end.

Definition generate_column_description (rt : runtime)
  (column_name data_type : string) (sample_data : list pyval) : result string :=
  analysis <- _analyze_sample_data rt sample_data ;;
  Ok (describe_column column_name data_type analysis).

(** ** [generate_table_description] *)

(** A column as [get_columns] describes it. *)
Record column : Type := {
  name : string;
  type : string;
  nullable : string
}.

(** The flags and the list the scan of the columns fills. *)
Record signals : Type := {
  has_id : bool;
  has_name : bool;
  has_date : bool;
  has_amount : bool;
  has_status : bool;
  important_columns : list string
}.

Definition no_signals : signals :=
  {| has_id := false; has_name := false; has_date := false;
     has_amount := false; has_status := false; important_columns := [] |}.

(** [re.search(r'id$|^id|_id$|key$|^key|_key$', l)] *)
Definition key_pattern (l : string) : bool :=
  PyStr.re_search_end "id" l || PyStr.startswith "id" l
  || PyStr.re_search_end "_id" l || PyStr.re_search_end "key" l
  || PyStr.startswith "key" l || PyStr.re_search_end "_key" l.

(** ['dbt_' not in l and 'adt_' not in l] *)
Definition not_metadata (l : string) : bool :=
  negb (PyStr.contains "dbt_" l) && negb (PyStr.contains "adt_" l).

(** [if e and len(e) > 2: important_columns.append(e)] *)
Definition keep_entity (e : string) (acc : list string) : list string :=
  if negb (String.eqb e "") && (2 <? String.length e)%nat
  then acc ++ [e] else acc.

(** One turn of the loop over the columns. *)
Definition scan_column (st : signals) (c : column) : signals :=
  let l := PyStr.lower (name c) in
  if key_pattern l && not_metadata l then
    {| has_id := true; has_name := has_name st; has_date := has_date st;
       has_amount := has_amount st; has_status := has_status st;
       important_columns :=
         if String.eqb l "id" then important_columns st
         else keep_entity (PyStr.replace "id_" "" (PyStr.replace "_id" "" l))
                          (important_columns st) |}
  else if PyStr.contains "name" l then
    {| has_id := has_id st; has_name := true; has_date := has_date st;
       has_amount := has_amount st; has_status := has_status st;
       important_columns :=
         keep_entity (PyStr.replace "name_" "" (PyStr.replace "_name" "" l))
                     (important_columns st) |}
  else if PyStr.contains "date" l && not_metadata l then
    {| has_id := has_id st; has_name := has_name st; has_date := true;
       has_amount := has_amount st; has_status := has_status st;
       important_columns :=
         if String.eqb l "date" then important_columns st
         else keep_entity (PyStr.replace "date_" "" (PyStr.replace "_date" "" l))
                          (important_columns st) |}
  else if PyStr.contains "amount" l || PyStr.contains "_amt" l then
    {| has_id := has_id st; has_name := has_name st; has_date := has_date st;
       has_amount := true; has_status := has_status st;
       important_columns :=
         keep_entity
           (PyStr.replace "amt_" ""
              (PyStr.replace "_amt" ""
                 (PyStr.replace "amount_" "" (PyStr.replace "_amount" "" l))))
           (important_columns st) |}
  else if PyStr.contains "status" l || PyStr.contains "state" l then
    {| has_id := has_id st; has_name := has_name st; has_date := has_date st;
       has_amount := has_amount st; has_status := true;
       important_columns := important_columns st |}
  else st.

Definition scan_columns (columns : list column) : signals :=
  fold_left scan_column columns no_signals.

(** The list [details], in the order of the five tests. *)
Definition details_of (st : signals) : list string :=
  (if has_id st then ["identifiers"] else [])
  ++ (if has_name st then ["names"] else [])
  ++ (if has_date st then ["dates"] else [])
  ++ (if has_amount st then ["amounts"] else [])
  ++ (if has_status st then ["status information"] else []).

Definition details_clause (st : signals) : string :=
  match details_of st with
  | [] => ""
  | details =>
      if (List.length details <=? 3)%nat
      then " including " ++ PyStr.join ", " details
      else " including various attributes and metrics"
  end.

Definition non_empty (s : string) : bool := negb (String.eqb s "").

(** The cleaned entity names, each once: [unique_entities]. *)
Definition unique_entities (rt : runtime) (important : list string)
  : list string :=
  let entities := set_list rt (filter non_empty important) in
  set_list rt (map _clean_column_name entities).

(** The first sentence of the table description. *)
Definition table_sentence (rt : runtime) (clean_name : string)
  (important : list string) : string :=
  let base := "Contains information related to " ++ clean_name in
  match important with
  | [] => base
  | _ =>
      match set_list rt (filter non_empty important) with
      | [] => base
      | _ =>
          let unique := unique_entities rt important in
          if (List.length unique <=? 3)%nat
          then "Contains information about " ++ PyStr.join ", " unique
          else "Contains various information related to " ++ clean_name
      end
  end.

Definition generate_table_description (rt : runtime) (table_name : string)
  (columns : list column) : string :=
  let clean_name := _clean_column_name table_name in
  let st := scan_columns columns in
  table_sentence rt clean_name (important_columns st) ++ details_clause st.

(** * The configuration, the connector and the document

    The functions around the description generator:
    [generators/yaml_generator.py], [utils/config_loader.py] and the
    configuration part of [connectors/snowflake.py].  The calls of the
    logger are left out: they do not change what the functions return. *)

(** ** Configuration values

    What [yaml.safe_load] and [json.load] build from a plain document, and
    what the program builds itself as configuration: scalars, lists and
    dictionaries.  A dictionary is the list of its entries in insertion
    order; its keys are strings (a key of another kind is an unknown key for
    every lookup the program makes). *)

#[warnings="-register-all"]
Inductive yval : Type :=
| YNull
| YBool (b : bool)
| YInt (z : Z)
| YFloat (f : spec_float)
| YStr (s : string)
| YList (items : list yval)
| YDict (entries : list (string * yval)).

(** The exceptions of the configuration code.  The message of a
    [ValueError] is [text], followed by [str(value)] when the program
    formats a value into it. *)
Inductive raised : Type :=
| RValueError (text : string) (value : option yval)
| RTypeError
| RAttributeError
| RKeyError.

Inductive attempt (A : Type) : Type :=
| Done (a : A)
| Failed (e : raised).

Arguments Done {A} a.
Arguments Failed {A} e.

Definition and_then {A B : Type} (r : attempt A) (k : A -> attempt B)
  : attempt B :=
  match r with
  | Done a => k a
  | Failed e => Failed e
  end.

(** [d.get(key)] on the entries of a dictionary. *)
Fixpoint lookup (key : string) (entries : list (string * yval)) : option yval :=
  match entries with
  | [] => None
  | (k, v) :: rest => if String.eqb key k then Some v else lookup key rest
  end.

(** [d[key] = v]: the value of an existing key is replaced in place, a new
    key goes to the end. *)
Fixpoint store (key : string) (v : yval) (entries : list (string * yval))
  : list (string * yval) :=
  match entries with
  | [] => [(key, v)]
  | (k, x) :: rest =>
      if String.eqb key k then (k, v) :: rest else (k, x) :: store key v rest
  end.

(** [v == s] for a string [s]. *)
Definition equals_str (v : yval) (s : string) : bool :=
  match v with
  | YStr t => String.eqb t s
  | _ => false
  end.

(** [key in x] *)
Definition py_in (key : string) (x : yval) : attempt bool :=
  match x with
  | YDict entries =>
      Done (match lookup key entries with Some _ => true | None => false end)
  | YList items => Done (existsb (fun v => equals_str v key) items)
  | YStr s => Done (PyStr.contains key s)
  | _ => Failed RTypeError
  end.

(** [x[key]] for a string [key]. *)
Definition py_getitem (x : yval) (key : string) : attempt yval :=
  match x with
  | YDict entries =>
      match lookup key entries with
      | Some v => Done v
      | None => Failed RKeyError
      end
  | _ => Failed RTypeError
  end.

(** [x.get(key, default)] *)
Definition py_get (x : yval) (key : string) (default : yval) : attempt yval :=
  match x with
  | YDict entries =>
      Done (match lookup key entries with Some v => v | None => default end)
  | _ => Failed RAttributeError
  end.

Fixpoint characters (s : string) : list yval :=
  match s with
  | EmptyString => []
  | String c s' => YStr (String c EmptyString) :: characters s'
  end.

(** The items a [for] loop over [x] visits. *)
Definition py_iter (x : yval) : attempt (list yval) :=
  match x with
  | YList items => Done items
  | YDict entries => Done (map (fun kv => YStr (fst kv)) entries)
  | YStr s => Done (characters s)
  | _ => Failed RTypeError
  end.

(** ** [DbtYamlGenerator._get_tests_for_column] *)

(** [isinstance(test, str)] or [isinstance(test, dict)] *)
Definition is_test (test : yval) : bool :=
  match test with
  | YStr _ | YDict _ => true
  | _ => false
  end.

(** The loop over the column configurations, up to its [break]. *)
Fixpoint find_column_tests (configs : list yval) (column_name : string)
  : attempt (list yval) :=
  match configs with
  | [] => Done []
  | column_config :: rest =>
      and_then (py_get column_config "column" YNull) (fun c =>
      if equals_str c column_name then
        and_then (py_get column_config "tests" (YList [])) (fun column_tests =>
        and_then (py_iter column_tests) (fun tests =>
        Done (filter is_test tests)))
      else find_column_tests rest column_name)
  end.

Definition _get_tests_for_column (tests_config : yval) (column_name : string)
  : attempt (list yval) :=
  and_then (py_in "tests" tests_config) (fun present =>
  if negb present then Done []
  else
    and_then (py_getitem tests_config "tests") (fun configs =>
    and_then (py_iter configs) (fun configs =>
    find_column_tests configs column_name))).

(** ** [DbtYamlGenerator.generate_model_yaml] *)

(** One entry of ["columns"]; [mc_tests] is [None] when the entry has no
    ["tests"] key. *)
Record model_column : Type := {
  mc_name : string;
  mc_description : string;
  mc_tests : option (list yval)
}.

Record table_model : Type := {
  tm_name : string;
  tm_description : string;
  tm_columns : list model_column
}.

Record yaml_structure : Type := {
  version : Z;
  models : list table_model
}.

(** [d.get(key, default)] on a dictionary of descriptions. *)
Fixpoint description_of (key : string) (d : list (string * string))
  (default : string) : string :=
  match d with
  | [] => default
  | (k, v) :: rest => if String.eqb key k then v else description_of key rest default
  end.

Section Generator.

(** The connector the generator is built with: its state and the three
    methods the generator calls, each of which may raise. *)
Variable connector : Type.
Variable get_table_description :
  string -> string -> connector -> attempt string * connector.
Variable get_columns :
  string -> string -> connector -> attempt (list column) * connector.
Variable get_column_descriptions :
  string -> string -> connector -> attempt (list (string * string)) * connector.

Variable tests_config : yval.

(** The loop over the columns of one table. *)
Fixpoint column_structures (table : string) (descriptions : list (string * string))
  (columns : list column) : attempt (list model_column) :=
  match columns with
  | [] => Done []
  | column_info :: rest =>
      let column_name := name column_info in
      and_then (_get_tests_for_column tests_config column_name) (fun tests =>
      let column_structure :=
        {| mc_name := column_name;
           mc_description :=
             description_of column_name descriptions
               ("Column " ++ column_name ++ " from " ++ table);
           mc_tests := match tests with [] => None | _ => Some tests end |} in
      and_then (column_structures table descriptions rest) (fun others =>
      Done (column_structure :: others)))
  end.

(** The loop over the tables. *)
Fixpoint table_models (schema : string) (tables : list string) (c : connector)
  : attempt (list table_model) * connector :=
  match tables with
  | [] => (Done [], c)
  | table :: rest =>
      match get_table_description schema table c with
      | (Failed e, c) => (Failed e, c)
      | (Done table_description, c) =>
      match get_columns schema table c with
      | (Failed e, c) => (Failed e, c)
      | (Done columns, c) =>
      match get_column_descriptions schema table c with
      | (Failed e, c) => (Failed e, c)
      | (Done column_descriptions, c) =>
      match column_structures table column_descriptions columns with
      | Failed e => (Failed e, c)
      | Done entries =>
          let table_model :=
            {| tm_name := table;
               tm_description :=
                 if non_empty table_description then table_description
                 else "Data from " ++ schema ++ "." ++ table;
               tm_columns := entries |} in
          match table_models schema rest c with
          | (Failed e, c) => (Failed e, c)
          | (Done others, c) => (Done (table_model :: others), c)
          end
      end end end end
  end.

Definition generate_model_yaml (schema : string) (tables : list string)
  (c : connector) : attempt yaml_structure * connector :=
  match table_models schema tables c with
  | (Failed e, c) => (Failed e, c)
  | (Done ms, c) => (Done {| version := 2; models := ms |}, c)
  end.

End Generator.

(** ** [write_yaml_file]: the text between the quotes

    [description.replace("'", "''")] *)
Definition escape_single_quotes (description : string) : string :=
  PyStr.replace "'" "''" description.

(** ** [config_loader.get_snowflake_config] *)

(** The environment: [os.getenv(name)] is [env name]. *)
Definition environment : Type := string -> option string.

(** [os.getenv(name, default)] *)
Definition getenv_default (env : environment) (name default : string) : string :=
  match env name with
  | Some v => v
  | None => default
  end.

(** The truth value of [os.getenv(name)]: set and not empty. *)
Definition is_set (v : option string) : bool :=
  match v with
  | Some (String _ _) => true
  | _ => false
  end.

Definition text_value (v : option string) : yval :=
  match v with
  | Some s => YStr s
  | None => YNull
  end.

Definition missing_if_unset (v : option string) (name : string) : list string :=
  if is_set v then [] else [name].

Definition get_snowflake_config (env : environment) : attempt yval :=
  let account := env "SNOWFLAKE_ACCOUNT" in
  let user := env "SNOWFLAKE_USER" in
  let database := env "DATABASE" in
  let schema := env "SCHEMA" in
  let auth_method := PyStr.lower (getenv_default env "AUTH_METHOD" "password") in
  if negb (is_set account && is_set user && is_set database && is_set schema)
  then
    let missing :=
      (missing_if_unset account "SNOWFLAKE_ACCOUNT"
       ++ missing_if_unset user "SNOWFLAKE_USER"
       ++ missing_if_unset database "DATABASE"
       ++ missing_if_unset schema "SCHEMA")%list in
    Failed (RValueError
              ("Missing required environment variables: "
               ++ PyStr.join ", " missing) None)
  else
    let authentication := [("method", YStr auth_method)] in
    let config :=
      [ ("account", text_value account); ("user", text_value user);
        ("database", text_value database); ("schema", text_value schema);
        ("warehouse", YStr (getenv_default env "SNOWFLAKE_WAREHOUSE" "COMPUTE_WH"));
        ("role", YStr (getenv_default env "SNOWFLAKE_ROLE" "ACCOUNTADMIN")) ] in
    if String.eqb auth_method "password" then
      let password := env "SNOWFLAKE_PASSWORD" in
      if is_set password
      then Done (YDict (store "password" (text_value password)
                          (config ++ [("authentication", YDict authentication)])))
      else Failed (RValueError
                     "SNOWFLAKE_PASSWORD is required for password authentication"
                     None)
    else if String.eqb auth_method "okta" then
      let okta_url := env "OKTA_URL" in
      if is_set okta_url
      then Done (YDict (config ++
                   [("authentication",
                     YDict (store "okta_url" (text_value okta_url) authentication))]))
      else Failed (RValueError "OKTA_URL is required for Okta authentication" None)
    else if String.eqb auth_method "token" then
      let token := env "SNOWFLAKE_TOKEN" in
      if is_set token
      then Done (YDict (config ++
                   [("authentication",
                     YDict (store "token" (text_value token) authentication))]))
      else Failed (RValueError "SNOWFLAKE_TOKEN is required for token authentication"
                     None)
    else Done (YDict (config ++ [("authentication", YDict authentication)])).

(** ** [SnowflakeConnector._process_env_variables] *)

(** The longest run of [[A-Za-z0-9_]] at the head of [s], and what follows. *)
Fixpoint word_prefix (s : string) : string * string :=
  match s with
  | EmptyString => (EmptyString, EmptyString)
  | String c s' =>
      if PyStr.is_word c
      then let '(w, rest) := word_prefix s' in (String c w, rest)
      else (EmptyString, s)
  end.

(** A match of [\${([A-Za-z0-9_]+)}] at the head of [s]: the name in the
    braces. *)
Definition placeholder_at (s : string) : option string :=
  match s with
  | String "$" (String "{" rest) =>
      match word_prefix rest with
      | (String c w, String "}" _) => Some (String c w)
      | _ => None
      end
  | _ => None
  end.

(** [re.findall(r'\${([A-Za-z0-9_]+)}', s)]: the names of the matches, from
    the left, without overlap.  [skip] counts the characters of the last
    match still to pass. *)
Fixpoint find_placeholders (skip : nat) (s : string) : list string :=
  match s with
  | EmptyString => []
  | String c s' =>
      match skip with
      | S k => find_placeholders k s'
      | O =>
          match placeholder_at s with
          | Some var => var :: find_placeholders (String.length var + 2) s'
          | None => find_placeholders 0 s'
          end
      end
  end.

(** The value of [env_var], or the empty string when it is unset or empty. *)
Definition env_or_empty (env : environment) (env_var : string) : string :=
  match env env_var with
  | Some (String c v) => String c v
  | _ => EmptyString
  end.

(** [s[:-1]] *)
Fixpoint drop_last (s : string) : string :=
  match s with
  | EmptyString => EmptyString
  | String c EmptyString => EmptyString
  | String c s' => String c (drop_last s')
  end.

Definition process_string (env : environment) (value : string) : string :=
  if PyStr.startswith "${" value && PyStr.endswith "}" value then
    let env_var := drop_last (String.substring 2 (String.length value - 2) value) in
    env_or_empty env env_var
  else
    fold_left
      (fun processed_value env_var =>
         PyStr.replace ("${" ++ env_var ++ "}") (env_or_empty env env_var)
                       processed_value)
      (find_placeholders 0 value) value.

Fixpoint process_value (env : environment) (value : yval) : yval :=
  match value with
  | YStr s => YStr (process_string env s)
  | YDict entries =>
      YDict (map (fun kv => (fst kv, process_value env (snd kv))) entries)
  | _ => value
  end.

Definition _process_env_variables (env : environment)
  (config : list (string * yval)) : list (string * yval) :=
  map (fun kv => (fst kv, process_value env (snd kv))) config.

(** ** [SnowflakeConnector.connect]: the connection parameters *)

(** The truth value of a configuration value. *)
Definition py_truthy (v : yval) : bool :=
  match v with
  | YNull => false
  | YBool b => b
  | YInt z => negb (z =? 0)%Z
  | YFloat f => negb (SFeqb f (S754_zero false))
  | YStr s => non_empty s
  | YList items => match items with [] => false | _ => true end
  | YDict entries => match entries with [] => false | _ => true end
  end.

(** [config.get(key, default)] on the entries of the configuration. *)
Definition get_or (config : list (string * yval)) (key : string) (default : yval)
  : yval :=
  match lookup key config with
  | Some v => v
  | None => default
  end.

(** The part of [connect] before the call of the driver: the dictionary
    [conn_params], or the [ValueError] of an incomplete configuration. *)
Definition connection_parameters (config : list (string * yval))
  : attempt (list (string * yval)) :=
  let auth_config := get_or config "authentication" (YDict []) in
  and_then (py_get auth_config "method" (YStr "password")) (fun auth_method =>
  let conn_params :=
    [ ("account", get_or config "account" YNull);
      ("warehouse", get_or config "warehouse" YNull);
      ("database", get_or config "database" YNull);
      ("schema", get_or config "schema" YNull);
      ("role", get_or config "role" (YStr "ACCOUNTADMIN")) ] in
  if equals_str auth_method "password" then
    Done (store "password" (get_or config "password" YNull)
            (store "user" (get_or config "user" YNull) conn_params))
  else if equals_str auth_method "browser"
          || equals_str auth_method "externalbrowser" then
    Done (store "password" (YStr "")
            (store "authenticator" (YStr "externalbrowser")
               (store "user" (get_or config "user" YNull) conn_params)))
  else if equals_str auth_method "okta" then
    and_then (py_get auth_config "okta_url" YNull) (fun first =>
    let okta_url := if py_truthy first then first else get_or config "okta_url" YNull in
    if negb (py_truthy okta_url)
    then Failed (RValueError "Okta URL is required for Okta authentication" None)
    else
      Done (store "password" (YStr "")
              (store "authenticator" (YStr "externalbrowser")
                 (store "user" (get_or config "user" YNull) conn_params))))
  else if equals_str auth_method "token" then
    and_then (py_get auth_config "token" YNull) (fun first =>
    let token := if py_truthy first then first else get_or config "token" YNull in
    if negb (py_truthy token)
    then Failed (RValueError "Token is required for token authentication" None)
    else Done (store "token" token conn_params))
  else
    Failed (RValueError "Unsupported authentication method: " (Some auth_method))).

(** ** Terms in which the properties are stated *)

(** The floats the loop collects from one item: the result of [float(item)]
    for an item of a numeric class whose conversion succeeds. *)
Definition coerce (item : pyval) : list spec_float :=
  match item with
  | PNum n => match py_float n with Ok f => [f] | Raise _ => [] end
  | _ => []
  end.

(** The coercible numeric subset of a sample, as floats. *)
Definition coerced (data : list pyval) : list spec_float := flat_map coerce data.

(** The conversion of the item does not raise [OverflowError]. *)
Definition in_float_range (item : pyval) : bool :=
  match item with
  | PNum n => match py_float n with Raise OverflowError => false | _ => true end
  | _ => true
  end.

(** The set of type names after the names [names] were added to [types]. *)
Definition tally (names types : list string) : list string :=
  fold_left (fun acc t => types_add t acc) names types.

(** Counts never increase along the list. *)
Definition descending (c : counter) : Prop :=
  StronglySorted (fun a b => (snd b <= snd a)%nat) c.

(** The three sentences of the identifier rule. *)
Definition identifier_sentences (clean_name : string) : list string :=
  [ "Primary identifier for " ++ clean_name;
    "Foreign key reference to " ++ clean_name;
    "Identifier for " ++ clean_name ].

(** The text the flag rule appends for the frequent values. *)
Definition possible_values (analysis : profile) : string :=
  match common_values analysis with
  | Some common => " (possible values: " ++ value_list common ++ ")"
  | None => ""
  end.

(** The segments of a name: the parts between underscores. *)
Definition segments (l : string) : list string := PyStr.split_on "_" "" l.

(** The name ends with a flag suffix. *)
Definition flag_suffix (l : string) : bool :=
  PyStr.re_search_end "_flag" l || PyStr.re_search_end "_flg" l.

(** The distinct readable entity names the columns of a table refer to. *)
Definition referenced_entities (columns : list column) : list string :=
  nodup string_dec
    (map _clean_column_name (important_columns (scan_columns columns))).

Fixpoint all_digits (s : string) : bool :=
  match s with
  | EmptyString => true
  | String c s' => PyStr.is_digit c && all_digits s'
  end.

(** The text after the first point of [s]. *)
Fixpoint after_point (s : string) : option string :=
  match s with
  | EmptyString => None
  | String c s' => if Ascii.eqb c "." then Some s' else after_point s'
  end.

(** [s] without its minus sign, if it has one. *)
Definition unsigned (s : string) : string :=
  match s with
  | String c rest => if Ascii.eqb c "-" then rest else s
  | EmptyString => s
  end.

(** [s] is an optional minus sign, one or more digits, a point and exactly
    two digits. *)
Definition two_decimals (s : string) : bool :=
  let whole := PyStr.split_head "." (unsigned s) in
  negb (String.eqb whole "") && all_digits whole
  && match after_point (unsigned s) with
     | Some frac => (String.length frac =? 2)%nat && all_digits frac
     | None => false
     end.

(** The integer a text of decimal digits denotes. *)
Definition read_Z (s : string) : option Z :=
  option_map Z.of_int (NilZero.int_of_string s).

(** The number of hundredths an unsigned text [w.ff] denotes. *)
Definition hundredths_of_text (s : string) : option Z :=
  match read_Z (PyStr.split_head "." s), after_point s with
  | Some w, Some frac =>
      match read_Z frac with
      | Some f => Some (w * 100 + f)%Z
      | None => None
      end
  | _, _ => None
  end.

(** The sign bit of a float. *)
Definition sign_bit (x : spec_float) : bool :=
  match x with
  | S754_zero s | S754_infinity s | S754_finite s _ _ => s
  | S754_nan => false
  end.

(** [h] hundredths is the multiple of 0.01 nearest to the absolute value
    [m * 2 ^ e] of the finite float [x], and the even one when two are
    equally near. *)
Definition nearest_hundredths (x : spec_float) (h : Z) : Prop :=
  match x with
  | S754_zero _ => h = 0%Z
  | S754_finite _ m (Zneg p) =>
      let err := (Zpos m * 100 - h * 2 ^ Zpos p)%Z in
      (2 * Z.abs err <= 2 ^ Zpos p)%Z
      /\ ((2 * Z.abs err = 2 ^ Zpos p)%Z -> Z.even h = true)
  | S754_finite _ m e => h = (Zpos m * 100 * 2 ^ e)%Z
  | _ => False
  end.

(** The text of a float that is not finite. *)
Definition word_of (x : spec_float) : string :=
  if PyFloat.is_nan x then "nan" else if sign_bit x then "-inf" else "inf".

(** ** Inputs of the examples *)

(** A runtime to run the functions with: an entity recogniser that knows
    one organisation, the first number as the mean, and sets that iterate
    in first-seen order.  The texts of floats and decimals are placeholders:
    no example reads them. *)
Definition sample_labels (text : string) : list string :=
  if PyStr.contains "Acme" text then ["ORG"] else [].

Definition sample_runtime : runtime :=
  {| nlp_labels := sample_labels;
     repr_float := PyFloat.format_2f;
     str_decimal := fun _ => "0";
     float_mean := fun xs => hd S754_nan xs;
     set_list := nodup string_dec;
     set_list_NoDup := NoDup_nodup string_dec;
     set_list_In := nodup_In string_dec |}.

Definition named (n : string) : column :=
  {| name := n; type := "VARCHAR(100)"; nullable := "Y" |}.

(** Four key columns of four different entities. *)
Definition four_keys : list column :=
  [named "customer_id"; named "order_id"; named "product_id"; named "store_id"].

(** Two texts and a number: text is the predominant type. *)
Definition mixed_sample : list pyval :=
  [PStr "Acme Ltd"; PStr "retail"; PNum (NInt 3)].

(** Three texts, with the profile the analysis gives for them. *)
Definition status_sample : list pyval :=
  [PStr "open"; PStr "closed"; PStr "closed"].

Definition status_profile : profile :=
  {| p_type := Some "str";
     common_values := Some [("closed", 2%nat); ("open", 1%nat)];
     patterns := []; entity_types := []; stats := None |}.

(** The floats 1.5, 10.0 and the ones nearest to 99.999 and to 99.995. *)
Definition one_and_a_half : spec_float := S754_finite false 6755399441055744 (-52).
Definition ten : spec_float := S754_finite false 5629499534213120 (-49).
Definition near_99_999 : spec_float := S754_finite false 7036804049022222 (-46).
Definition near_99_995 : spec_float := S754_finite false 7036522574045512 (-46).

(** The decimal 99.995. *)
Definition d_99_995 : decimal := DFinite false 99995 (-3).

(** An integer, a signalling NaN (its conversion fails with [ValueError])
    and a float. *)
Definition numbers_sample : list pyval :=
  [PNum (NInt 3); PNum (NDecimal (DsNaN false)); PNum (NFloat one_and_a_half)].

Definition nan_first_sample : list pyval :=
  [PNum (NFloat S754_nan); PNum (NInt 1)].

(** The integer 10 and the decimal 99.999, with the profile and the range
    the analysis gives for them. *)
Definition price_sample : list pyval :=
  [PNum (NInt 10); PNum (NDecimal (DFinite false 99999 (-3)))].

Definition price_range : stats_t :=
  {| st_min := ten; st_max := near_99_999; st_avg := ten |}.

Definition price_profile : profile :=
  {| p_type := Some "int"; common_values := None; patterns := [];
     entity_types := []; stats := Some price_range |}.

Definition infinite_sample : list pyval := [PNum (NFloat (S754_infinity false))].

(** ** Further terms and inputs *)

(** The count a counter holds for a key, zero for a key it does not hold. *)
Fixpoint counter_get (c : counter) (k : string) : nat :=
  match c with
  | [] => 0
  | (k', n) :: c' => if String.eqb k k' then n else counter_get c' k
  end.

(** The five signals of the table scan. *)
Inductive bucket : Type := BId | BName | BDate | BAmount | BStatus.

Definition bucket_eqb (a b : bucket) : bool :=
  match a, b with
  | BId, BId | BName, BName | BDate, BDate | BAmount, BAmount
  | BStatus, BStatus => true
  | _, _ => false
  end.

(** The signal a column sets, by its lower-cased name: the first test of the
    [if]/[elif] chain of the scan that the name passes. *)
Definition column_bucket (l : string) : option bucket :=
  if key_pattern l && not_metadata l then Some BId
  else if PyStr.contains "name" l then Some BName
  else if PyStr.contains "date" l && not_metadata l then Some BDate
  else if PyStr.contains "amount" l || PyStr.contains "_amt" l then Some BAmount
  else if PyStr.contains "status" l || PyStr.contains "state" l then Some BStatus
  else None.

Definition in_bucket (b : bucket) (c : column) : bool :=
  match column_bucket (PyStr.lower (name c)) with
  | Some b' => bucket_eqb b b'
  | None => false
  end.

Definition signal (b : bucket) (st : signals) : bool :=
  match b with
  | BId => has_id st
  | BName => has_name st
  | BDate => has_date st
  | BAmount => has_amount st
  | BStatus => has_status st
  end.

Definition order_columns : list column :=
  [named "customer_id"; named "customer_name"; named "order_date"].

(** A column configuration of another column: a dictionary whose
    ["column"] is not [column_name]. *)
Definition other_column (column_name : string) (column_config : yval) : bool :=
  match column_config with
  | YDict entries =>
      match lookup "column" entries with
      | Some c => negb (equals_str c column_name)
      | None => true
      end
  | _ => false
  end.

Definition is_dict (v : yval) : bool :=
  match v with YDict _ => true | _ => false end.

(** A tests configuration whose ["tests"] is the list [configs]. *)
Definition holds_configs (tests_config : yval) (configs : list yval) : Prop :=
  exists entries,
    tests_config = YDict entries /\ lookup "tests" entries = Some (YList configs).

(** The secret the authentication method needs is set. *)
Definition secret_is_set (env : environment) : bool :=
  let auth_method := PyStr.lower (getenv_default env "AUTH_METHOD" "password") in
  if String.eqb auth_method "password" then is_set (env "SNOWFLAKE_PASSWORD")
  else if String.eqb auth_method "okta" then is_set (env "OKTA_URL")
  else if String.eqb auth_method "token" then is_set (env "SNOWFLAKE_TOKEN")
  else true.

Definition required_variables : list string :=
  ["SNOWFLAKE_ACCOUNT"; "SNOWFLAKE_USER"; "DATABASE"; "SCHEMA"].

(** No placeholder can start in [s]: it has no ["${"]. *)
Definition plain_text (s : string) : bool := negb (PyStr.contains "${" s).

(** Every string the processing would visit is plain: the strings of the
    dictionary and of the dictionaries nested in it. *)
Fixpoint plain (v : yval) : bool :=
  match v with
  | YStr s => plain_text s
  | YDict entries => forallb (fun kv => plain (snd kv)) entries
  | _ => true
  end.

Definition known_methods : list string :=
  ["password"; "browser"; "externalbrowser"; "okta"; "token"].

Definition auth_method_of (env : environment) : string :=
  PyStr.lower (getenv_default env "AUTH_METHOD" "password").

Definition env_of (variables : list (string * string)) : environment :=
  fun n => option_map snd (find (fun kv => String.eqb n (fst kv)) variables).

Definition demo_env : environment :=
  env_of [ ("SNOWFLAKE_ACCOUNT", "acme-eu1"); ("SNOWFLAKE_USER", "loader");
           ("DATABASE", "SALES"); ("SCHEMA", "PUBLIC");
           ("AUTH_METHOD", "Password"); ("SNOWFLAKE_PASSWORD", "s3cret") ].

Definition demo_config : list (string * yval) :=
  [ ("account", YStr "acme-eu1"); ("user", YStr "loader");
    ("database", YStr "SALES"); ("schema", YStr "PUBLIC");
    ("warehouse", YStr "COMPUTE_WH"); ("role", YStr "ACCOUNTADMIN");
    ("authentication", YDict [("method", YStr "password")]);
    ("password", YStr "s3cret") ].

(** A connector that answers from fixed data, and a tests configuration. *)
Definition demo_tests_config : yval :=
  YDict
    [ ("tests",
       YList
         [ YDict [("column", YStr "id");
                  ("tests", YList [YStr "unique"; YInt 3; YStr "not_null"])];
           YStr "oops";
           YDict [("column", YStr "id"); ("tests", YList [YStr "accepted_values"])] ]) ].

Definition plain_tests_config : yval :=
  YDict
    [ ("tests",
       YList
         [ YDict [("column", YStr "id"); ("tests", YList [YStr "unique"])];
           YDict [("tests", YList [YStr "not_null"])] ]) ].

Definition demo_table_description (schema table : string) (c : unit)
  : attempt string * unit := (Done "", c).

Definition demo_columns (schema table : string) (c : unit)
  : attempt (list column) * unit := (Done [named "id"; named "amount"], c).

Definition demo_column_descriptions (schema table : string) (c : unit)
  : attempt (list (string * string)) * unit :=
  (Done [("id", "Identifier for Identifier")], c).

Definition demo_document : yaml_structure :=
  {| version := 2;
     models :=
       [ {| tm_name := "ORDERS";
            tm_description := "Data from PUBLIC.ORDERS";
            tm_columns :=
              [ {| mc_name := "id";
                   mc_description := "Identifier for Identifier";
                   mc_tests := Some [YStr "unique"] |};
                {| mc_name := "amount";
                   mc_description := "Column amount from ORDERS";
                   mc_tests := None |} ] |} ] |}.

(** An entry carries the tests the configuration has for its column, and
    no ["tests"] key when there are none. *)
Definition tests_attached (tests_config : yval) (entry : model_column) : Prop :=
  match mc_tests entry with
  | Some tests =>
      tests <> [] /\ _get_tests_for_column tests_config (mc_name entry) = Done tests
  | None => _get_tests_for_column tests_config (mc_name entry) = Done []
  end.

(** The declared type as the fallback rule reads it: the text before the
    first parenthesis, in lower case. *)
Definition simple_type (data_type : string) : string :=
  PyStr.lower (PyStr.split_head "(" data_type).

(** An integer of the sample whose nearest float is an infinity. *)
Definition huge_integer (data : list pyval) : Prop :=
  exists z sign,
    In (PNum (NInt z)) data /\ PyFloat.of_Z z = S754_infinity sign.

(** A name the pattern [[A-Za-z0-9_]+] matches in full. *)
Fixpoint all_word (s : string) : bool :=
  match s with
  | EmptyString => true
  | String c s' => PyStr.is_word c && all_word s'
  end.

Definition variable_name (s : string) : bool := non_empty s && all_word s.

(** No ["${"] starts at the head of [String c s]. *)
Definition no_start (c : ascii) (s : string) : bool :=
  negb (Ascii.eqb c "$" && match s with String "{" _ => true | _ => false end).

(** * Properties *)

(** ** The scan of the sample *)

Lemma not_none_idempotent (data : list pyval) :
  not_none (not_none data) = not_none data.
Proof.
  unfold not_none. induction data as [|x r IH]; simpl; auto.
  destruct (is_none x) eqn:E; simpl; rewrite ?E; simpl; congruence.
Qed.

Lemma scan_items_not_none (data : list pyval) :
  forall types numbers,
    scan_items (not_none data) types numbers = scan_items data types numbers.
Proof.
  unfold not_none.
  induction data as [|x r IH]; intros types numbers; [reflexivity|].
  cbn [filter]. destruct (is_none x) eqn:E; cbn [negb scan_items]; rewrite ?E; auto.
  destruct (in_names (type_name x) numeric_names); auto.
  destruct x as [| b | n | t | k t]; auto.
  destruct (py_float n) as [f|[]]; auto.
Qed.

Lemma analyze_items_not_none (rt : runtime) (data : list pyval) :
  analyze_items rt (not_none data) = analyze_items rt data.
Proof.
  unfold analyze_items, predominant_type.
  rewrite scan_items_not_none, not_none_idempotent. reflexivity.
Qed.

Lemma analyze_is_analyze_items (rt : runtime) (data : list pyval) :
  _analyze_sample_data rt data = analyze_items rt data.
Proof. destruct data; reflexivity. Qed.

(** C10: null items are skipped everywhere: the analysis of a sample is the
    analysis of the sample without its [None] items, in the type tally, the
    numbers, the frequency counts, the text and the exception raised, if any. *)
Theorem analyze_ignores_none (rt : runtime) (data : list pyval) :
  _analyze_sample_data rt data = _analyze_sample_data rt (not_none data).
Proof.
  rewrite !analyze_is_analyze_items. symmetry. apply analyze_items_not_none.
Qed.

(** ** Text *)

Lemma append_assoc (a b c : string) : (a ++ b) ++ c = a ++ (b ++ c).
Proof. induction a as [|x a IH]; cbn; congruence. Qed.

Lemma append_length (a b : string) :
  String.length (a ++ b) = (String.length a + String.length b)%nat.
Proof. induction a as [|x a IH]; cbn; congruence. Qed.

(** ** Sets of strings *)

Lemma set_list_length (rt : runtime) (xs : list string) :
  List.length (set_list rt xs) = List.length (nodup string_dec xs).
Proof.
  apply Permutation_length, NoDup_Permutation.
  - apply set_list_NoDup.
  - apply NoDup_nodup.
  - intros x. rewrite set_list_In, nodup_In. reflexivity.
Qed.

Lemma nodup_length_same_elements (xs ys : list string) :
  (forall x, In x xs <-> In x ys) ->
  List.length (nodup string_dec xs) = List.length (nodup string_dec ys).
Proof.
  intros H. apply Permutation_length, NoDup_Permutation; try apply NoDup_nodup.
  intros x. rewrite !nodup_In. apply H.
Qed.

Lemma unique_entities_length (rt : runtime) (important : list string) :
  List.length (unique_entities rt important)
  = List.length (nodup string_dec (map _clean_column_name (filter non_empty important))).
Proof.
  unfold unique_entities. rewrite set_list_length.
  apply nodup_length_same_elements. intros x. rewrite !in_map_iff.
  split; intros [e [<- He]]; exists e; (split; [reflexivity|]);
    apply (set_list_In rt (filter non_empty important) e); exact He.
Qed.

(** ** The scan of the columns *)

Lemma keep_entity_non_empty (e : string) (acc : list string) :
  Forall (fun s => non_empty s = true) acc ->
  Forall (fun s => non_empty s = true) (keep_entity e acc).
Proof.
  intros H. unfold keep_entity.
  destruct (negb (e =? "")) eqn:E; cbn [andb]; auto.
  destruct (2 <? String.length e)%nat; auto.
  apply Forall_app. split; auto.
Qed.

Lemma scan_column_non_empty (st : signals) (c : column) :
  Forall (fun s => non_empty s = true) (important_columns st) ->
  Forall (fun s => non_empty s = true) (important_columns (scan_column st c)).
Proof.
  intros H. unfold scan_column.
  repeat match goal with
         | |- context [if ?b then _ else _] => destruct b
         end; cbn [important_columns]; auto using keep_entity_non_empty.
Qed.

Lemma scan_columns_non_empty (columns : list column) :
  Forall (fun s => non_empty s = true) (important_columns (scan_columns columns)).
Proof.
  unfold scan_columns.
  assert (G : forall st, Forall (fun s => non_empty s = true) (important_columns st) ->
     Forall (fun s => non_empty s = true) (important_columns (fold_left scan_column columns st))).
  { induction columns as [|c r IH]; intros st H; cbn [fold_left]; auto.
    apply IH, scan_column_non_empty, H. }
  apply G. constructor.
Qed.

Lemma filter_all (A : Type) (f : A -> bool) (l : list A) :
  Forall (fun x => f x = true) l -> filter f l = l.
Proof.
  induction 1 as [|x l Hx _ IH]; cbn [filter]; auto.
  rewrite Hx, IH. reflexivity.
Qed.

(** C3 (amended): a table whose columns refer to more than three distinct
    readable entity names gets the sentence "Contains various information
    related to" followed by the cleaned table name, and then the details
    clause; the entities are not enumerated. *)
Theorem many_entities_sentence (rt : runtime) (table_name : string)
  (columns : list column) :
  (3 < List.length (referenced_entities columns))%nat ->
  generate_table_description rt table_name columns
  = "Contains various information related to "
    ++ _clean_column_name table_name ++ details_clause (scan_columns columns).
Proof.
  intros H. unfold generate_table_description, table_sentence.
  pose proof (unique_entities_length rt (important_columns (scan_columns columns))) as L.
  rewrite (filter_all _ _ _ (scan_columns_non_empty columns)) in *.
  fold (referenced_entities columns) in L.
  destruct (important_columns (scan_columns columns)) as [|e es] eqn:E.
  { unfold referenced_entities in H. rewrite E in H. cbn in H. lia. }
  destruct (set_list rt (e :: es)) as [|y ys] eqn:S.
  { pose proof (proj2 (set_list_In rt (e :: es) e) (or_introl eq_refl)) as Hin.
    rewrite S in Hin. destruct Hin. }
  destruct (Nat.leb_spec (List.length (unique_entities rt (e :: es))) 3) as [Hle|_].
  - lia.
  - rewrite append_assoc. reflexivity.
Qed.

(** C3, an instance: four key columns of four entities. *)
Lemma many_entities_sentence_example :
  (3 < List.length (referenced_entities four_keys))%nat
  /\ generate_table_description sample_runtime "orders" four_keys
     = "Contains various information related to Orders including identifiers".
Proof.
  assert (H : (3 < List.length (referenced_entities four_keys))%nat)
    by (vm_compute; lia).
  split; [exact H|].
  exact (many_entities_sentence sample_runtime "orders" four_keys H).
Defined.

(** C3 as stated fails: with four distinct fragments the sentence is not the
    base sentence "Contains information related to ...". *)
Lemma four_entities_not_base_sentence :
  (3 < List.length (nodup string_dec (important_columns (scan_columns four_keys))))%nat
  /\ generate_table_description sample_runtime "orders" four_keys
     = "Contains various information related to Orders including identifiers"
  /\ generate_table_description sample_runtime "orders" four_keys
     <> "Contains information related to " ++ _clean_column_name "orders"
        ++ details_clause (scan_columns four_keys).
Proof.
  split; [vm_compute; lia|]. split; [reflexivity|]. vm_compute. discriminate.
Qed.


(** ** Counters *)

Lemma counter_add_keys (k : string) (c : counter) :
  map fst (counter_add k c)
  = if in_names k (map fst c) then map fst c else (map fst c ++ [k])%list.
Proof.
  induction c as [|[k' n] c IH]; [reflexivity|].
  cbn [counter_add map fst in_names existsb].
  destruct (String.eqb k k') eqn:E; cbn [orb map fst]; [reflexivity|].
  rewrite IH. unfold in_names. destruct (existsb (String.eqb k) (map fst c)); reflexivity.
Qed.

Lemma in_names_spec (k : string) (l : list string) :
  in_names k l = true <-> In k l.
Proof.
  unfold in_names. rewrite existsb_exists. split.
  - intros [x [Hx E]]. apply String.eqb_eq in E. subst. exact Hx.
  - intros H. exists k. split; [exact H|apply String.eqb_refl].
Qed.

Lemma counter_add_In (k x : string) (c : counter) :
  In x (map fst (counter_add k c)) <-> x = k \/ In x (map fst c).
Proof.
  rewrite counter_add_keys. destruct (in_names k (map fst c)) eqn:E.
  - apply in_names_spec in E. split; [auto|]. intros [->|H]; auto.
  - rewrite in_app_iff. cbn. intuition.
Qed.

Lemma counter_add_NoDup (k : string) (c : counter) :
  NoDup (map fst c) -> NoDup (map fst (counter_add k c)).
Proof.
  intros H. rewrite counter_add_keys. destruct (in_names k (map fst c)) eqn:E; auto.
  apply NoDup_app; auto.
  - repeat constructor. intros [].
  - intros x Hx [<-|[]]. apply in_names_spec in Hx. congruence.
Qed.

Lemma Counter_from (keys : list string) :
  forall c,
    (forall x, In x (map fst (fold_left (fun c k => counter_add k c) keys c))
               <-> In x keys \/ In x (map fst c))
    /\ (NoDup (map fst c) ->
        NoDup (map fst (fold_left (fun c k => counter_add k c) keys c))).
Proof.
  induction keys as [|k r IH]; intros c; cbn [fold_left].
  - split; [|auto]. intros x. cbn. intuition.
  - destruct (IH (counter_add k c)) as [I N]. split.
    + intros x. rewrite I, counter_add_In. cbn. intuition.
    + intros H. apply N, counter_add_NoDup, H.
Qed.

Lemma Counter_In (keys : list string) (x : string) :
  In x (map fst (Counter keys)) <-> In x keys.
Proof.
  unfold Counter. rewrite (proj1 (Counter_from keys [])). cbn. intuition.
Qed.

Lemma Counter_NoDup (keys : list string) : NoDup (map fst (Counter keys)).
Proof. apply (proj2 (Counter_from keys [])). constructor. Qed.

Lemma Counter_nil (keys : list string) : Counter keys = [] -> keys = [].
Proof.
  intros H. destruct keys as [|k r]; [reflexivity|].
  pose proof (proj2 (Counter_In (k :: r) k) (or_introl eq_refl)) as Hin.
  rewrite H in Hin. destruct Hin.
Qed.

(** ** Ranking *)

Lemma rank_insert_perm (x : string * nat) (l : counter) :
  Permutation (rank_insert x l) (x :: l).
Proof.
  induction l as [|y l IH]; cbn [rank_insert]; [reflexivity|].
  destruct (snd y <=? snd x)%nat; [reflexivity|].
  rewrite IH. apply perm_swap.
Qed.

Lemma ranked_perm (c : counter) : Permutation (ranked c) c.
Proof.
  induction c as [|x c IH]; cbn [ranked fold_right]; [reflexivity|].
  fold (ranked c). rewrite rank_insert_perm. constructor. exact IH.
Qed.

Lemma rank_insert_descending (x : string * nat) (l : counter) :
  descending l -> descending (rank_insert x l).
Proof.
  unfold descending. induction 1 as [|y l Hl IH Hy]; cbn [rank_insert].
  - repeat constructor.
  - destruct (Nat.leb_spec (snd y) (snd x)) as [Hle|Hlt].
    + constructor; [constructor; assumption|].
      constructor; [exact Hle|].
      rewrite Forall_forall in *. intros z Hz. specialize (Hy z Hz). lia.
    + constructor; [exact IH|].
      rewrite Forall_forall in *. intros z Hz.
      apply (Permutation_in _ (rank_insert_perm x l)) in Hz.
      destruct Hz as [<-|Hz]; [lia|auto].
Qed.

Lemma ranked_descending (c : counter) : descending (ranked c).
Proof.
  induction c as [|x c IH]; cbn [ranked fold_right].
  - constructor.
  - apply rank_insert_descending, IH.
Qed.

Lemma firstn_descending (n : nat) (c : counter) :
  descending c -> descending (firstn n c).
Proof.
  unfold descending. intros H. revert n.
  induction H as [|y l Hl IH Hy]; intros [|n]; cbn [firstn]; try constructor.
  - apply IH.
  - rewrite Forall_forall in *. intros z Hz. apply Hy.
    rewrite <- (firstn_skipn n l). apply in_or_app. left. exact Hz.
Qed.

Lemma firstn_NoDup (A : Type) (n : nat) (l : list A) :
  NoDup l -> NoDup (firstn n l).
Proof.
  intros H. rewrite <- (firstn_skipn n l) in H.
  apply NoDup_app_remove_r in H. exact H.
Qed.

Lemma most_common_keys (n : nat) (c : counter) (x : string) :
  In x (map fst (most_common n c)) -> In x (map fst c).
Proof.
  unfold most_common. intros H. apply in_map_iff in H.
  destruct H as [e [<- He]]. apply in_map.
  apply (Permutation_in _ (ranked_perm c)).
  rewrite <- (firstn_skipn n (ranked c)). apply in_or_app. left. exact He.
Qed.

Lemma most_common_NoDup (n : nat) (keys : list string) :
  NoDup (map fst (most_common n (Counter keys))).
Proof.
  unfold most_common. rewrite <- firstn_map. apply firstn_NoDup.
  apply (Permutation_NoDup (l := map fst (Counter keys))).
  - apply Permutation_map. symmetry. apply ranked_perm.
  - apply Counter_NoDup.
Qed.

Lemma most_common_descending (n : nat) (c : counter) :
  descending (most_common n c).
Proof. apply firstn_descending, ranked_descending. Qed.

Lemma most_common_length (n : nat) (c : counter) :
  (List.length (most_common n c) <= n)%nat.
Proof. apply firstn_le_length. Qed.

Lemma most_common_nil (n : nat) (c : counter) :
  most_common (S n) c = [] -> c = [].
Proof.
  unfold most_common. intros H.
  destruct (ranked c) as [|x l] eqn:E; [|discriminate].
  pose proof (ranked_perm c) as P. rewrite E in P.
  apply Permutation_nil in P. exact P.
Qed.


(** ** The loop of the analysis *)

Lemma py_float_exn (n : number) (e : exn) :
  py_float n = Raise e -> e = ValueError \/ e = OverflowError.
Proof.
  destruct n as [z|f|d]; cbn [py_float].
  - destruct (PyFloat.of_Z z); intros H; inversion H; auto.
  - discriminate.
  - destruct d as [neg [|c] [|p|p] | | |]; cbn; intros H; inversion H; auto.
Qed.

Lemma numeric_class (item : pyval) :
  in_names (type_name item) numeric_names = true <-> exists n, item = PNum n.
Proof.
  split.
  - destruct item as [|b|n|s|[] s]; try discriminate. eauto.
  - intros [[z|f|d] ->]; reflexivity.
Qed.

Lemma scan_items_result (data : list pyval) :
  forall types numbers types' numbers',
    scan_items data types numbers = Ok (types', numbers') ->
    types' = tally (map type_name (not_none data)) types
    /\ numbers' = (numbers ++ coerced data)%list.
Proof.
  unfold not_none.
  induction data as [|x r IH]; intros ts ns ts' ns'; cbn [scan_items].
  - intros H. injection H as <- <-. cbn. rewrite app_nil_r. auto.
  - cbn [filter coerced flat_map]. fold (coerced r).
    destruct x as [|b|n|s|[] s]; cbn [is_none negb map tally fold_left coerce];
      try (intros H; apply IH in H; rewrite app_nil_l; exact H).
    destruct (in_names (type_name (PNum n)) numeric_names) eqn:E.
    2:{ assert (in_names (type_name (PNum n)) numeric_names = true)
          by (apply numeric_class; eauto). congruence. }
    destruct (py_float n) as [f|[]] eqn:F; try discriminate;
      intros H; apply IH in H; rewrite <- ?app_assoc in H; exact H.
Qed.

Lemma scan_items_total (data : list pyval) :
  Forall (fun item => in_float_range item = true) data ->
  forall types numbers, exists r, scan_items data types numbers = Ok r.
Proof.
  induction 1 as [|x r Hx _ IH]; intros ts ns; cbn [scan_items]; [eauto|].
  destruct (is_none x); [apply IH|].
  destruct (in_names (type_name x) numeric_names); [|apply IH].
  destruct x as [|b|n|s|k s]; try apply IH.
  cbn [in_float_range] in Hx. destruct (py_float n) as [f|e] eqn:F; [apply IH|].
  destruct (py_float_exn _ _ F) as [-> | ->]; [apply IH|discriminate].
Qed.

Lemma types_add_In (t x : string) (types : list string) :
  In x (types_add t types) <-> x = t \/ In x types.
Proof.
  unfold types_add. destruct (in_names t types) eqn:E.
  - apply in_names_spec in E. split; [auto|]. intros [->|H]; auto.
  - rewrite in_app_iff. cbn. intuition.
Qed.

Lemma tally_In (names : list string) :
  forall types x, In x (tally names types) <-> In x names \/ In x types.
Proof.
  unfold tally. induction names as [|t r IH]; intros ts x; cbn [fold_left].
  - cbn. intuition.
  - rewrite IH, types_add_In. cbn. intuition.
Qed.

Lemma predominant_type_result (data : list pyval) :
  exists ty,
    predominant_type data (tally (map type_name (not_none data)) []) = Ok ty
    /\ forall t, ty = Some t -> In t (map type_name (not_none data)).
Proof.
  unfold predominant_type.
  pose proof (tally_In (map type_name (not_none data)) []) as T.
  destruct (tally (map type_name (not_none data)) []) as [|t [|t' ts]].
  - exists None. split; [reflexivity|discriminate].
  - exists (Some t). split; [reflexivity|].
    intros ? [= <-]. destruct (proj1 (T t)) as [H|[]]; cbn; auto.
  - destruct (most_common 1 (Counter (map type_name (not_none data))))
      as [|[u n] l] eqn:M.
    + apply most_common_nil, Counter_nil in M.
      destruct (proj1 (T t)) as [H|[]]; [cbn; auto|]. rewrite M in H. destruct H.
    + exists (Some u). split; [reflexivity|]. intros ? [= <-].
      apply Counter_In, (most_common_keys 1). rewrite M. cbn. auto.
Qed.

(** What [analyze_items] returns, by the parts the loop computed. *)
Lemma analyze_items_result (rt : runtime) (data : list pyval) (p : profile) :
  analyze_items rt data = Ok p ->
  exists ty,
    predominant_type data (tally (map type_name (not_none data)) []) = Ok ty
    /\ p_type p = ty
    /\ stats p = numeric_stats rt (coerced data)
    /\ (is_text_type ty = false -> common_values p = None /\ entity_types p = [])
    /\ (forall c, common_values p = Some c ->
          is_text_type ty = true
          /\ c <> [] /\ c = most_common 5 (Counter (map (py_str rt) (not_none data)))).
Proof.
  unfold analyze_items.
  destruct (scan_items data [] []) as [[ts ns]|e] eqn:S; cbn [bind]; [|discriminate].
  apply scan_items_result in S. destruct S as [-> ->]. rewrite app_nil_l.
  destruct (predominant_type data _) as [ty|e] eqn:P; cbn [bind]; [|discriminate].
  destruct (is_text_type ty) eqn:T; intros [= <-]; exists ty;
    do 3 (split; [reflexivity|]); cbn [common_values entity_types].
  - split; [congruence|].
    intros c Hc. split; [exact T|].
    destruct (most_common 5 _) as [|x l]; [discriminate|].
    injection Hc as <-. split; [discriminate|reflexivity].
  - split; [auto|discriminate].
Qed.

Lemma analyze_total (rt : runtime) (data : list pyval) :
  Forall (fun item => in_float_range item = true) data ->
  exists p, _analyze_sample_data rt data = Ok p.
Proof.
  intros H. rewrite analyze_is_analyze_items. unfold analyze_items.
  destruct (scan_items_total data H [] []) as [[ts ns] S]. rewrite S. cbn [bind].
  apply scan_items_result in S. destruct S as [-> _].
  destruct (predominant_type_result data) as [ty [-> _]]. cbn [bind].
  destruct (is_text_type ty); eauto.
Qed.

Lemma coerced_In (data : list pyval) (f : spec_float) :
  In f (coerced data) <-> exists n, In (PNum n) data /\ py_float n = Ok f.
Proof.
  unfold coerced. rewrite in_flat_map. split.
  - intros [x [Hx Hf]]. destruct x as [|b|n|s|k s]; try destruct Hf.
    cbn in Hf. destruct (py_float n) as [g|e] eqn:F; [|destruct Hf].
    destruct Hf as [<-|[]]. eauto.
  - intros [n [Hn F]]. exists (PNum n). split; [exact Hn|].
    cbn. rewrite F. cbn. auto.
Qed.

Lemma text_type_is_str (data : list pyval) (t : string) :
  In t (map type_name (not_none data)) ->
  is_text_type (Some t) = true ->
  t = "str" /\ exists s, In (PStr s) data.
Proof.
  intros Hin T. apply in_map_iff in Hin. destruct Hin as [x [<- Hx]].
  apply filter_In in Hx. destruct Hx as [Hx _].
  destruct x as [|b|[z|f|d]|s|[] s]; try discriminate. eauto.
Qed.

(** C2 (amended): a profile has both a numeric range and entity categories
    only for a mixed sample, one whose predominant type is [str] and which
    also holds an item of a numeric class. *)
Theorem range_and_entities_need_mixed_sample (rt : runtime) (data : list pyval)
  (p : profile) :
  _analyze_sample_data rt data = Ok p ->
  stats p <> None ->
  entity_types p <> [] ->
  p_type p = Some "str"
  /\ (exists s, In (PStr s) data)
  /\ (exists n, In (PNum n) data).
Proof.
  rewrite analyze_is_analyze_items. intros A St En.
  destruct (analyze_items_result _ _ _ A) as [ty [P [Ty [S [N _]]]]].
  destruct (predominant_type_result data) as [ty' [P' In']].
  rewrite P in P'. injection P' as <-.
  destruct (is_text_type ty) eqn:T.
  2:{ destruct (N eq_refl) as [_ E]. contradiction. }
  destruct ty as [t|]; [|discriminate].
  destruct (text_type_is_str data t (In' t eq_refl) T) as [-> Hs].
  split; [exact Ty|]. split; [exact Hs|].
  rewrite S in St. destruct (coerced data) as [|f fs] eqn:C; [contradiction|].
  destruct (proj1 (coerced_In data f)) as [n [Hn _]]; [rewrite C; cbn; auto|eauto].
Qed.

(** C2 as stated fails: two texts and an integer give a profile with a
    range and an entity category. *)
Lemma mixed_sample_has_both :
  exists p,
    _analyze_sample_data sample_runtime mixed_sample = Ok p
    /\ stats p <> None /\ entity_types p <> [].
Proof.
  eexists. split; [vm_compute; reflexivity|]. split; discriminate.
Qed.

(** C2, an instance. *)
Lemma range_and_entities_example :
  exists p,
    _analyze_sample_data sample_runtime mixed_sample = Ok p
    /\ p_type p = Some "str"
    /\ (exists s, In (PStr s) mixed_sample)
    /\ (exists n, In (PNum n) mixed_sample).
Proof.
  eexists. split; [vm_compute; reflexivity|].
  eapply (range_and_entities_need_mixed_sample sample_runtime mixed_sample);
    [vm_compute; reflexivity | discriminate | discriminate].
Defined.


Lemma describe_dbt_scd_id (ty : string) (a : profile) :
  describe_column "dbt_scd_id" ty a
  = "Identifier for Dbt slowly changing dimension identifier".
Proof. reflexivity. Qed.

(** C1 at the inputs the claim names: the identifier rule and the date rule
    are tested before the special names, so ["dbt_scd_id"],
    ["adt_load_date"] and ["dbt_updated_at"] never get their fixed sentences. *)
Theorem scd_sentence_unreachable (rt : runtime) :
  special_sentence "dbt_scd_id" special_columns
  = Some "SCD type 2 identifier, used for tracking different versions of a each record"
  /\ generate_column_description rt "dbt_scd_id" "NUMBER" []
     = Ok "Identifier for Dbt slowly changing dimension identifier"
  /\ generate_column_description rt "adt_load_date" "TIMESTAMP_NTZ(9)" []
     = Ok "Date associated with Audit load date"
  /\ generate_column_description rt "dbt_updated_at" "TIMESTAMP_NTZ(9)" []
     = Ok "Date when the record was last updated"
  /\ forall sample_data,
       generate_column_description rt "dbt_scd_id" "NUMBER" sample_data
       <> Ok "SCD type 2 identifier, used for tracking different versions of a each record".
Proof.
  do 4 (split; [reflexivity|]).
  intros sample_data. unfold generate_column_description.
  destruct (_analyze_sample_data rt sample_data) as [a|e]; cbn [bind].
  - rewrite describe_dbt_scd_id. discriminate.
  - discriminate.
Qed.

(** The special names no pattern rule matches do get their sentences,
    whatever the case of the letters, the declared type and the profile. *)
Lemma reached_special_sentences (column_name data_type : string)
  (analysis : profile) (sentence : string) :
  In (PyStr.lower column_name)
     ["adt_file_source"; "adt_hash_key"; "dbt_valid_from"; "dbt_valid_to";
      "record_sk"] ->
  special_sentence (PyStr.lower column_name) special_columns = Some sentence ->
  describe_column column_name data_type analysis = sentence.
Proof.
  intros H Hs. unfold describe_column.
  cbn [In] in H. destruct H as [H|[H|[H|[H|[H|[]]]]]];
    rewrite <- H in Hs |- *; vm_compute in Hs; injection Hs as <-; reflexivity.
Qed.

Lemma set_list_singleton (rt : runtime) (x : string) : set_list rt [x] = [x].
Proof.
  pose proof (set_list_NoDup rt [x]) as ND.
  pose proof (set_list_In rt [x]) as HI.
  destruct (set_list rt [x]) as [|y l].
  - destruct (proj2 (HI x)); simpl; auto.
  - assert (y = x) by (destruct (proj1 (HI y)) as [|[]]; simpl; auto).
    subst y. destruct l as [|z l]; auto.
    assert (z = x) by (destruct (proj1 (HI z)) as [|[]]; simpl; auto).
    subst z. inversion ND as [|? ? Hn _]. elim Hn. simpl; auto.
Qed.

(** C6 at a failing input: a column named ["adt_file_name"] sets the name
    signal and contributes the entity ["adt_file"]; only the identifier
    test and the date test leave the metadata columns out. *)
Theorem metadata_name_column_is_classified (rt : runtime) :
  let st := scan_columns [named "adt_file_name"] in
  has_name st = true
  /\ important_columns st = ["adt_file"]
  /\ generate_table_description rt "files" [named "adt_file_name"]
     = "Contains information about Audit file including names".
Proof.
  split; [reflexivity|]. split; [reflexivity|].
  unfold generate_table_description.
  change (scan_columns [named "adt_file_name"]) with
    {| has_id := false; has_name := true; has_date := false; has_amount := false; has_status := false; important_columns := ["adt_file"] |}.
  cbn [important_columns]. unfold table_sentence, unique_entities.
  change (filter non_empty ["adt_file"]) with ["adt_file"].
  rewrite set_list_singleton. cbn [map].
  change (_clean_column_name "adt_file") with "Audit file".
  rewrite set_list_singleton. reflexivity.
Qed.

(** The guard of the identifier test and of the date test: a column whose
    name holds "dbt_" or "adt_" sets neither of the two signals. *)
Lemma metadata_not_identifier_nor_date (st : signals) (c : column) :
  not_metadata (PyStr.lower (name c)) = false ->
  has_id (scan_column st c) = has_id st
  /\ has_date (scan_column st c) = has_date st.
Proof.
  intros H. unfold scan_column. rewrite H, !andb_false_r.
  repeat match goal with
         | |- context [if ?b then _ else _] => destruct b
         end; split; reflexivity.
Qed.

(** C8 at a failing input: an integer beyond the float range makes the
    conversion raise [OverflowError], which the loop does not catch. *)
Theorem huge_integer_raises (rt : runtime) :
  _analyze_sample_data rt [PNum (NInt (10 ^ 400))] = Raise OverflowError
  /\ generate_column_description rt "order_total" "NUMBER(38,0)" [PNum (NInt (10 ^ 400))]
     = Raise OverflowError.
Proof. split; vm_compute; reflexivity. Qed.


(** ** Suffixes *)

Lemma endswith_refl (p : string) : PyStr.endswith p p = true.
Proof. destruct p; cbn [PyStr.endswith]; rewrite String.eqb_refl; reflexivity. Qed.

Lemma endswith_cons (c : ascii) (p s : string) :
  PyStr.endswith p s = true -> PyStr.endswith p (String c s) = true.
Proof. intros H. cbn. rewrite H. apply orb_true_r. Qed.

Lemma endswith_shorter (c : ascii) (p s : string) :
  PyStr.endswith (String c p) s = true -> PyStr.endswith p s = true.
Proof.
  induction s as [|a s IH]; cbn [PyStr.endswith].
  - cbn. discriminate.
  - intros H. apply orb_true_iff in H. destruct H as [H|H].
    + apply String.eqb_eq in H. injection H as _ ->.
      apply endswith_cons, endswith_refl.
    + apply endswith_cons, IH, H.
Qed.

Lemma re_search_end_shorter (c : ascii) (p s : string) :
  PyStr.re_search_end (String c p) s = true -> PyStr.re_search_end p s = true.
Proof.
  unfold PyStr.re_search_end. intros H. apply orb_true_iff in H.
  apply orb_true_iff. destruct H as [H|H]; [left|right];
    exact (endswith_shorter _ _ _ H).
Qed.

Lemma id_pattern_exact (l : string) :
  id_pattern l = true
  <-> PyStr.startswith "id" l = true \/ PyStr.re_search_end "id" l = true.
Proof.
  unfold id_pattern. rewrite !orb_true_iff. split.
  - intros [[H|H]|H]; auto. right. exact (re_search_end_shorter _ _ _ H).
  - intros [H|H]; auto.
Qed.

(** ** Which sentence a description is *)

Lemma longer_differs (a b : string) : a <> EmptyString -> a ++ b <> b.
Proof.
  intros Ha H. apply (f_equal String.length) in H. rewrite append_length in H.
  destruct a; [congruence|]. cbn in H. lia.
Qed.

Lemma longer_differs_mid (a b c : string) : a <> EmptyString -> b <> a ++ b ++ c.
Proof.
  intros Ha H. apply (f_equal String.length) in H. rewrite !append_length in H.
  destruct a; [congruence|]. cbn in H. lia.
Qed.

Ltac split_ifs :=
  repeat match goal with
         | |- context [if ?b then _ else _] => destruct b eqn:?
         | |- context [match ?o with Some _ => _ | None => _ end] => destruct o eqn:?
         end.

Ltac other_sentence :=
  first
    [ apply longer_differs; discriminate
    | apply longer_differs_mid; discriminate
    | cbn; discriminate ].

Lemma special_sentence_initial (l sentence : string) :
  special_sentence l special_columns = Some sentence ->
  exists c rest, sentence = String c rest
    /\ (c = "A" \/ c = "H" \/ c = "S" \/ c = "U")%char.
Proof.
  cbn [special_sentence special_columns].
  repeat match goal with
         | |- context [if ?b then _ else _] => destruct b
         end; intros [= <-]; eauto 10.
Qed.

Lemma describe_without_id (column_name data_type : string) (analysis : profile) :
  id_pattern (PyStr.lower column_name) = false ->
  ~ In (describe_column column_name data_type analysis)
       (identifier_sentences (_clean_column_name column_name)).
Proof.
  intros Hid. unfold describe_column, identifier_sentences. rewrite Hid.
  destruct (special_sentence (PyStr.lower column_name) special_columns)
    as [sentence|] eqn:Sp.
  - destruct (special_sentence_initial _ _ Sp) as [c [rest [-> Hc]]].
    split_ifs; cbn [In]; intros [H|[H|[H|[]]]]; revert H;
      try other_sentence;
      cbn; intros [= <- _]; destruct Hc as [|[|[|]]]; discriminate.
  - unfold describe_by_type.
    split_ifs; cbn [In]; intros [H|[H|[H|[]]]]; revert H; other_sentence.
Qed.

Lemma describe_with_id (column_name data_type : string) (analysis : profile) :
  id_pattern (PyStr.lower column_name) = true ->
  In (describe_column column_name data_type analysis)
     (identifier_sentences (_clean_column_name column_name)).
Proof.
  intros Hid. unfold describe_column, identifier_sentences. rewrite Hid.
  split_ifs; cbn [In]; auto.
Qed.

(** C4 (amended): the description is one of the identifier sentences exactly
    when the lower-cased name starts with "id" or ends with "id" (a newline
    may follow at the very end), whatever stands next to these letters. *)
Theorem identifier_rule_exact (column_name data_type : string)
  (analysis : profile) :
  In (describe_column column_name data_type analysis)
     (identifier_sentences (_clean_column_name column_name))
  <-> PyStr.startswith "id" (PyStr.lower column_name) = true
      \/ PyStr.re_search_end "id" (PyStr.lower column_name) = true.
Proof.
  rewrite <- id_pattern_exact. split.
  - intros H. destruct (id_pattern (PyStr.lower column_name)) eqn:E; auto.
    elim (describe_without_id _ _ _ E H).
  - apply describe_with_id.
Qed.

(** C4 as stated fails: a name with the segment "id" in its middle does not
    get an identifier sentence, and a name that ends in "valid" does. *)
Lemma identifier_rule_not_by_segment :
  (In "id" (segments (PyStr.lower "user_id_hash"))
   /\ generate_column_description sample_runtime "user_id_hash" "VARCHAR(64)" []
      = Ok "Text field containing User identifier hash")
  /\ (~ In "id" (segments (PyStr.lower "is_valid"))
      /\ generate_column_description sample_runtime "is_valid" "BOOLEAN" []
         = Ok "Identifier for Is valid").
Proof.
  split; split; try reflexivity.
  - vm_compute. auto.
  - vm_compute. intros [H|[H|[]]]; discriminate.
Qed.

(** ** The flag rule *)

Lemma flag_pattern_exact (l : string) :
  flag_pattern l = PyStr.contains "is_" l || flag_suffix l.
Proof. unfold flag_pattern, flag_suffix. apply eq_sym, orb_assoc. Qed.

Lemma describe_flag (column_name data_type : string) (analysis : profile) :
  let l := PyStr.lower column_name in
  id_pattern l = false -> date_pattern l = false ->
  amount_pattern l = false -> count_pattern l = false ->
  (describe_column column_name data_type analysis
   = "Flag indicating " ++ _clean_column_name column_name
     ++ possible_values analysis
   <-> flag_pattern l = true).
Proof.
  intros l Hi Hd Ha Hc. unfold describe_column, possible_values. fold l.
  rewrite Hi, Hd, Ha, Hc.
  destruct (flag_pattern l) eqn:F.
  - split; reflexivity.
  - split; [|discriminate]. intros H. exfalso. revert H.
    destruct (special_sentence l special_columns) as [sentence|] eqn:Sp.
    + destruct (special_sentence_initial _ _ Sp) as [c [rest [-> Hc']]].
      cbn; intros [= -> _]; destruct Hc' as [|[|[|]]]; discriminate.
    + unfold describe_by_type.
      split_ifs; first [apply longer_differs_mid; discriminate | cbn; discriminate].
Qed.

(** C5 (amended): for a name no earlier rule matches, the description is
    the flag sentence exactly when the lower-cased name contains "is_"
    anywhere or ends with "_flag" or "_flg"; the values listed are the keys
    of [most_common(5)] of the sample texts: distinct, at most five, by
    decreasing count. *)
Theorem flag_rule_exact (rt : runtime) (column_name data_type : string)
  (sample_data : list pyval) (analysis : profile) :
  let l := PyStr.lower column_name in
  _analyze_sample_data rt sample_data = Ok analysis ->
  id_pattern l = false -> date_pattern l = false ->
  amount_pattern l = false -> count_pattern l = false ->
  (generate_column_description rt column_name data_type sample_data
   = Ok ("Flag indicating " ++ _clean_column_name column_name
         ++ possible_values analysis)
   <-> PyStr.contains "is_" l = true \/ PyStr.re_search_end "_flag" l = true
       \/ PyStr.re_search_end "_flg" l = true)
  /\ (forall common, common_values analysis = Some common ->
        common = most_common 5 (Counter (map (py_str rt) (not_none sample_data)))
        /\ common <> []
        /\ NoDup (map fst common)
        /\ descending common
        /\ (List.length common <= 5)%nat).
Proof.
  intros l A Hi Hd Ha Hc. split.
  - unfold generate_column_description. rewrite A. cbn [bind].
    pose proof (describe_flag column_name data_type analysis Hi Hd Ha Hc) as D.
    fold l in D. rewrite flag_pattern_exact in D. unfold flag_suffix in D.
    rewrite !orb_true_iff in D. rewrite <- D. split; [intros [= ->]|intros ->]; reflexivity.
  - intros common Hcommon. rewrite analyze_is_analyze_items in A.
    destruct (analyze_items_result _ _ _ A) as [ty [_ [_ [_ [_ C]]]]].
    destruct (C _ Hcommon) as [_ [Hne ->]].
    split; [reflexivity|]. split; [exact Hne|].
    split; [apply most_common_NoDup|].
    split; [apply most_common_descending|apply most_common_length].
Qed.

(** C5 as stated fails: "is_" inside the name triggers the flag rule. *)
Lemma flag_rule_inside_name :
  PyStr.startswith "is_" (PyStr.lower "analysis_type") = false
  /\ flag_suffix (PyStr.lower "analysis_type") = false
  /\ generate_column_description sample_runtime "analysis_type" "VARCHAR(20)"
       status_sample
     = Ok "Flag indicating Analysis type (possible values: closed, open)".
Proof. repeat split. Qed.

(** C5, an instance. *)
Lemma flag_rule_example :
  (generate_column_description sample_runtime "analysis_type" "VARCHAR(20)"
     status_sample
   = Ok "Flag indicating Analysis type (possible values: closed, open)"
   <-> PyStr.contains "is_" (PyStr.lower "analysis_type") = true
       \/ PyStr.re_search_end "_flag" (PyStr.lower "analysis_type") = true
       \/ PyStr.re_search_end "_flg" (PyStr.lower "analysis_type") = true)
  /\ (forall common,
        common_values status_profile = Some common ->
        common = most_common 5 (Counter (map (py_str sample_runtime) (not_none status_sample)))
        /\ common <> []
        /\ NoDup (map fst common)
        /\ descending common
        /\ (List.length common <= 5)%nat).
Proof.
  exact (flag_rule_exact sample_runtime "analysis_type" "VARCHAR(20)"
           status_sample status_profile
           eq_refl eq_refl eq_refl eq_refl eq_refl).
Defined.


(** ** The order of floats *)

Ltac compare_cases :=
  repeat match goal with
         | H : context [Z.compare ?a ?b] |- _ => destruct (Z.compare_spec a b)
         | |- context [Z.compare ?a ?b] => destruct (Z.compare_spec a b)
         | H : context [Pos.compare ?a ?b] |- _ => destruct (Pos.compare_spec a b)
         | |- context [Pos.compare ?a ?b] => destruct (Pos.compare_spec a b)
         end.

Ltac float_order :=
  unfold PyFloat.leb, PyFloat.ltb, SFleb, SFltb, SFcompare in *;
  repeat match goal with
         | s : bool |- _ => destruct s
         end;
  change (Pos.compare_cont Eq) with Pos.compare in *;
  compare_cases; cbn in *;
  try reflexivity; try discriminate; try lia.

Lemma leb_refl (a : spec_float) :
  PyFloat.is_nan a = false -> PyFloat.leb a a = true.
Proof. destruct a; intros H; try discriminate; float_order. Qed.

Lemma ltb_leb (a b : spec_float) :
  PyFloat.ltb a b = true -> PyFloat.leb a b = true.
Proof. destruct a, b; intros H; float_order. Qed.

Lemma not_ltb_leb (a b : spec_float) :
  PyFloat.is_nan a = false -> PyFloat.is_nan b = false ->
  PyFloat.ltb a b = false -> PyFloat.leb b a = true.
Proof. destruct a, b; intros Ha Hb H; try discriminate; float_order. Qed.

Lemma leb_trans (a b c : spec_float) :
  PyFloat.leb a b = true -> PyFloat.leb b c = true -> PyFloat.leb a c = true.
Proof. destruct a, b, c; intros H1 H2; float_order. Qed.

(** ** [min] and [max] *)

Lemma py_min_extreme (xs : list spec_float) :
  forall m,
    PyFloat.is_nan m = false ->
    Forall (fun f => PyFloat.is_nan f = false) xs ->
    In (py_min m xs) (m :: xs)
    /\ PyFloat.leb (py_min m xs) m = true
    /\ Forall (fun f => PyFloat.leb (py_min m xs) f = true) xs.
Proof.
  unfold py_min.
  induction xs as [|y ys IH]; intros m Hm Hxs; cbn [fold_left].
  - repeat split; [left; reflexivity | apply leb_refl, Hm | constructor].
  - inversion Hxs as [|? ? Hy Hys]; subst.
    set (m' := if PyFloat.ltb y m then y else m).
    assert (Hm' : PyFloat.is_nan m' = false)
      by (unfold m'; destruct (PyFloat.ltb y m); assumption).
    assert (Lm : PyFloat.leb m' m = true).
    { unfold m'. destruct (PyFloat.ltb y m) eqn:L;
        [apply ltb_leb, L | apply leb_refl, Hm]. }
    assert (Ly : PyFloat.leb m' y = true).
    { unfold m'. destruct (PyFloat.ltb y m) eqn:L;
        [apply leb_refl, Hy | apply not_ltb_leb; assumption]. }
    destruct (IH m' Hm' Hys) as [I [L F]]. repeat split.
    + destruct I as [I|I]; [|right; right; exact I].
      rewrite <- I. unfold m'. destruct (PyFloat.ltb y m); cbn; auto.
    + exact (leb_trans _ _ _ L Lm).
    + constructor; [exact (leb_trans _ _ _ L Ly) | exact F].
Qed.

Lemma py_max_extreme (xs : list spec_float) :
  forall m,
    PyFloat.is_nan m = false ->
    Forall (fun f => PyFloat.is_nan f = false) xs ->
    In (py_max m xs) (m :: xs)
    /\ PyFloat.leb m (py_max m xs) = true
    /\ Forall (fun f => PyFloat.leb f (py_max m xs) = true) xs.
Proof.
  unfold py_max.
  induction xs as [|y ys IH]; intros m Hm Hxs; cbn [fold_left].
  - repeat split; [left; reflexivity | apply leb_refl, Hm | constructor].
  - inversion Hxs as [|? ? Hy Hys]; subst.
    set (m' := if PyFloat.ltb m y then y else m).
    assert (Hm' : PyFloat.is_nan m' = false)
      by (unfold m'; destruct (PyFloat.ltb m y); assumption).
    assert (Lm : PyFloat.leb m m' = true).
    { unfold m'. destruct (PyFloat.ltb m y) eqn:L;
        [apply ltb_leb, L | apply leb_refl, Hm]. }
    assert (Ly : PyFloat.leb y m' = true).
    { unfold m'. destruct (PyFloat.ltb m y) eqn:L;
        [apply leb_refl, Hy | apply not_ltb_leb; assumption]. }
    destruct (IH m' Hm' Hys) as [I [L F]]. repeat split.
    + destruct I as [I|I]; [|right; right; exact I].
      rewrite <- I. unfold m'. destruct (PyFloat.ltb m y); cbn; auto.
    + exact (leb_trans _ _ _ Lm L).
    + constructor; [exact (leb_trans _ _ _ Ly L) | exact F].
Qed.

(** ** The fields that do not read the numbers *)

Lemma is_none_by_name (x y : pyval) :
  type_name x = type_name y -> is_none x = is_none y.
Proof.
  destruct x as [|?|[]|?|[]], y as [|?|[]|?|[]]; cbn; intros H;
    try reflexivity; discriminate.
Qed.

Lemma not_none_maps (A : Type) (f : pyval -> A) (data : list pyval) :
  forall data',
    map type_name data' = map type_name data ->
    map f data' = map f data ->
    map type_name (not_none data') = map type_name (not_none data)
    /\ map f (not_none data') = map f (not_none data).
Proof.
  unfold not_none.
  induction data as [|x r IH]; intros [|x' r'] Hn Hf; try discriminate.
  - split; reflexivity.
  - cbn [map] in Hn, Hf. injection Hn as Hx Hr. injection Hf as Fx Fr.
    destruct (IH r' Hr Fr) as [I1 I2]. cbn [filter].
    rewrite (is_none_by_name _ _ Hx). destruct (is_none x); cbn [negb map].
    + split; assumption.
    + split; congruence.
Qed.

Lemma analyze_items_text_fields (rt : runtime) (data data' : list pyval)
  (p p' : profile) :
  map type_name (not_none data') = map type_name (not_none data) ->
  map (py_str rt) (not_none data') = map (py_str rt) (not_none data) ->
  analyze_items rt data = Ok p ->
  analyze_items rt data' = Ok p' ->
  p_type p' = p_type p
  /\ common_values p' = common_values p
  /\ entity_types p' = entity_types p.
Proof.
  intros Hn Hs. unfold analyze_items.
  destruct (scan_items data [] []) as [[ts ns]|e] eqn:S; cbn [bind]; [|discriminate].
  destruct (scan_items data' [] []) as [[ts' ns']|e] eqn:S'; cbn [bind]; [|discriminate].
  apply scan_items_result in S, S'. destruct S as [-> _], S' as [-> _].
  unfold predominant_type. rewrite Hn, Hs.
  destruct (match tally (map type_name (not_none data)) [] with
            | [] => Ok None
            | [t] => Ok (Some t)
            | _ => _
            end) as [ty|e]; cbn [bind]; [|discriminate].
  destruct (is_text_type ty); intros [= <-] [= <-]; repeat split.
Qed.

(** ** The numeric range *)

(** C7 (amended): when no item overflows the float range and no item
    converts to NaN, the range is present exactly when some item of a
    numeric class converts; [min] and [max] are then members of the converted
    values, below and above all of them; and the type, the frequent values
    and the entity categories depend on the type names and the texts of the
    items only, not on what their conversion gives. *)
Theorem numeric_range_of_coercible_items (rt : runtime) (data : list pyval) :
  Forall (fun item => in_float_range item = true) data ->
  Forall (fun f => PyFloat.is_nan f = false) (coerced data) ->
  exists p,
    _analyze_sample_data rt data = Ok p
    /\ (stats p <> None <-> exists n f, In (PNum n) data /\ py_float n = Ok f)
    /\ (forall st, stats p = Some st ->
          In (st_min st) (coerced data) /\ In (st_max st) (coerced data)
          /\ forall f, In f (coerced data) ->
               PyFloat.leb (st_min st) f = true
               /\ PyFloat.leb f (st_max st) = true)
    /\ (forall data' p',
          map type_name data' = map type_name data ->
          map (py_str rt) data' = map (py_str rt) data ->
          _analyze_sample_data rt data' = Ok p' ->
          p_type p' = p_type p
          /\ common_values p' = common_values p
          /\ entity_types p' = entity_types p).
Proof.
  intros Hrange Hnan.
  destruct (analyze_total rt data Hrange) as [p A]. exists p.
  split; [exact A|]. rewrite analyze_is_analyze_items in A.
  destruct (analyze_items_result _ _ _ A) as [ty [_ [_ [S _]]]].
  split; [|split].
  - rewrite S. split.
    + intros H. destruct (coerced data) as [|f fs] eqn:C; [contradiction|].
      destruct (proj1 (coerced_In data f)) as [n Hn]; [rewrite C; cbn; auto|eauto].
    + intros [n [f [Hn F]]].
      pose proof (proj2 (coerced_In data f) (ex_intro _ n (conj Hn F))) as Hin.
      destruct (coerced data); [destruct Hin|discriminate].
  - intros st Hst. rewrite S in Hst.
    destruct (coerced data) as [|x xs]; [discriminate|].
    injection Hst as <-. cbn [st_min st_max].
    inversion Hnan as [|? ? Hx Hxs]; subst.
    destruct (py_min_extreme xs x Hx Hxs) as [I1 [L1 F1]].
    destruct (py_max_extreme xs x Hx Hxs) as [I2 [L2 F2]].
    split; [exact I1|]. split; [exact I2|].
    rewrite Forall_forall in F1, F2.
    intros f [<-|Hf]; split; auto.
  - intros data' p' Hn Hs A'. rewrite analyze_is_analyze_items in A'.
    destruct (not_none_maps _ (py_str rt) data data' Hn Hs) as [Hn' Hs'].
    exact (analyze_items_text_fields rt data data' p p' Hn' Hs' A A').
Qed.

(** C7, an instance: the signalling NaN is skipped. *)
Lemma numeric_range_example :
  exists p,
    _analyze_sample_data sample_runtime numbers_sample = Ok p
    /\ (stats p <> None
        <-> exists n f, In (PNum n) numbers_sample /\ py_float n = Ok f)
    /\ (forall st, stats p = Some st ->
          In (st_min st) (coerced numbers_sample)
          /\ In (st_max st) (coerced numbers_sample)
          /\ forall f, In f (coerced numbers_sample) ->
               PyFloat.leb (st_min st) f = true
               /\ PyFloat.leb f (st_max st) = true)
    /\ (forall data' p',
          map type_name data' = map type_name numbers_sample ->
          map (py_str sample_runtime) data' = map (py_str sample_runtime) numbers_sample ->
          _analyze_sample_data sample_runtime data' = Ok p' ->
          p_type p' = p_type p
          /\ common_values p' = common_values p
          /\ entity_types p' = entity_types p).
Proof.
  apply (numeric_range_of_coercible_items sample_runtime numbers_sample);
    repeat constructor.
Defined.

(** C7 as stated fails: after a leading NaN, [min] and [max] are NaN, which
    is neither below nor above the other number. *)
Lemma nan_is_not_the_minimum :
  exists p st one,
    _analyze_sample_data sample_runtime nan_first_sample = Ok p
    /\ stats p = Some st
    /\ py_float (NInt 1) = Ok one
    /\ In one (coerced nan_first_sample)
    /\ PyFloat.leb (st_min st) one = false
    /\ PyFloat.leb one (st_max st) = false.
Proof.
  do 3 eexists. split; [vm_compute; reflexivity|].
  split; [reflexivity|]. split; [vm_compute; reflexivity|].
  split; [vm_compute; auto|]. split; reflexivity.
Qed.


(** ** Fixed-point notation *)

Lemma digit_not_sign (c : ascii) :
  PyStr.is_digit c = true ->
  Ascii.eqb c "-" = false /\ Ascii.eqb c "." = false.
Proof.
  intros H. split; destruct (Ascii.eqb_spec c "-"), (Ascii.eqb_spec c ".");
    subst; try reflexivity; discriminate.
Qed.

Lemma split_head_digits (w rest : string) :
  all_digits w = true ->
  PyStr.split_head "." (w ++ String "." rest) = w
  /\ after_point (w ++ String "." rest) = Some rest.
Proof.
  induction w as [|c w IH]; cbn; [auto|].
  intros H. apply andb_true_iff in H. destruct H as [Hc Hw].
  destruct (digit_not_sign c Hc) as [_ ->]. destruct (IH Hw) as [-> ->]. auto.
Qed.

Lemma unsigned_digits (w rest : string) :
  all_digits w = true -> w <> EmptyString ->
  forall neg, unsigned (PyFloat.sign_text neg ++ w ++ rest) = w ++ rest.
Proof.
  intros Hw Hne neg. destruct w as [|c w]; [congruence|].
  cbn [all_digits] in Hw. apply andb_true_iff in Hw.
  destruct neg; cbn [PyFloat.sign_text append unsigned]; [reflexivity|].
  destruct (digit_not_sign c (proj1 Hw)) as [-> _]. reflexivity.
Qed.

Lemma two_decimals_fixed (neg : bool) (w f : string) :
  all_digits w = true -> w <> EmptyString ->
  all_digits f = true -> String.length f = 2%nat ->
  two_decimals (PyFloat.sign_text neg ++ w ++ "." ++ f) = true.
Proof.
  intros Hw Hne Hf Hl. unfold two_decimals.
  rewrite (unsigned_digits w ("." ++ f) Hw Hne neg).
  change ("." ++ f) with (String "." f).
  destruct (split_head_digits w f Hw) as [-> ->].
  rewrite Hw, Hf, Hl. destruct w; [congruence|reflexivity].
Qed.

Lemma uint_digits (d : Decimal.uint) :
  all_digits (NilEmpty.string_of_uint d) = true.
Proof. induction d; cbn; auto. Qed.

Lemma of_Z_digits (z : Z) :
  (0 <= z)%Z -> all_digits (PyStr.of_Z z) = true /\ PyStr.of_Z z <> EmptyString.
Proof.
  intros H. unfold PyStr.of_Z. destruct z as [|p|p]; [| |lia].
  - cbn. split; [reflexivity|discriminate].
  - cbn [Z.to_int NilZero.string_of_int NilZero.string_of_uint].
    destruct (Pos.to_uint p) eqn:E;
      (split; [try reflexivity; apply (uint_digits (_ u)) | discriminate]).
Qed.

Lemma of_Z_one_digit (z : Z) :
  (0 <= z < 10)%Z ->
  all_digits (PyStr.of_Z z) = true /\ String.length (PyStr.of_Z z) = 1%nat.
Proof.
  intros H.
  assert (z = 0 \/ z = 1 \/ z = 2 \/ z = 3 \/ z = 4 \/ z = 5 \/ z = 6
          \/ z = 7 \/ z = 8 \/ z = 9)%Z as C by lia.
  repeat (destruct C as [->|C]; [split; reflexivity|]). subst. split; reflexivity.
Qed.

Lemma two_digits_fixed (z : Z) :
  (0 <= z < 100)%Z ->
  all_digits (PyFloat.two_digits z) = true
  /\ String.length (PyFloat.two_digits z) = 2%nat.
Proof.
  intros H. unfold PyFloat.two_digits.
  destruct (of_Z_one_digit (z / 10)) as [A1 L1].
  { split; [apply Z.div_pos; lia | apply Z.div_lt_upper_bound; lia]. }
  destruct (of_Z_one_digit (z mod 10)) as [A2 L2].
  { apply Z.mod_pos_bound. lia. }
  rewrite append_length, L1, L2. split; [|reflexivity].
  destruct (PyStr.of_Z (z / 10)) as [|c [|? ?]]; try discriminate.
  cbn in *. rewrite A2. rewrite andb_true_r in A1. rewrite A1. reflexivity.
Qed.

Lemma hundredths_nonneg (m : positive) (e : Z) :
  (0 <= PyFloat.hundredths m e)%Z.
Proof.
  unfold PyFloat.hundredths. destruct e as [|p|p].
  - cbn. lia.
  - apply Z.mul_nonneg_nonneg; [lia|]. apply Z.pow_nonneg. lia.
  - pose proof (Z_div_mod (Z.pos m * 100) (2 ^ Z.pos p)) as D.
    assert (P : (0 < 2 ^ Z.pos p)%Z) by (apply Z.pow_pos_nonneg; lia).
    destruct (Z.div_eucl (Z.pos m * 100) (2 ^ Z.pos p)) as [q r].
    destruct D as [D1 D2]; [lia|].
    assert (0 <= q)%Z by nia.
    destruct (2 * r ?= 2 ^ Z.pos p)%Z; [destruct (Z.even q)| |]; lia.
Qed.

(** The printed number is a nearest number of hundredths to the exact
    value of the float, and the even one of two nearest. *)
Lemma hundredths_nearest (m : positive) (p : positive) :
  let h := PyFloat.hundredths m (Zneg p) in
  let err := (Z.pos m * 100 - h * 2 ^ Z.pos p)%Z in
  (2 * Z.abs err <= 2 ^ Z.pos p)%Z
  /\ ((2 * Z.abs err = 2 ^ Z.pos p)%Z -> Z.even h = true).
Proof.
  cbv zeta. unfold PyFloat.hundredths.
  pose proof (Z_div_mod (Z.pos m * 100) (2 ^ Z.pos p)) as D.
  assert (P : (0 < 2 ^ Z.pos p)%Z) by (apply Z.pow_pos_nonneg; lia).
  destruct (Z.div_eucl (Z.pos m * 100) (2 ^ Z.pos p)) as [q r].
  destruct D as [D1 D2]; [lia|].
  destruct (Z.compare_spec (2 * r) (2 ^ Z.pos p)) as [E|L|G].
  - destruct (Z.even q) eqn:Ev.
    + split; [lia|auto].
    + split; [lia|]. intros _. rewrite Z.even_add, Ev. reflexivity.
  - split; lia.
  - split; lia.
Qed.

Lemma read_of_Z (z : Z) : (0 <= z)%Z -> read_Z (PyStr.of_Z z) = Some z.
Proof.
  intros H. unfold read_Z, PyStr.of_Z.
  rewrite NilZero.isi.
  - cbn [option_map]. rewrite DecimalZ.of_to. reflexivity.
  - destruct z as [|p|p]; cbn; try discriminate.
    intros [= E]. revert E. apply DecimalPos.Unsigned.to_uint_nonnil.
  - destruct z as [|p|p]; cbn; try discriminate. lia.
Qed.

Lemma read_two_digits (z : Z) :
  (0 <= z < 100)%Z -> read_Z (PyFloat.two_digits z) = Some z.
Proof.
  intros H.
  assert (A : forallb (fun n =>
                match read_Z (PyFloat.two_digits (Z.of_nat n)) with
                | Some v => (v =? Z.of_nat n)%Z
                | None => false
                end) (seq 0 100) = true) by (vm_compute; reflexivity).
  rewrite forallb_forall in A. specialize (A (Z.to_nat z)).
  rewrite Z2Nat.id in A by lia.
  assert (I : In (Z.to_nat z) (seq 0 100)) by (apply in_seq; lia).
  specialize (A I). destruct (read_Z (PyFloat.two_digits z)) as [v|]; [|discriminate].
  apply Z.eqb_eq in A. congruence.
Qed.

Lemma hundredths_of_fixed (h : Z) :
  (0 <= h)%Z ->
  hundredths_of_text
    (PyStr.of_Z (h / 100) ++ "." ++ PyFloat.two_digits (h mod 100)) = Some h.
Proof.
  intros H. unfold hundredths_of_text.
  destruct (of_Z_digits (h / 100)) as [W N]; [apply Z.div_pos; lia|].
  change ("." ++ PyFloat.two_digits (h mod 100))
    with (String "." (PyFloat.two_digits (h mod 100))).
  destruct (split_head_digits _ (PyFloat.two_digits (h mod 100)) W) as [-> ->].
  rewrite read_of_Z by (apply Z.div_pos; lia).
  rewrite read_two_digits by (apply Z.mod_pos_bound; lia).
  f_equal. pose proof (Z.div_mod h 100). lia.
Qed.

Lemma sign_text_start (neg : bool) (w rest : string) :
  all_digits w = true -> w <> EmptyString ->
  PyStr.startswith "-" (PyFloat.sign_text neg ++ w ++ rest) = neg.
Proof.
  intros Hw Hne. destruct w as [|c w]; [congruence|].
  cbn [all_digits] in Hw. apply andb_true_iff in Hw.
  destruct (digit_not_sign c (proj1 Hw)) as [E _].
  destruct neg; cbn [PyFloat.sign_text append PyStr.startswith String.prefix].
  - destruct (ascii_dec "-" "-"); [reflexivity|congruence].
  - destruct (ascii_dec "-" c) as [<-|]; [discriminate|reflexivity].
Qed.

Lemma hundredths_rounds (neg : bool) (m : positive) (e : Z) :
  nearest_hundredths (S754_finite neg m e) (PyFloat.hundredths m e).
Proof.
  unfold nearest_hundredths. destruct e as [|p|p].
  - reflexivity.
  - reflexivity.
  - apply hundredths_nearest.
Qed.

(** The nearest number of hundredths, even in a tie, is unique. *)
Lemma nearest_hundredths_unique (x : spec_float) (h h' : Z) :
  nearest_hundredths x h -> nearest_hundredths x h' -> h = h'.
Proof.
  destruct x as [s|s| |s m [|p|p]]; cbn [nearest_hundredths]; intros H H';
    try congruence; try (destruct H; fail).
  cbv zeta in H, H'.
  assert (P : (0 < 2 ^ Z.pos p)%Z) by (apply Z.pow_pos_nonneg; lia).
  set (d := (2 ^ Z.pos p)%Z) in *. destruct H as [A T], H' as [A' T'].
  assert (C : (h = h' \/ h = h' + 1 \/ h' = h + 1)%Z) by nia.
  destruct C as [C|[C|C]]; [exact C| |]; exfalso.
  - assert (E : (2 * Z.abs (Z.pos m * 100 - h * d) = d)%Z) by nia.
    assert (E' : (2 * Z.abs (Z.pos m * 100 - h' * d) = d)%Z) by nia.
    specialize (T E). specialize (T' E'). subst h.
    rewrite Z.even_add, T' in T. discriminate.
  - assert (E : (2 * Z.abs (Z.pos m * 100 - h * d) = d)%Z) by nia.
    assert (E' : (2 * Z.abs (Z.pos m * 100 - h' * d) = d)%Z) by nia.
    specialize (T E). specialize (T' E'). subst h'.
    rewrite Z.even_add, T in T'. discriminate.
Qed.

(** C9 (amended): when the amount rule is the first to match and the profile
    has a range, the description ends with the range written by the format
    [.2f].  The text of a finite bound is an optional sign, digits, a point
    and exactly two digits; it starts with a minus sign exactly when the
    sign bit of the float is set, and the number of hundredths it denotes is
    the one nearest to the exact value of the float, the even one when two
    are equally near.  A bound that is not finite is written as the word
    [nan], [inf] or [-inf].  The float of the decimal 99.995 lies above it
    and is written [100.00]. *)
Theorem amount_range_two_decimals (rt : runtime) (column_name data_type : string)
  (sample_data : list pyval) (analysis : profile) (st : stats_t) :
  let l := PyStr.lower column_name in
  _analyze_sample_data rt sample_data = Ok analysis ->
  stats analysis = Some st ->
  id_pattern l = false -> date_pattern l = false -> amount_pattern l = true ->
  generate_column_description rt column_name data_type sample_data
  = Ok ("Monetary amount for " ++ _clean_column_name column_name
        ++ " (ranges from " ++ PyFloat.format_2f (st_min st)
        ++ " to " ++ PyFloat.format_2f (st_max st) ++ ")")
  /\ (forall x, PyFloat.is_finite x = true ->
        two_decimals (PyFloat.format_2f x) = true
        /\ PyStr.startswith "-" (PyFloat.format_2f x) = sign_bit x
        /\ exists h,
             hundredths_of_text (unsigned (PyFloat.format_2f x)) = Some h
             /\ nearest_hundredths x h
             /\ PyFloat.format_2f x
                = PyFloat.sign_text (sign_bit x) ++ PyStr.of_Z (h / 100)
                  ++ "." ++ PyFloat.two_digits (h mod 100))
  /\ (forall x, PyFloat.is_finite x = false ->
        PyFloat.format_2f x = word_of x)
  /\ (float_of_decimal d_99_995 = Ok near_99_995
      /\ PyFloat.format_2f near_99_995 = "100.00").
Proof.
  intros l A S Hi Hd Ha. split; [|split; [|split]].
  - unfold generate_column_description. rewrite A. cbn [bind].
    unfold describe_column. fold l. rewrite Hi, Hd, Ha, S. reflexivity.
  - intros [neg|neg| |neg m e] F; try discriminate.
    + split; [destruct neg; reflexivity|].
      split; [destruct neg; reflexivity|].
      exists 0%Z. repeat split; destruct neg; reflexivity.
    + cbn [PyFloat.format_2f sign_bit].
      pose proof (hundredths_nonneg m e) as H.
      destruct (of_Z_digits (PyFloat.hundredths m e / 100)) as [W N].
      { apply Z.div_pos; lia. }
      destruct (two_digits_fixed (PyFloat.hundredths m e mod 100)) as [T L].
      { apply Z.mod_pos_bound. lia. }
      split; [apply two_decimals_fixed; assumption|].
      split; [apply sign_text_start; assumption|].
      exists (PyFloat.hundredths m e).
      rewrite (unsigned_digits _ _ W N neg).
      split; [apply hundredths_of_fixed, H|].
      split; [apply hundredths_rounds|reflexivity].
  - intros [neg|neg| |neg m e] F; try discriminate; [destruct neg|]; reflexivity.
  - split; reflexivity.
Qed.

(** C9, an instance: the range of 10 and 99.999. *)
Lemma amount_range_example :
  generate_column_description sample_runtime "total_amount" "NUMBER(10,3)"
    price_sample
  = Ok "Monetary amount for Total amount (ranges from 10.00 to 100.00)"
  /\ (forall x, PyFloat.is_finite x = true ->
        two_decimals (PyFloat.format_2f x) = true
        /\ PyStr.startswith "-" (PyFloat.format_2f x) = sign_bit x
        /\ exists h,
             hundredths_of_text (unsigned (PyFloat.format_2f x)) = Some h
             /\ nearest_hundredths x h
             /\ PyFloat.format_2f x
                = PyFloat.sign_text (sign_bit x) ++ PyStr.of_Z (h / 100)
                  ++ "." ++ PyFloat.two_digits (h mod 100))
  /\ (forall x, PyFloat.is_finite x = false ->
        PyFloat.format_2f x = word_of x)
  /\ (float_of_decimal d_99_995 = Ok near_99_995
      /\ PyFloat.format_2f near_99_995 = "100.00").
Proof.
  exact (amount_range_two_decimals sample_runtime "total_amount" "NUMBER(10,3)"
           price_sample price_profile price_range
           eq_refl eq_refl eq_refl eq_refl eq_refl).
Defined.

(** C9 as stated fails: an infinite bound is written as a word. *)
Lemma infinite_range_has_no_decimals :
  generate_column_description sample_runtime "total_amount" "FLOAT"
    infinite_sample
  = Ok "Monetary amount for Total amount (ranges from inf to inf)"
  /\ two_decimals (PyFloat.format_2f (S754_infinity false)) = false.
Proof. split; reflexivity. Qed.

(** The format rounds the exact binary value: the float nearest to 99.995
    lies above it and is written 100.00; 2.675 and 0.125 go down. *)
Example format_2f_rounding :
  PyFloat.format_2f near_99_995 = "100.00"
  /\ PyFloat.format_2f (S754_finite false 6023564501608038 (-51)) = "2.67"
  /\ PyFloat.format_2f (S754_finite false 1 (-3)) = "0.12"
  /\ PyFloat.format_2f (S754_finite false 3 (-3)) = "0.38".
Proof. repeat split. Qed.

(** * Further properties *)

(** ** Underscores and letter case *)

Lemma contains_underscore_cons (c : ascii) (s : string) :
  PyStr.contains "_" (String c s) = Ascii.eqb c "_" || PyStr.contains "_" s.
Proof.
  cbn [PyStr.contains String.prefix].
  destruct (ascii_dec "_" c) as [<-|N].
  - destruct s; reflexivity.
  - destruct (Ascii.eqb_spec c "_"); [congruence|reflexivity].
Qed.

Lemma contains_underscore_app (a b : string) :
  PyStr.contains "_" (a ++ b)
  = PyStr.contains "_" a || PyStr.contains "_" b.
Proof.
  induction a as [|c a IH].
  - cbn [append]. destruct b; reflexivity.
  - cbn [append]. rewrite !contains_underscore_cons, IH. apply orb_assoc.
Qed.

Lemma lower_char_underscore (c : ascii) :
  Ascii.eqb (PyStr.lower_char c) "_" = Ascii.eqb c "_".
Proof. destruct c as [[] [] [] [] [] [] [] []]; reflexivity. Qed.

Lemma upper_char_underscore (c : ascii) :
  Ascii.eqb (PyStr.upper_char c) "_" = Ascii.eqb c "_".
Proof. destruct c as [[] [] [] [] [] [] [] []]; reflexivity. Qed.

Lemma lower_char_idempotent (c : ascii) :
  PyStr.lower_char (PyStr.lower_char c) = PyStr.lower_char c.
Proof. destruct c as [[] [] [] [] [] [] [] []]; reflexivity. Qed.

Lemma prefix_underscore (c : ascii) (s : string) :
  String.prefix "_" (String c s) = Ascii.eqb c "_".
Proof.
  cbn [String.prefix]. destruct (ascii_dec "_" c) as [<-|N].
  - destruct s; reflexivity.
  - destruct (Ascii.eqb_spec c "_"); [congruence|reflexivity].
Qed.

Lemma replace_underscore_lower (s : string) :
  forall skip,
    PyStr.lower (PyStr.replace_from "_" " " skip s)
    = PyStr.replace_from "_" " " skip (PyStr.lower s).
Proof.
  induction s as [|c s IH]; intros skip; [reflexivity|].
  cbn [PyStr.lower PyStr.replace_from]. destruct skip as [|k]; [|apply IH].
  rewrite !prefix_underscore, lower_char_underscore.
  destruct (Ascii.eqb c "_"); cbn; rewrite IH; reflexivity.
Qed.

Lemma replace_underscore_none (s : string) :
  forall skip,
    PyStr.contains "_" (PyStr.replace_from "_" " " skip s) = false.
Proof.
  induction s as [|c s IH]; intros skip; [reflexivity|].
  cbn [PyStr.replace_from]. destruct skip as [|k]; [|apply IH].
  rewrite prefix_underscore. destruct (Ascii.eqb c "_") eqn:E.
  - cbn [String.length Nat.sub append]. rewrite contains_underscore_cons, IH. reflexivity.
  - rewrite contains_underscore_cons, E, IH. reflexivity.
Qed.

Lemma lower_underscore (s : string) :
  PyStr.contains "_" (PyStr.lower s) = PyStr.contains "_" s.
Proof.
  induction s as [|c s IH]; [reflexivity|].
  cbn [PyStr.lower]. rewrite !contains_underscore_cons, lower_char_underscore, IH.
  reflexivity.
Qed.

Lemma sub_word_underscore (w rep : string) (s : string) :
  PyStr.contains "_" rep = false ->
  forall prev skip,
    PyStr.contains "_" s = false ->
    PyStr.contains "_" (PyStr.sub_word_from w rep prev skip s) = false.
Proof.
  intros Hrep. induction s as [|c s IH]; intros prev skip H; [reflexivity|].
  rewrite contains_underscore_cons in H. apply orb_false_iff in H.
  destruct H as [Hc Hs]. cbn [PyStr.sub_word_from].
  destruct skip as [|k]; [|apply IH, Hs].
  destruct (negb prev && String.prefix w (String c s)
            && negb (PyStr.word_at (String.length w) (String c s))).
  - rewrite contains_underscore_app, Hrep, IH; auto.
  - rewrite contains_underscore_cons, Hc, IH; auto.
Qed.

Lemma expansions_underscore (table : list (string * string)) :
  forallb (fun p => negb (PyStr.contains "_" (snd p))) table = true ->
  forall s,
    PyStr.contains "_" s = false ->
    PyStr.contains "_"
      (fold_left (fun acc p => PyStr.sub_word (fst p) (snd p) acc) table s)
    = false.
Proof.
  induction table as [|[w rep] table IH]; intros Ht s Hs; [exact Hs|].
  cbn [forallb] in Ht. apply andb_true_iff in Ht. destruct Ht as [Hr Ht].
  cbn [fold_left fst snd]. apply IH; [exact Ht|].
  apply sub_word_underscore; [|exact Hs].
  apply negb_true_iff in Hr. exact Hr.
Qed.

(** X1: a cleaned name never holds an underscore: the underscores of the
    name become spaces and no abbreviation brings one back. *)
Theorem clean_name_has_no_underscore (column_name : string) :
  PyStr.contains "_" (_clean_column_name column_name) = false.
Proof.
  unfold _clean_column_name, PyStr.replace.
  set (s := fold_left _ abbreviations _).
  assert (Hs : PyStr.contains "_" s = false).
  { apply expansions_underscore; [reflexivity|].
    rewrite lower_underscore. apply replace_underscore_none. }
  destruct s as [|c s]; [reflexivity|]. cbn [capitalize_first].
  rewrite contains_underscore_cons in *. rewrite upper_char_underscore. exact Hs.
Qed.

(** The cleaned name is a function of the lower-cased name. *)
Lemma clean_name_of_lower (column_name : string) :
  _clean_column_name column_name = _clean_column_name (PyStr.lower column_name).
Proof.
  unfold _clean_column_name, PyStr.replace.
  rewrite !replace_underscore_lower.
  assert (I : PyStr.lower (PyStr.lower column_name) = PyStr.lower column_name).
  { induction column_name as [|c s IH]; [reflexivity|].
    cbn [PyStr.lower]. rewrite lower_char_idempotent, IH. reflexivity. }
  rewrite I. reflexivity.
Qed.

Lemma lower_idempotent (s : string) : PyStr.lower (PyStr.lower s) = PyStr.lower s.
Proof.
  induction s as [|c s IH]; [reflexivity|].
  cbn [PyStr.lower]. rewrite lower_char_idempotent, IH. reflexivity.
Qed.

(** X2: the description of a column does not depend on the case of the
    letters of its name: two names with the same lower-cased form get the
    same description (or the same exception) for the same type and sample. *)
Theorem column_description_ignores_case (rt : runtime)
  (column_name other_name data_type : string) (sample_data : list pyval) :
  PyStr.lower column_name = PyStr.lower other_name ->
  generate_column_description rt column_name data_type sample_data
  = generate_column_description rt other_name data_type sample_data.
Proof.
  intros H. unfold generate_column_description, describe_column.
  rewrite (clean_name_of_lower column_name), (clean_name_of_lower other_name), H.
  reflexivity.
Qed.

(** X2, an instance: an upper-case name as the warehouse reports it. *)
Lemma column_description_ignores_case_example :
  PyStr.lower "CUSTOMER_ID" = PyStr.lower "customer_id"
  /\ generate_column_description sample_runtime "CUSTOMER_ID" "NUMBER(38,0)" []
     = generate_column_description sample_runtime "customer_id" "NUMBER(38,0)" [].
Proof.
  split; [reflexivity|].
  exact (column_description_ignores_case sample_runtime "CUSTOMER_ID"
           "customer_id" "NUMBER(38,0)" [] eq_refl).
Defined.


(** ** The table description and letter case *)

Lemma scan_columns_of_lower (columns others : list column) :
  map (fun c => PyStr.lower (name c)) columns
  = map (fun c => PyStr.lower (name c)) others ->
  scan_columns columns = scan_columns others.
Proof.
  unfold scan_columns. generalize no_signals. revert others.
  induction columns as [|c r IH]; intros [|c' r'] st H; try discriminate.
  - reflexivity.
  - cbn [map] in H. injection H as Hc Hr. cbn [fold_left].
    assert (E : scan_column st c = scan_column st c')
      by (unfold scan_column; rewrite Hc; reflexivity).
    rewrite E. apply IH, Hr.
Qed.

(** X3: the description of a table does not depend on the case of the
    letters of the table name and of the column names. *)
Theorem table_description_ignores_case (rt : runtime)
  (table_name other_name : string) (columns others : list column) :
  PyStr.lower table_name = PyStr.lower other_name ->
  map (fun c => PyStr.lower (name c)) columns
  = map (fun c => PyStr.lower (name c)) others ->
  generate_table_description rt table_name columns
  = generate_table_description rt other_name others.
Proof.
  intros Ht Hc. unfold generate_table_description.
  rewrite (scan_columns_of_lower _ _ Hc).
  rewrite (clean_name_of_lower table_name), (clean_name_of_lower other_name), Ht.
  reflexivity.
Qed.

(** X3, an instance. *)
Lemma table_description_ignores_case_example :
  PyStr.lower "ORDERS" = PyStr.lower "orders"
  /\ map (fun c => PyStr.lower (name c)) [named "CUSTOMER_ID"; named "Order_Date"]
     = map (fun c => PyStr.lower (name c)) [named "customer_id"; named "order_date"]
  /\ generate_table_description sample_runtime "ORDERS"
       [named "CUSTOMER_ID"; named "Order_Date"]
     = generate_table_description sample_runtime "orders"
       [named "customer_id"; named "order_date"].
Proof.
  split; [reflexivity|]. split; [reflexivity|].
  exact (table_description_ignores_case sample_runtime "ORDERS" "orders"
           [named "CUSTOMER_ID"; named "Order_Date"]
           [named "customer_id"; named "order_date"] eq_refl eq_refl).
Defined.

(** ** Non-empty descriptions *)

Lemma non_empty_app_l (a b : string) :
  non_empty a = true -> non_empty (a ++ b) = true.
Proof. destruct a; [discriminate|reflexivity]. Qed.

Lemma sub_word_non_empty (w rep s : string) :
  non_empty rep = true -> non_empty s = true ->
  non_empty (PyStr.sub_word w rep s) = true.
Proof.
  intros Hr Hs. destruct s as [|c s]; [discriminate|].
  unfold PyStr.sub_word. cbn [PyStr.sub_word_from].
  destruct (negb false && _ && _); [apply non_empty_app_l, Hr|reflexivity].
Qed.

Lemma expansions_non_empty (table : list (string * string)) :
  forallb (fun p => non_empty (snd p)) table = true ->
  forall s,
    non_empty s = true ->
    non_empty (fold_left (fun acc p => PyStr.sub_word (fst p) (snd p) acc) table s)
    = true.
Proof.
  induction table as [|[w rep] table IH]; intros Ht s Hs; [exact Hs|].
  cbn [forallb] in Ht. apply andb_true_iff in Ht. destruct Ht as [Hr Ht].
  cbn [fold_left fst snd]. apply IH; [exact Ht|].
  apply sub_word_non_empty; assumption.
Qed.

Lemma clean_name_non_empty (column_name : string) :
  non_empty column_name = true ->
  non_empty (_clean_column_name column_name) = true.
Proof.
  intros H. unfold _clean_column_name.
  set (s := fold_left _ abbreviations _).
  assert (Hs : non_empty s = true).
  { apply expansions_non_empty; [reflexivity|].
    destruct column_name as [|c r]; [discriminate|].
    unfold PyStr.replace. cbn [PyStr.replace_from].
    destruct (String.prefix "_" (String c r)); reflexivity. }
  destruct s; [discriminate|reflexivity].
Qed.

Lemma special_sentence_non_empty (l sentence : string) :
  special_sentence l special_columns = Some sentence ->
  non_empty sentence = true.
Proof.
  intros H. destruct (special_sentence_initial _ _ H) as [c [rest [-> _]]].
  reflexivity.
Qed.

(** X4: a column with a non-empty name gets a non-empty description,
    whatever its declared type and its profile. *)
Theorem column_description_non_empty (column_name data_type : string)
  (analysis : profile) :
  non_empty column_name = true ->
  non_empty (describe_column column_name data_type analysis) = true.
Proof.
  intros H. pose proof (clean_name_non_empty _ H) as C.
  unfold describe_column, describe_by_type.
  destruct (special_sentence (PyStr.lower column_name) special_columns)
    as [sentence|] eqn:Sp.
  - pose proof (special_sentence_non_empty _ _ Sp).
    repeat match goal with
           | |- context [if ?b then _ else _] => destruct b
           end; auto.
  - repeat match goal with
           | |- context [if ?b then _ else _] => destruct b
           end; auto.
Qed.

(** X4, an instance: a name no rule matches, without a declared type. *)
Lemma column_description_non_empty_example :
  non_empty "x" = true
  /\ non_empty (describe_column "x" "" empty_profile) = true.
Proof.
  split; [reflexivity|].
  exact (column_description_non_empty "x" "" empty_profile eq_refl).
Defined.


(** ** Counts *)

Lemma counter_get_add (k k' : string) (c : counter) :
  counter_get (counter_add k c) k'
  = (counter_get c k' + if String.eqb k' k then 1 else 0)%nat.
Proof.
  induction c as [|[x n] c IH]; cbn [counter_add counter_get].
  - destruct (String.eqb k' k); reflexivity.
  - destruct (String.eqb_spec k x) as [->|N]; cbn [counter_get].
    + destruct (String.eqb k' x); lia.
    + destruct (String.eqb_spec k' x) as [->|N'].
      * destruct (String.eqb_spec x k); [congruence|lia].
      * exact IH.
Qed.

Lemma counter_get_Counter (keys : list string) (k : string) :
  counter_get (Counter keys) k = count_occ string_dec keys k.
Proof.
  unfold Counter.
  assert (G : forall c, counter_get (fold_left (fun c k => counter_add k c) keys c) k
                        = (counter_get c k + count_occ string_dec keys k)%nat).
  { induction keys as [|x r IH]; intros c; cbn [fold_left count_occ]; [lia|].
    rewrite IH, counter_get_add.
    destruct (string_dec x k) as [->|N].
    - rewrite String.eqb_refl. lia.
    - destruct (String.eqb_spec k x); [congruence|lia]. }
  rewrite G. reflexivity.
Qed.

Lemma counter_get_In (c : counter) (k : string) (n : nat) :
  NoDup (map fst c) -> In (k, n) c -> counter_get c k = n.
Proof.
  induction c as [|[x m] c IH]; intros ND H; [destruct H|].
  cbn [map fst] in ND. inversion ND as [|? ? Hx ND']; subst.
  cbn [counter_get]. destruct H as [[= -> ->]|H].
  - rewrite String.eqb_refl. reflexivity.
  - destruct (String.eqb_spec k x) as [->|N]; [|apply IH; assumption].
    elim Hx. apply in_map_iff. exists (x, n). auto.
Qed.

Lemma Counter_entry (keys : list string) (k : string) (n : nat) :
  In (k, n) (Counter keys) -> n = count_occ string_dec keys k /\ In k keys.
Proof.
  intros H. split.
  - rewrite <- counter_get_Counter. symmetry.
    apply counter_get_In; [apply Counter_NoDup|exact H].
  - apply Counter_In. apply in_map_iff. exists (k, n). auto.
Qed.

Lemma Counter_holds (keys : list string) (k : string) :
  In k keys -> In (k, count_occ string_dec keys k) (Counter keys).
Proof.
  intros H. apply Counter_In, in_map_iff in H. destruct H as [[x n] [E H]].
  cbn in E. subst x. destruct (Counter_entry _ _ _ H) as [-> _]. exact H.
Qed.

(** ** The first entries of a ranking *)

Lemma descending_app (l1 l2 : counter) :
  descending (l1 ++ l2)%list ->
  forall a b, In a l1 -> In b l2 -> (snd b <= snd a)%nat.
Proof.
  unfold descending. induction l1 as [|x l1 IH]; intros H a b Ha Hb; [destruct Ha|].
  cbn [app] in H. inversion H as [|? ? Hs Hf]; subst.
  destruct Ha as [<-|Ha].
  - rewrite Forall_forall in Hf. apply Hf, in_or_app. right. exact Hb.
  - apply (IH Hs a b Ha Hb).
Qed.

Lemma most_common_top (n : nat) (c : counter) (a b : string * nat) :
  In a (most_common n c) -> In b c -> ~ In b (most_common n c) ->
  (snd b <= snd a)%nat.
Proof.
  unfold most_common. intros Ha Hb Hn.
  apply (descending_app (firstn n (ranked c)) (skipn n (ranked c))).
  - rewrite firstn_skipn. apply ranked_descending.
  - exact Ha.
  - apply (Permutation_in _ (Permutation_sym (ranked_perm c))) in Hb.
    rewrite <- (firstn_skipn n (ranked c)) in Hb.
    apply in_app_or in Hb. destruct Hb; [contradiction|assumption].
Qed.

Lemma most_common_In (n : nat) (c : counter) (a : string * nat) :
  In a (most_common n c) -> In a c.
Proof.
  unfold most_common. intros H. apply (Permutation_in _ (ranked_perm c)).
  rewrite <- (firstn_skipn n (ranked c)). apply in_or_app. left. exact H.
Qed.

Lemma NoDup_keys_entry (c : counter) (k : string) (n m : nat) :
  NoDup (map fst c) -> In (k, n) c -> In (k, m) c -> n = m.
Proof.
  intros ND H1 H2. rewrite <- (counter_get_In c k n ND H1).
  apply counter_get_In; assumption.
Qed.

Lemma entry_dec (a b : string * nat) : {a = b} + {a <> b}.
Proof. decide equality; [apply Nat.eq_dec|apply string_dec]. Qed.

(** ** The predominant type *)

Lemma tally_single (names : list string) (t : string) :
  tally names [] = [t] -> forall u, In u names -> u = t.
Proof.
  intros H u Hu.
  assert (In u (tally names [])) by (apply tally_In; auto).
  rewrite H in *. cbn in *. intuition.
Qed.

(** X5: the profile has no type exactly when the sample has no item besides
    [None]; otherwise its type is the type name of an item, and no type name
    occurs more often among the items that are not [None]. *)
Theorem predominant_type_is_most_frequent (rt : runtime) (data : list pyval)
  (p : profile) :
  _analyze_sample_data rt data = Ok p ->
  let names := map type_name (not_none data) in
  (p_type p = None <-> not_none data = [])
  /\ forall t, p_type p = Some t ->
       In t names
       /\ forall u, (count_occ string_dec names u <= count_occ string_dec names t)%nat.
Proof.
  rewrite analyze_is_analyze_items. intros A names.
  destruct (analyze_items_result _ _ _ A) as [ty [P [Ty _]]].
  rewrite Ty. clear Ty A. unfold predominant_type in P. fold names in P.
  pose proof (tally_In names []) as T.
  destruct (tally names []) as [|t [|t' ts]] eqn:E.
  - injection P as <-. split.
    + split; [intros _|reflexivity].
      destruct (not_none data) as [|x r] eqn:N; [reflexivity|].
      exfalso. apply (proj2 (T (type_name x))). left.
      unfold names. rewrite ?N. left. reflexivity.
    + discriminate.
  - injection P as <-. split.
    + split; [discriminate|]. intros N. subst names. rewrite N in E. discriminate.
    + intros ? [= <-]. split.
      * destruct (proj1 (T t)) as [H|[]]; cbn; auto.
      * intros u. destruct (string_dec u t) as [->|N]; [lia|].
        rewrite (proj1 (count_occ_not_In string_dec names u)); [lia|].
        intros Hu. apply N. exact (tally_single names t E u Hu).
  - destruct (most_common 1 (Counter names)) as [|[u n] l] eqn:M; [discriminate|].
    injection P as <-. split.
    + split; [discriminate|]. intros N. subst names. rewrite N in E. discriminate.
    + intros ? [= <-].
      assert (Hin : In (u, n) (most_common 1 (Counter names))) by (rewrite M; left; reflexivity).
      pose proof (most_common_In _ _ _ Hin) as Hc.
      destruct (Counter_entry _ _ _ Hc) as [Hn Hu]. split; [exact Hu|].
      intros v. destruct (in_dec string_dec v names) as [Hv|Hv].
      * pose proof (Counter_holds names v Hv) as Hvc.
        destruct (in_dec entry_dec (v, count_occ string_dec names v)
                    (most_common 1 (Counter names)))
          as [I|I].
        -- rewrite M in I. unfold most_common in M.
           assert (List.length ((u, n) :: l) <= 1)%nat
             by (rewrite <- M; apply firstn_le_length).
           destruct l; [|cbn in *; lia].
           destruct I as [[= -> ->]|[]]. lia.
        -- pose proof (most_common_top 1 _ _ _ Hin Hvc I) as L. cbn in L. lia.
      * rewrite (proj1 (count_occ_not_In string_dec names v) Hv). lia.
Qed.

(** X5, an instance: an integer and a decimal. *)
Lemma predominant_type_example :
  let names := map type_name (not_none price_sample) in
  (p_type price_profile = None <-> not_none price_sample = [])
  /\ forall t, p_type price_profile = Some t ->
       In t names
       /\ forall u, (count_occ string_dec names u <= count_occ string_dec names t)%nat.
Proof.
  exact (predominant_type_is_most_frequent sample_runtime price_sample
           price_profile eq_refl).
Defined.

(** ** The frequent values *)

(** X7: the frequent values of a profile carry their true counts in the
    sample, no text left out occurs more often than a listed one, and the
    list holds five values or all the distinct texts if they are fewer. *)
Theorem frequent_values_are_the_top_counts (rt : runtime) (data : list pyval)
  (p : profile) (common : counter) :
  _analyze_sample_data rt data = Ok p ->
  common_values p = Some common ->
  let texts := map (py_str rt) (not_none data) in
  (forall v n, In (v, n) common ->
     In v texts /\ n = count_occ string_dec texts v)
  /\ (forall w v n, In w texts -> ~ In w (map fst common) -> In (v, n) common ->
        (count_occ string_dec texts w <= n)%nat)
  /\ List.length common = Nat.min 5 (List.length (nodup string_dec texts)).
Proof.
  rewrite analyze_is_analyze_items. intros A C texts.
  destruct (analyze_items_result _ _ _ A) as [ty [_ [_ [_ [_ R]]]]].
  destruct (R _ C) as [_ [_ ->]]. fold texts. split; [|split].
  - intros v n H. apply most_common_In in H.
    destruct (Counter_entry _ _ _ H). auto.
  - intros w v n Hw Hn H.
    pose proof (Counter_holds texts w Hw) as Hc.
    assert (I : ~ In (w, count_occ string_dec texts w) (most_common 5 (Counter texts))).
    { intros I. apply Hn. apply in_map_iff. exists (w, count_occ string_dec texts w). auto. }
    exact (most_common_top 5 _ _ _ H Hc I).
  - unfold most_common. rewrite length_firstn.
    rewrite (Permutation_length (ranked_perm (Counter texts))).
    f_equal. rewrite <- (length_map fst).
    apply Permutation_length, NoDup_Permutation.
    + apply Counter_NoDup.
    + apply NoDup_nodup.
    + intros x. rewrite Counter_In, nodup_In. reflexivity.
Qed.

(** X7, an instance. *)
Lemma frequent_values_example :
  let texts := map (py_str sample_runtime) (not_none status_sample) in
  (forall v n, In (v, n) [("closed", 2%nat); ("open", 1%nat)] ->
     In v texts /\ n = count_occ string_dec texts v)
  /\ (forall w v n, In w texts ->
        ~ In w (map fst [("closed", 2%nat); ("open", 1%nat)]) ->
        In (v, n) [("closed", 2%nat); ("open", 1%nat)] ->
        (count_occ string_dec texts w <= n)%nat)
  /\ List.length [("closed", 2%nat); ("open", 1%nat)]
     = Nat.min 5 (List.length (nodup string_dec texts)).
Proof.
  exact (frequent_values_are_the_top_counts sample_runtime status_sample
           status_profile [("closed", 2%nat); ("open", 1%nat)] eq_refl eq_refl).
Defined.

(** ** The shape of a profile *)

(** X8: in every profile [patterns] is empty, there are at most three
    entity categories, distinct and by decreasing count, the frequent values
    are present exactly when the type is [str], and entity categories are
    present only then. *)
Theorem profile_text_fields_only_for_text (rt : runtime) (data : list pyval)
  (p : profile) :
  _analyze_sample_data rt data = Ok p ->
  patterns p = []
  /\ (List.length (entity_types p) <= 3)%nat
  /\ NoDup (map fst (entity_types p))
  /\ descending (entity_types p)
  /\ (p_type p = Some "str" <-> common_values p <> None)
  /\ (entity_types p <> [] -> p_type p = Some "str").
Proof.
  rewrite analyze_is_analyze_items. intros A.
  pose proof (analyze_items_result _ _ _ A) as [ty [P _]].
  destruct (predominant_type_result data) as [ty' [P' In']].
  rewrite P in P'. injection P' as <-.
  assert (Str : is_text_type ty = true -> ty = Some "str"
                                          /\ not_none data <> []).
  { intros T. destruct ty as [t|]; [|discriminate].
    pose proof (In' t eq_refl) as Hin.
    destruct (text_type_is_str data t Hin T) as [-> _]. split; [reflexivity|].
    intros E. rewrite E in Hin. destruct Hin. }
  revert A. unfold analyze_items.
  destruct (scan_items data [] []) as [[ts ns]|e] eqn:S; cbn [bind]; [|discriminate].
  apply scan_items_result in S. destruct S as [-> _]. rewrite P. cbn [bind].
  destruct (is_text_type ty) eqn:T; intros [= <-];
    cbn [patterns entity_types common_values p_type] in *.
  - destruct (Str eq_refl) as [-> Hne]. split; [reflexivity|].
    set (texts := map (py_str rt) (not_none data)).
    set (found := if (0 <? _)%nat then _ else _).
    assert (F : found = [] \/ exists labels, found = most_common 3 (Counter labels)).
    { unfold found. destruct (0 <? _)%nat; [|auto].
      destruct (Counter (nlp_labels rt _)) eqn:E; [auto|]. right. eexists. rewrite <- E. reflexivity. }
    split; [|split; [|split; [|split]]].
    + destruct F as [->|[labels ->]]; [cbn; lia|apply most_common_length].
    + destruct F as [->|[labels ->]]; [constructor|apply most_common_NoDup].
    + destruct F as [->|[labels ->]]; [constructor|apply most_common_descending].
    + split; [|reflexivity]. intros _.
      destruct (most_common 5 (Counter texts)) eqn:M; [|discriminate].
      apply most_common_nil, Counter_nil in M. unfold texts in M.
      apply map_eq_nil in M. contradiction.
    + reflexivity.
  - split; [reflexivity|]. split; [cbn; lia|]. split; [constructor|].
    split; [constructor|]. split.
    + split; [|congruence]. intros ->. discriminate.
    + congruence.
Qed.

(** X8, an instance. *)
Lemma profile_text_fields_example :
  patterns status_profile = []
  /\ (List.length (entity_types status_profile) <= 3)%nat
  /\ NoDup (map fst (entity_types status_profile))
  /\ descending (entity_types status_profile)
  /\ (p_type status_profile = Some "str" <-> common_values status_profile <> None)
  /\ (entity_types status_profile <> [] -> p_type status_profile = Some "str").
Proof.
  exact (profile_text_fields_only_for_text sample_runtime status_sample
           status_profile eq_refl).
Defined.


(** ** Ties go to the type seen first *)

Lemma Counter_keys (keys : list string) :
  map fst (Counter keys) = tally keys [].
Proof.
  unfold Counter, tally.
  assert (G : forall c, map fst (fold_left (fun c k => counter_add k c) keys c)
                        = fold_left (fun acc t => types_add t acc) keys (map fst c)).
  { induction keys as [|k r IH]; intros c; cbn [fold_left]; [reflexivity|].
    rewrite IH, counter_add_keys. reflexivity. }
  apply (G []).
Qed.

Lemma ranked_head (c : counter) (x : string * nat) (l : counter) :
  ranked c = x :: l ->
  exists before after,
    c = (before ++ x :: after)%list
    /\ Forall (fun a => (snd a < snd x)%nat) before
    /\ Forall (fun a => (snd a <= snd x)%nat) after.
Proof.
  revert x l. induction c as [|y c IH]; intros x l; [discriminate|].
  cbn [ranked fold_right]. fold (ranked c).
  destruct (ranked c) as [|z r] eqn:R; cbn [rank_insert].
  - intros [= <- <-]. pose proof (ranked_perm c) as P. rewrite R in P.
    apply Permutation_nil in P. subst c. exists [], []. repeat split; constructor.
  - destruct (IH z r eq_refl) as [before [after [-> [B A]]]].
    destruct (Nat.leb_spec (snd z) (snd y)) as [Hle|Hgt]; intros [= <- <-].
    + exists [], (before ++ z :: after)%list. split; [reflexivity|].
      split; [constructor|]. apply Forall_app. split.
      * eapply Forall_impl; [|exact B]. cbn. intros; lia.
      * constructor; [exact Hle|]. eapply Forall_impl; [|exact A]. cbn. intros; lia.
    + exists (y :: before), after. split; [reflexivity|].
      split; [constructor; assumption|exact A].
Qed.

(** X6: among the types of the sample in the order they were first seen,
    every type before the predominant one occurs strictly less often and
    every type after it at most as often: a tie goes to the type seen first. *)
Theorem predominant_type_ties_to_first_seen (rt : runtime) (data : list pyval)
  (p : profile) (t : string) :
  _analyze_sample_data rt data = Ok p ->
  p_type p = Some t ->
  let names := map type_name (not_none data) in
  exists before after,
    tally names [] = (before ++ t :: after)%list
    /\ Forall (fun u => (count_occ string_dec names u
                         < count_occ string_dec names t)%nat) before
    /\ Forall (fun u => (count_occ string_dec names u
                         <= count_occ string_dec names t)%nat) after.
Proof.
  rewrite analyze_is_analyze_items. intros A Hp names.
  destruct (analyze_items_result _ _ _ A) as [ty [P [Ty _]]].
  rewrite Ty in Hp. subst ty. clear A Ty. unfold predominant_type in P. fold names in P.
  destruct (tally names []) as [|t0 [|t1 ts]] eqn:E; [discriminate| |].
  - injection P as <-. exists [], []. repeat split; constructor.
  - rewrite <- E. clear E.
    destruct (most_common 1 (Counter names)) as [|[u n] l] eqn:M; [discriminate|].
    injection P as ->. unfold most_common in M.
    destruct (ranked (Counter names)) as [|x r] eqn:R; [discriminate|].
    cbn [firstn] in M. injection M as -> _.
    destruct (ranked_head _ _ _ R) as [before [after [C [B A]]]].
    assert (K : forall a, In a (Counter names) ->
                          snd a = count_occ string_dec names (fst a)).
    { intros [k m] H. exact (proj1 (Counter_entry _ _ _ H)). }
    pose proof (K (t, n)) as Kt. cbn [fst snd] in Kt.
    rewrite <- Kt by (rewrite C; apply in_or_app; right; left; reflexivity).
    exists (map fst before), (map fst after).
    rewrite <- Counter_keys, C, map_app. split; [reflexivity|].
    split; apply Forall_forall; intros k Hk; apply in_map_iff in Hk;
      destruct Hk as [a [<- Ha]].
    + rewrite <- (K a) by (rewrite C; apply in_or_app; left; exact Ha).
      rewrite Forall_forall in B. exact (B a Ha).
    + rewrite <- (K a) by (rewrite C; apply in_or_app; right; right; exact Ha).
      rewrite Forall_forall in A. exact (A a Ha).
Qed.

(** X6, an instance: [int] and [Decimal] once each, [int] first. *)
Lemma predominant_type_ties_example :
  let names := map type_name (not_none price_sample) in
  exists before after,
    tally names [] = (before ++ "int" :: after)%list
    /\ Forall (fun u => (count_occ string_dec names u
                         < count_occ string_dec names "int")%nat) before
    /\ Forall (fun u => (count_occ string_dec names u
                         <= count_occ string_dec names "int")%nat) after.
Proof.
  exact (predominant_type_ties_to_first_seen sample_runtime price_sample
           price_profile "int" eq_refl eq_refl).
Defined.


(** ** The declared type *)

(** X23: two declared types that agree before the first parenthesis, up to
    the case of the letters, and are both empty or both not, give the same
    description: the length, precision and scale of a type play no part. *)
Theorem description_ignores_type_details (column_name data_type other_type : string)
  (analysis : profile) :
  simple_type data_type = simple_type other_type ->
  non_empty data_type = non_empty other_type ->
  describe_column column_name data_type analysis
  = describe_column column_name other_type analysis.
Proof.
  unfold simple_type, non_empty. intros H E.
  unfold describe_column, describe_by_type. rewrite H.
  apply (f_equal negb) in E. rewrite !negb_involutive in E. rewrite E.
  reflexivity.
Qed.

(** X23, an instance: two lengths of [VARCHAR]. *)
Lemma description_ignores_type_details_example :
  simple_type "VARCHAR(16)" = simple_type "varchar(16777216)"
  /\ non_empty "VARCHAR(16)" = non_empty "varchar(16777216)"
  /\ describe_column "notes" "VARCHAR(16)" status_profile
     = describe_column "notes" "varchar(16777216)" status_profile.
Proof.
  split; [reflexivity|]. split; [reflexivity|].
  exact (description_ignores_type_details "notes" "VARCHAR(16)"
           "varchar(16777216)" status_profile eq_refl eq_refl).
Defined.

(** ** When the analysis raises *)

Lemma scan_items_overflow (data : list pyval) :
  Exists (fun item => in_float_range item = false) data ->
  forall types numbers, scan_items data types numbers = Raise OverflowError.
Proof.
  induction data as [|x r IH]; intros H types numbers; [inversion H|].
  cbn [scan_items].
  destruct (in_float_range x) eqn:R.
  - assert (Hr : Exists (fun item => in_float_range item = false) r).
    { inversion H as [? ? Hx|? ? Hr']; subst; [congruence|exact Hr']. }
    destruct (is_none x); [apply IH, Hr|].
    destruct (in_names (type_name x) numeric_names); [|apply IH, Hr].
    destruct x as [|b|n|s|k s]; try (apply IH, Hr).
    cbn [in_float_range] in R.
    destruct (py_float n) as [f|e] eqn:F; [apply IH, Hr|].
    destruct (py_float_exn _ _ F) as [-> | ->]; [apply IH, Hr|discriminate].
  - destruct x as [|b|n|s|k s]; try discriminate.
    cbn [is_none]. rewrite (proj2 (numeric_class (PNum n)) (ex_intro _ n eq_refl)).
    cbn [in_float_range] in R.
    destruct (py_float n) as [f|[]] eqn:F; try discriminate; try reflexivity.
Qed.

Lemma out_of_range_is_huge (item : pyval) :
  in_float_range item = false <->
  exists z sign, item = PNum (NInt z) /\ PyFloat.of_Z z = S754_infinity sign.
Proof.
  split.
  - destruct item as [|b|[z|f|d]|s|k s]; try discriminate.
    + cbn [in_float_range py_float]. intros H.
      destruct (PyFloat.of_Z z) as [| sign | |] eqn:Z; try discriminate.
      exists z, sign. auto.
    + cbn [in_float_range py_float]. intros H.
      destruct d as [neg [|c] [|e|e] | | |]; discriminate.
  - intros [z [sign [-> H]]]. cbn [in_float_range py_float].
    rewrite H. reflexivity.
Qed.

Lemma huge_integer_out_of_range (data : list pyval) :
  huge_integer data <-> Exists (fun item => in_float_range item = false) data.
Proof.
  unfold huge_integer. rewrite Exists_exists. split.
  - intros [z [sign [I H]]]. exists (PNum (NInt z)). split; [exact I|].
    apply out_of_range_is_huge. eauto.
  - intros [item [I H]]. apply out_of_range_is_huge in H.
    destruct H as [z [sign [-> H]]]. eauto.
Qed.

(** X24: the analysis of a sample raises exactly when the sample holds an
    integer so large that its nearest float is an infinity; what it raises
    is then [OverflowError], and [generate_column_description] raises what
    the analysis raises, for every column name and declared type.  No
    decimal, float, text or other item makes either function raise. *)
Theorem analysis_raises_iff_huge_integer (rt : runtime) (data : list pyval) :
  ((exists e, _analyze_sample_data rt data = Raise e) <-> huge_integer data)
  /\ (forall e, _analyze_sample_data rt data = Raise e -> e = OverflowError)
  /\ (forall column_name data_type e,
        generate_column_description rt column_name data_type data = Raise e
        <-> _analyze_sample_data rt data = Raise e).
Proof.
  assert (D : Exists (fun item => in_float_range item = false) data
              \/ Forall (fun item => in_float_range item = true) data).
  { destruct (Forall_Exists_dec (fun item => in_float_range item = true)
                (fun item => bool_dec (in_float_range item) true) data) as [F|E].
    - right. exact F.
    - left. eapply Exists_impl; [|exact E]. cbn. intros a Ha.
      destruct (in_float_range a); congruence. }
  assert (R : Exists (fun item => in_float_range item = false) data ->
              _analyze_sample_data rt data = Raise OverflowError).
  { intros E. rewrite analyze_is_analyze_items. unfold analyze_items.
    rewrite (scan_items_overflow data E). reflexivity. }
  split; [|split].
  - rewrite huge_integer_out_of_range. split.
    + intros [e He]. destruct D as [E|F]; [exact E|].
      destruct (analyze_total rt data F) as [p Hp]. congruence.
    + intros E. exists OverflowError. exact (R E).
  - intros e He. destruct D as [E|F].
    + rewrite (R E) in He. congruence.
    + destruct (analyze_total rt data F) as [p Hp]. congruence.
  - intros column_name data_type e. unfold generate_column_description.
    destruct (_analyze_sample_data rt data) as [p|e']; cbn [bind].
    + split; discriminate.
    + split; intros [= ->]; reflexivity.
Qed.

(** ** The signals of a table *)

Lemma scan_column_signal (b : bucket) (st : signals) (c : column) :
  signal b (scan_column st c) = signal b st || in_bucket b c.
Proof.
  unfold scan_column, in_bucket, column_bucket.
  repeat match goal with
         | |- context [if ?x then _ else _] => destruct x
         end; destruct b; cbn [signal has_id has_name has_date has_amount has_status bucket_eqb];
    rewrite ?orb_true_r, ?orb_false_r; reflexivity.
Qed.

(** X9: a signal of the table scan is set exactly when some column falls in
    its bucket, where a column falls in the bucket of the first test of the
    chain it passes, hence in one bucket at most. *)
Theorem table_signals_by_column (b : bucket) (columns : list column) :
  signal b (scan_columns columns) = existsb (in_bucket b) columns.
Proof.
  unfold scan_columns.
  assert (G : forall st, signal b (fold_left scan_column columns st)
                         = signal b st || existsb (in_bucket b) columns).
  { induction columns as [|c r IH]; intros st; cbn [fold_left existsb].
    - rewrite orb_false_r. reflexivity.
    - rewrite IH, scan_column_signal. apply eq_sym, orb_assoc. }
  rewrite G. destruct b; reflexivity.
Qed.

(** ** The entities of a table *)

Lemma keep_entity_long (e : string) (acc : list string) :
  Forall (fun s => (2 < String.length s)%nat) acc ->
  Forall (fun s => (2 < String.length s)%nat) (keep_entity e acc).
Proof.
  intros H. unfold keep_entity.
  destruct (negb (e =? "")); cbn [andb]; auto.
  destruct (Nat.ltb_spec 2 (String.length e)); auto.
  apply Forall_app. split; auto.
Qed.

Lemma scan_column_long (st : signals) (c : column) :
  Forall (fun s => (2 < String.length s)%nat) (important_columns st) ->
  Forall (fun s => (2 < String.length s)%nat) (important_columns (scan_column st c)).
Proof.
  intros H. unfold scan_column.
  repeat match goal with
         | |- context [if ?b then _ else _] => destruct b
         end; cbn [important_columns]; auto using keep_entity_long.
Qed.

(** X10: every entity fragment the scan keeps is longer than two characters. *)
Theorem table_entities_are_long (columns : list column) :
  Forall (fun s => (2 < String.length s)%nat)
         (important_columns (scan_columns columns)).
Proof.
  unfold scan_columns.
  assert (G : forall st,
             Forall (fun s => (2 < String.length s)%nat) (important_columns st) ->
             Forall (fun s => (2 < String.length s)%nat)
                    (important_columns (fold_left scan_column columns st))).
  { induction columns as [|c r IH]; intros st H; cbn [fold_left]; auto.
    apply IH, scan_column_long, H. }
  apply G. constructor.
Qed.

Lemma unique_entities_perm (rt : runtime) (columns : list column) :
  Permutation (unique_entities rt (important_columns (scan_columns columns)))
              (referenced_entities columns).
Proof.
  unfold unique_entities, referenced_entities.
  rewrite (filter_all _ _ _ (scan_columns_non_empty columns)).
  apply NoDup_Permutation.
  - apply set_list_NoDup.
  - apply NoDup_nodup.
  - intros x. rewrite set_list_In, nodup_In, !in_map_iff.
    split; intros [e [<- He]]; exists e; (split; [reflexivity|]);
      apply (set_list_In rt (important_columns (scan_columns columns)) e); exact He.
Qed.

(** X11: with one to three distinct readable entities the description is
    "Contains information about" followed by these entities, each once, in
    the order the set yields them, and by the details clause. *)
Theorem few_entities_sentence (rt : runtime) (table_name : string)
  (columns : list column) :
  (1 <= List.length (referenced_entities columns) <= 3)%nat ->
  exists listed,
    Permutation listed (referenced_entities columns)
    /\ generate_table_description rt table_name columns
       = "Contains information about " ++ PyStr.join ", " listed
         ++ details_clause (scan_columns columns).
Proof.
  intros H.
  exists (unique_entities rt (important_columns (scan_columns columns))).
  pose proof (unique_entities_perm rt columns) as P. split; [exact P|].
  apply Permutation_length in P.
  unfold generate_table_description, table_sentence.
  destruct (important_columns (scan_columns columns)) as [|e es] eqn:E.
  { unfold referenced_entities in H. rewrite E in H. cbn in H. lia. }
  rewrite (filter_all _ non_empty (e :: es)).
  2:{ rewrite <- E. apply scan_columns_non_empty. }
  destruct (set_list rt (e :: es)) as [|y ys] eqn:S.
  { pose proof (proj2 (set_list_In rt (e :: es) e) (or_introl eq_refl)) as Hin.
    rewrite S in Hin. destruct Hin. }
  destruct (Nat.leb_spec (List.length (unique_entities rt (e :: es))) 3) as [_|Hgt];
    [|lia].
  rewrite append_assoc. reflexivity.
Qed.

Theorem no_entity_sentence (rt : runtime) (table_name : string)
  (columns : list column) :
  important_columns (scan_columns columns) = [] ->
  generate_table_description rt table_name columns
  = "Contains information related to " ++ _clean_column_name table_name
    ++ details_clause (scan_columns columns).
Proof.
  intros H. unfold generate_table_description, table_sentence. rewrite H.
  rewrite append_assoc. reflexivity.
Qed.

Theorem details_clause_cases (st : signals) :
  let fired := List.length (details_of st) in
  (fired = 0%nat -> details_clause st = "")
  /\ ((1 <= fired <= 3)%nat ->
      details_clause st = " including " ++ PyStr.join ", " (details_of st))
  /\ ((4 <= fired)%nat ->
      details_clause st = " including various attributes and metrics")
  /\ (fired <= 5)%nat.
Proof.
  destruct st as [[] [] [] [] [] imp]; cbv zeta; cbn;
    repeat split; intros; try reflexivity; lia.
Qed.

(** X11, an instance: two entities from three columns. *)
Lemma few_entities_example :
  (1 <= List.length (referenced_entities order_columns) <= 3)%nat
  /\ exists listed,
       Permutation listed (referenced_entities order_columns)
       /\ generate_table_description sample_runtime "orders" order_columns
          = "Contains information about " ++ PyStr.join ", " listed
            ++ details_clause (scan_columns order_columns).
Proof.
  assert (H : (1 <= List.length (referenced_entities order_columns) <= 3)%nat)
    by (vm_compute; lia).
  split; [exact H|].
  exact (few_entities_sentence sample_runtime "orders" order_columns H).
Defined.


(** ** The tests of a column *)

Lemma get_tests_of_configs (tests_config : yval) (configs : list yval)
  (column_name : string) :
  holds_configs tests_config configs ->
  _get_tests_for_column tests_config column_name
  = find_column_tests configs column_name.
Proof.
  intros [entries [-> H]]. unfold _get_tests_for_column.
  cbn [py_in py_getitem and_then]. rewrite H. reflexivity.
Qed.

Lemma find_column_tests_skip (before rest : list yval) (column_name : string) :
  forallb (other_column column_name) before = true ->
  find_column_tests (before ++ rest) column_name
  = find_column_tests rest column_name.
Proof.
  induction before as [|c before IH]; intros H; [reflexivity|].
  cbn [forallb] in H. apply andb_true_iff in H. destruct H as [Hc Hb].
  cbn [app find_column_tests].
  destruct c as [| | | | | |entries]; try discriminate.
  cbn [py_get and_then]. cbn [other_column] in Hc.
  destruct (lookup "column" entries) as [v|].
  - apply negb_true_iff in Hc. rewrite Hc. apply IH, Hb.
  - cbn [equals_str]. apply IH, Hb.
Qed.

(** X12: when the entries before the first entry of the column are
    dictionaries of other columns, the tests returned are the strings and
    dictionaries of that entry's list; other items of the list and every later
    entry, of the same column or malformed, are ignored. *)
Theorem tests_of_first_matching_entry (tests_config : yval)
  (before after : list yval) (entry : list (string * yval))
  (tests : list yval) (column_name : string) :
  holds_configs tests_config (before ++ YDict entry :: after) ->
  forallb (other_column column_name) before = true ->
  lookup "column" entry = Some (YStr column_name) ->
  lookup "tests" entry = Some (YList tests) ->
  _get_tests_for_column tests_config column_name = Done (filter is_test tests).
Proof.
  intros H Hb Hc Ht. rewrite (get_tests_of_configs _ _ _ H).
  rewrite (find_column_tests_skip _ _ _ Hb).
  cbn [find_column_tests py_get and_then]. rewrite Hc. cbn [equals_str].
  rewrite String.eqb_refl, Ht. reflexivity.
Qed.

(** X13: when every entry is a dictionary of another column (or without a
    column), the column has no tests. *)
Theorem no_entry_no_tests (tests_config : yval) (configs : list yval)
  (column_name : string) :
  holds_configs tests_config configs ->
  forallb (other_column column_name) configs = true ->
  _get_tests_for_column tests_config column_name = Done [].
Proof.
  intros H Hb. rewrite (get_tests_of_configs _ _ _ H).
  rewrite <- (app_nil_r configs). rewrite (find_column_tests_skip _ _ _ Hb).
  reflexivity.
Qed.

(** X14: an entry that is not a dictionary, met before an entry of the
    column, makes the lookup raise [AttributeError]. *)
Theorem malformed_entry_raises (tests_config : yval)
  (before after : list yval) (entry : yval) (column_name : string) :
  holds_configs tests_config (before ++ entry :: after) ->
  forallb (other_column column_name) before = true ->
  is_dict entry = false ->
  _get_tests_for_column tests_config column_name = Failed RAttributeError.
Proof.
  intros H Hb He. rewrite (get_tests_of_configs _ _ _ H).
  rewrite (find_column_tests_skip _ _ _ Hb).
  destruct entry; try discriminate; reflexivity.
Qed.

Lemma forallb_filter (A : Type) (f : A -> bool) (l : list A) :
  forallb f (filter f l) = true.
Proof.
  induction l as [|x l IH]; [reflexivity|]. cbn [filter].
  destruct (f x) eqn:E; [cbn [forallb]; rewrite E, IH; reflexivity|exact IH].
Qed.

Lemma find_column_tests_kinds (configs : list yval) (column_name : string)
  (tests : list yval) :
  find_column_tests configs column_name = Done tests ->
  forallb is_test tests = true.
Proof.
  induction configs as [|c configs IH]; cbn [find_column_tests].
  - intros [= <-]. reflexivity.
  - destruct (py_get c "column" YNull) as [v|e]; cbn [and_then]; [|discriminate].
    destruct (equals_str v column_name); [|exact IH].
    destruct (py_get c "tests" (YList [])) as [t|e]; cbn [and_then]; [|discriminate].
    destruct (py_iter t) as [l|e]; cbn [and_then]; [|discriminate].
    intros [= <-]. apply forallb_filter.
Qed.

(** X15: whatever the configuration, the tests returned are strings and
    dictionaries only. *)
Theorem returned_tests_are_names_or_dictionaries (tests_config : yval)
  (column_name : string) (tests : list yval) :
  _get_tests_for_column tests_config column_name = Done tests ->
  forallb is_test tests = true.
Proof.
  unfold _get_tests_for_column.
  destruct (py_in "tests" tests_config) as [present|e]; cbn [and_then]; [|discriminate].
  destruct present; cbn [negb].
  - destruct (py_getitem tests_config "tests") as [v|e]; cbn [and_then]; [|discriminate].
    destruct (py_iter v) as [l|e]; cbn [and_then]; [|discriminate].
    apply find_column_tests_kinds.
  - intros [= <-]. reflexivity.
Qed.

(** ** Escaped quotes *)

Lemma prefix_one (c d : ascii) (s : string) :
  String.prefix (String c EmptyString) (String d s) = Ascii.eqb d c.
Proof.
  cbn [String.prefix]. destruct (ascii_dec c d) as [<-|N].
  - rewrite Ascii.eqb_refl. destruct s; reflexivity.
  - destruct (Ascii.eqb_spec d c); [congruence|reflexivity].
Qed.

Lemma prefix_empty (s : string) : String.prefix "" s = true.
Proof. destruct s; reflexivity. Qed.

Lemma escape_cons (c : ascii) (s : string) :
  escape_single_quotes (String c s)
  = if Ascii.eqb c "'" then String "'" (String "'" (escape_single_quotes s))
    else String c (escape_single_quotes s).
Proof.
  unfold escape_single_quotes, PyStr.replace. cbn [PyStr.replace_from].
  rewrite prefix_one. destruct (Ascii.eqb c "'"); reflexivity.
Qed.

(** X17: doubling the single quotes loses nothing: replacing each doubled
    quote of the escaped text by one quote gives the description back. *)
Theorem escaped_quotes_round_trip (description : string) :
  PyStr.replace "''" "'" (escape_single_quotes description) = description.
Proof.
  induction description as [|c s IH]; [reflexivity|].
  rewrite escape_cons. destruct (Ascii.eqb_spec c "'") as [->|N].
  - unfold PyStr.replace in *. cbn [PyStr.replace_from String.prefix].
    destruct (ascii_dec "'" "'") as [_|N]; [|congruence].
    rewrite prefix_empty. cbn [String.length Nat.sub PyStr.replace_from append].
    rewrite IH. reflexivity.
  - unfold PyStr.replace in *. cbn [PyStr.replace_from String.prefix].
    destruct (ascii_dec "'" c) as [E|_]; [congruence|]. rewrite IH. reflexivity.
Qed.

(** ** The configuration from the environment *)

(** X18: the configuration is returned exactly when the four required
    variables are set and not empty and the secret of the chosen
    authentication method is; in every other case, and only then,
    [ValueError] is raised. *)
Theorem config_loads_iff_complete (env : environment) :
  ((exists entries, get_snowflake_config env = Done (YDict entries))
   <-> forallb (fun n => is_set (env n)) required_variables && secret_is_set env
       = true)
  /\ ((exists text, get_snowflake_config env = Failed (RValueError text None))
      <-> forallb (fun n => is_set (env n)) required_variables
          && secret_is_set env = false).
Proof.
  unfold get_snowflake_config, secret_is_set, required_variables.
  cbn [forallb]. rewrite andb_true_r.
  destruct (is_set (env "SNOWFLAKE_ACCOUNT")), (is_set (env "SNOWFLAKE_USER")),
    (is_set (env "DATABASE")), (is_set (env "SCHEMA")); cbn [andb negb];
    try (split; split;
         [intros [? H]; discriminate | discriminate | reflexivity | eauto]).
  destruct (String.eqb _ "password");
    [destruct (is_set (env "SNOWFLAKE_PASSWORD")); split; split; eauto;
     try discriminate; intros [? H]; discriminate|].
  destruct (String.eqb _ "okta");
    [destruct (is_set (env "OKTA_URL")); split; split; eauto;
     try discriminate; intros [? H]; discriminate|].
  destruct (String.eqb _ "token");
    [destruct (is_set (env "SNOWFLAKE_TOKEN")); split; split; eauto;
     try discriminate; intros [? H]; discriminate|].
  split; split; eauto; try discriminate. intros [? H]; discriminate.
Qed.

(** X19: when a required variable is unset or empty, the [ValueError] names
    exactly the missing ones, in the order account, user, database, schema,
    whatever the authentication method and its secret. *)
Theorem missing_variables_are_named (env : environment) :
  forallb (fun n => is_set (env n)) required_variables = false ->
  get_snowflake_config env
  = Failed (RValueError
              ("Missing required environment variables: "
               ++ PyStr.join ", "
                    (filter (fun n => negb (is_set (env n))) required_variables))
              None).
Proof.
  unfold get_snowflake_config, required_variables, missing_if_unset.
  cbn [forallb filter]. rewrite andb_true_r.
  destruct (is_set (env "SNOWFLAKE_ACCOUNT")), (is_set (env "SNOWFLAKE_USER")),
    (is_set (env "DATABASE")), (is_set (env "SCHEMA")); cbn [andb negb];
    intros H; try discriminate; reflexivity.
Qed.


(** ** Placeholders *)

Lemma plain_text_cons (c : ascii) (s : string) :
  plain_text (String c s) = true ->
  placeholder_at (String c s) = None /\ plain_text s = true
  /\ PyStr.startswith "${" (String c s) = false.
Proof.
  unfold plain_text. cbn [PyStr.contains]. intros H.
  apply negb_true_iff, orb_false_iff in H. destruct H as [P C].
  split; [|split; [rewrite C; reflexivity|exact P]].
  unfold placeholder_at.
  destruct (Ascii.eqb_spec c "$") as [->|N].
  - destruct s as [|d s]; [reflexivity|].
    destruct (Ascii.eqb_spec d "{") as [->|N'];
      [cbn in P; destruct s; discriminate|].
    destruct d as [[] [] [] [] [] [] [] []]; try reflexivity; congruence.
  - destruct c as [[] [] [] [] [] [] [] []]; try reflexivity; congruence.
Qed.

Lemma find_placeholders_plain (s : string) :
  plain_text s = true -> find_placeholders 0 s = [].
Proof.
  induction s as [|c s IH]; intros H; [reflexivity|].
  destruct (plain_text_cons c s H) as [P [H' _]].
  cbn [find_placeholders]. rewrite P. apply IH, H'.
Qed.

Lemma process_string_plain (env : environment) (s : string) :
  plain_text s = true -> process_string env s = s.
Proof.
  intros H. unfold process_string.
  assert (S : PyStr.startswith "${" s = false).
  { destruct s as [|c s]; [reflexivity|]. apply (plain_text_cons c s H). }
  rewrite S, (find_placeholders_plain s H). reflexivity.
Qed.

Fixpoint process_value_plain (env : environment) (v : yval) {struct v} :
  plain v = true -> process_value env v = v.
Proof.
  destruct v as [| | | |s|items|entries]; intros H; try reflexivity.
  - cbn [process_value]. f_equal. apply process_string_plain, H.
  - cbn [process_value]. f_equal. cbn [plain] in H.
    induction entries as [|[k x] r IH]; [reflexivity|].
    cbn [forallb snd] in H. apply andb_true_iff in H. destruct H as [Hx Hr].
    cbn [map fst snd]. rewrite (process_value_plain env x Hx), (IH Hr).
    reflexivity.
Qed.

Lemma process_plain_entries (env : environment)
  (config : list (string * yval)) :
  plain (YDict config) = true ->
  _process_env_variables env config = config.
Proof.
  intros H. pose proof (process_value_plain env (YDict config) H) as P.
  cbn [process_value] in P. injection P as P. exact P.
Qed.

(** X20: a configuration none of whose strings, at any depth of nested
    dictionaries, holds ["${"] comes back unchanged. *)
Theorem plain_config_is_unchanged (env : environment)
  (config : list (string * yval)) :
  plain (YDict config) = true ->
  _process_env_variables env config = config.
Proof. apply process_plain_entries. Qed.

Lemma endswith_app (a b : string) : PyStr.endswith b (a ++ b) = true.
Proof.
  induction a as [|c a IH]; cbn [append].
  - apply endswith_refl.
  - apply endswith_cons, IH.
Qed.

Lemma drop_last_app (v : string) (c : ascii) :
  drop_last (v ++ String c EmptyString) = v.
Proof.
  induction v as [|d v IH]; [reflexivity|].
  cbn [append drop_last]. rewrite IH.
  destruct v; reflexivity.
Qed.

Lemma substring_all (s : string) : String.substring 0 (String.length s) s = s.
Proof. induction s as [|c s IH]; cbn; [reflexivity|]. rewrite IH. reflexivity. Qed.

(** X21: a value that is ["${"], any text and ["}"] becomes the value of the
    environment variable named by the whole text between, or the empty
    string when that variable is unset or empty. *)
Theorem whole_placeholder_is_the_variable (env : environment) (env_var : string) :
  process_string env ("${" ++ env_var ++ "}") = env_or_empty env env_var.
Proof.
  unfold process_string.
  assert (E : PyStr.endswith "}" ("${" ++ env_var ++ "}") = true).
  { rewrite <- append_assoc. apply endswith_app. }
  rewrite E. cbn [PyStr.startswith String.prefix append andb].
  destruct (ascii_dec "$" "$") as [_|N]; [|congruence].
  destruct (ascii_dec "{" "{") as [_|N]; [|congruence].
  rewrite prefix_empty. cbn [String.length Nat.sub String.substring].
  rewrite Nat.sub_0_r, substring_all, drop_last_app. reflexivity.
Qed.

(** ** A placeholder inside a string *)

Lemma word_prefix_name (w rest : string) :
  all_word w = true ->
  word_prefix (w ++ String "}" rest) = (w, String "}" rest).
Proof.
  induction w as [|c w IH]; intros H.
  - reflexivity.
  - cbn [all_word] in H. apply andb_true_iff in H. destruct H as [Hc Hw].
    cbn [append word_prefix]. rewrite Hc, (IH Hw). reflexivity.
Qed.

Lemma placeholder_at_name (w rest : string) :
  variable_name w = true ->
  placeholder_at ("${" ++ w ++ "}" ++ rest) = Some w.
Proof.
  unfold variable_name. intros H. apply andb_true_iff in H. destruct H as [N W].
  cbn [append placeholder_at]. rewrite (word_prefix_name w rest W).
  destruct w; [discriminate|reflexivity].
Qed.

Lemma no_start_placeholder (c : ascii) (s : string) :
  no_start c s = true -> placeholder_at (String c s) = None.
Proof.
  unfold no_start, placeholder_at. intros H.
  destruct (Ascii.eqb_spec c "$") as [->|N].
  - destruct s as [|d s]; [reflexivity|].
    destruct d as [[] [] [] [] [] [] [] []]; try reflexivity; discriminate.
  - destruct c as [[] [] [] [] [] [] [] []]; try reflexivity; congruence.
Qed.

Lemma no_start_prefix (c : ascii) (s x : string) :
  no_start c s = true -> String.prefix ("${" ++ x) (String c s) = false.
Proof.
  unfold no_start. intros H. cbn [append String.prefix].
  destruct (ascii_dec "$" c) as [<-|N]; [|reflexivity].
  destruct s as [|d s]; [reflexivity|]. cbn [String.prefix].
  destruct (ascii_dec "{" d) as [<-|N]; [discriminate|reflexivity].
Qed.

Lemma plain_no_start (c : ascii) (s rest : string) :
  plain_text (String c s) = true ->
  no_start c (s ++ "${" ++ rest) = true /\ plain_text s = true.
Proof.
  intros H. destruct (plain_text_cons c s H) as [_ [Hs S]]. split; [|exact Hs].
  unfold no_start. destruct (Ascii.eqb_spec c "$") as [->|N]; [|reflexivity].
  destruct s as [|d s]; [reflexivity|].
  cbn [append andb negb].
  destruct (Ascii.eqb_spec d "{") as [->|N].
  - cbn in S. destruct s; discriminate.
  - destruct d as [[] [] [] [] [] [] [] []]; try reflexivity; congruence.
Qed.

Lemma plain_no_start_end (c : ascii) (s : string) :
  plain_text (String c s) = true -> no_start c s = true.
Proof.
  intros H. destruct (plain_text_cons c s H) as [_ [_ S]].
  unfold no_start. destruct (Ascii.eqb_spec c "$") as [->|N]; [|reflexivity].
  destruct s as [|d s]; [reflexivity|].
  destruct (Ascii.eqb_spec d "{") as [->|N].
  - cbn in S. destruct s; discriminate.
  - destruct d as [[] [] [] [] [] [] [] []]; try reflexivity; congruence.
Qed.

Lemma find_placeholders_skip (a s : string) :
  find_placeholders (String.length a) (a ++ s) = find_placeholders 0 s.
Proof.
  induction a as [|c a IH]; [reflexivity|]. cbn [String.length append find_placeholders].
  exact IH.
Qed.

Lemma replace_from_skip (old new a s : string) :
  PyStr.replace_from old new (String.length a) (a ++ s)
  = PyStr.replace_from old new 0 s.
Proof.
  induction a as [|c a IH]; [reflexivity|].
  cbn [String.length append PyStr.replace_from]. exact IH.
Qed.

Lemma replace_plain (x new s : string) :
  plain_text s = true -> PyStr.replace_from ("${" ++ x) new 0 s = s.
Proof.
  induction s as [|c s IH]; intros H; [reflexivity|].
  pose proof (plain_no_start_end c s H) as N.
  destruct (plain_text_cons c s H) as [_ [Hs _]].
  cbn [PyStr.replace_from]. rewrite (no_start_prefix c s x N), (IH Hs).
  reflexivity.
Qed.

Lemma prefix_app (a s : string) : String.prefix a (a ++ s) = true.
Proof.
  induction a as [|c a IH]; [apply prefix_empty|].
  cbn [append String.prefix]. destruct (ascii_dec c c); [exact IH|congruence].
Qed.

Lemma find_placeholders_head (c : ascii) (s : string) :
  find_placeholders 0 (String c s)
  = match placeholder_at (String c s) with
    | Some var => var :: find_placeholders (String.length var + 2) s
    | None => find_placeholders 0 s
    end.
Proof. reflexivity. Qed.

Lemma replace_from_head (old new : string) (c : ascii) (s : string) :
  PyStr.replace_from old new 0 (String c s)
  = if String.prefix old (String c s)
    then new ++ PyStr.replace_from old new (String.length old - 1) s
    else String c (PyStr.replace_from old new 0 s).
Proof. reflexivity. Qed.

Lemma placeholder_text (w post : string) :
  "${" ++ w ++ "}" ++ post = String "$" (String "{" (w ++ "}") ++ post)
  /\ "${" ++ w ++ "}" ++ post = ("${" ++ w ++ "}") ++ post.
Proof. cbn [append]. rewrite append_assoc. split; reflexivity. Qed.

Lemma find_placeholders_one (pre w post : string) :
  plain_text pre = true -> plain_text post = true -> variable_name w = true ->
  find_placeholders 0 (pre ++ "${" ++ w ++ "}" ++ post) = [w].
Proof.
  intros Hpre Hpost W. induction pre as [|c pre IH].
  - pose proof (placeholder_at_name w post W) as P.
    destruct (placeholder_text w post) as [A _]. rewrite A in P.
    change ("" ++ "${" ++ w ++ "}" ++ post) with ("${" ++ w ++ "}" ++ post).
    rewrite A, find_placeholders_head, P. f_equal.
    assert (L : String.length w + 2 = String.length (String "{" (w ++ "}")))
      by (cbn [String.length]; rewrite append_length; cbn; lia).
    rewrite L, find_placeholders_skip. apply find_placeholders_plain, Hpost.
  - destruct (plain_no_start c pre (w ++ "}" ++ post) Hpre) as [N Hp].
    change (String c pre ++ "${" ++ w ++ "}" ++ post)
      with (String c (pre ++ "${" ++ w ++ "}" ++ post)).
    rewrite find_placeholders_head, (no_start_placeholder _ _ N). apply IH, Hp.
Qed.

Lemma replace_one (pre w post new : string) :
  plain_text pre = true -> plain_text post = true ->
  PyStr.replace ("${" ++ w ++ "}") new (pre ++ "${" ++ w ++ "}" ++ post)
  = pre ++ new ++ post.
Proof.
  intros Hpre Hpost. unfold PyStr.replace. induction pre as [|c pre IH].
  - destruct (placeholder_text w post) as [A B].
    change ("" ++ "${" ++ w ++ "}" ++ post) with ("${" ++ w ++ "}" ++ post).
    assert (Pf : String.prefix ("${" ++ w ++ "}")
                   (String "$" (String "{" (w ++ "}") ++ post)) = true)
      by (rewrite <- A, B; apply prefix_app).
    assert (L : String.length ("${" ++ w ++ "}") - 1
                = String.length (String "{" (w ++ "}")))
      by (cbn [append String.length]; lia).
    rewrite A, replace_from_head, Pf, L, replace_from_skip.
    change ("${" ++ w ++ "}") with ("${" ++ (w ++ "}")).
    rewrite (replace_plain (w ++ "}") new post Hpost). reflexivity.
  - destruct (plain_no_start c pre (w ++ "}" ++ post) Hpre) as [N Hp].
    change (String c pre ++ "${" ++ w ++ "}" ++ post)
      with (String c (pre ++ "${" ++ w ++ "}" ++ post)).
    rewrite replace_from_head.
    change ("${" ++ w ++ "}") with ("${" ++ (w ++ "}")) at 1.
    rewrite (no_start_prefix c _ (w ++ "}") N).
    rewrite (IH Hp). reflexivity.
Qed.

(** X25: a string with one placeholder, of a name of letters, digits and
    underscores, between two texts without ["${"], and which is not taken
    for a whole reference (it does not both start with ["${"] and end with
    ["}"]), becomes the two texts around the value of the variable, or
    around nothing when the variable is unset or empty. *)
Theorem embedded_placeholder_is_replaced (env : environment)
  (before env_var after : string) :
  PyStr.startswith "${" (before ++ "${" ++ env_var ++ "}" ++ after)
  && PyStr.endswith "}" (before ++ "${" ++ env_var ++ "}" ++ after) = false ->
  plain_text before = true -> plain_text after = true ->
  variable_name env_var = true ->
  process_string env (before ++ "${" ++ env_var ++ "}" ++ after)
  = before ++ env_or_empty env env_var ++ after.
Proof.
  intros S Hb Ha W. unfold process_string. rewrite S.
  rewrite (find_placeholders_one before env_var after Hb Ha W).
  cbn [fold_left]. apply replace_one; assumption.
Qed.

(** X25, an instance: the placeholder at the head of a path. *)
Lemma embedded_placeholder_example :
  PyStr.startswith "${" ("" ++ "${" ++ "DATABASE" ++ "}" ++ "/prod")
  && PyStr.endswith "}" ("" ++ "${" ++ "DATABASE" ++ "}" ++ "/prod") = false
  /\ plain_text "" = true
  /\ plain_text "/prod" = true /\ variable_name "DATABASE" = true
  /\ process_string demo_env ("" ++ "${" ++ "DATABASE" ++ "}" ++ "/prod")
     = "SALES/prod".
Proof.
  do 4 (split; [reflexivity|]).
  exact (embedded_placeholder_is_replaced demo_env "" "DATABASE" "/prod"
           eq_refl eq_refl eq_refl eq_refl).
Defined.

(** ** From the environment to the connection parameters *)

Ltac set_variable v :=
  let E := fresh "E" in
  destruct v as [[|? ?]|] eqn:E; cbn [is_set andb negb] in *; try discriminate.

(** X22: a configuration loaded from the environment, with no ["${"] in its
    strings, passes the checks of [connect] when the authentication method
    is one [connect] knows, with the account, database and schema of the
    environment; with any other method, which the loader accepts, [connect]
    raises [ValueError]. *)
Theorem loaded_config_and_connect (env : environment)
  (entries : list (string * yval)) :
  get_snowflake_config env = Done (YDict entries) ->
  plain (YDict entries) = true ->
  if in_names (auth_method_of env) known_methods then
    exists params,
      connection_parameters (_process_env_variables env entries) = Done params
      /\ lookup "account" params = Some (text_value (env "SNOWFLAKE_ACCOUNT"))
      /\ lookup "database" params = Some (text_value (env "DATABASE"))
      /\ lookup "schema" params = Some (text_value (env "SCHEMA"))
  else
    connection_parameters (_process_env_variables env entries)
    = Failed (RValueError "Unsupported authentication method: "
                (Some (YStr (auth_method_of env)))).
Proof.
  intros G P. rewrite (process_plain_entries env entries P). clear P.
  revert G. unfold get_snowflake_config, auth_method_of, known_methods, in_names.
  set (m := PyStr.lower (getenv_default env "AUTH_METHOD" "password")).
  cbn [existsb].
  set_variable (env "SNOWFLAKE_ACCOUNT"). set_variable (env "SNOWFLAKE_USER").
  set_variable (env "DATABASE"). set_variable (env "SCHEMA").
  unfold connection_parameters.
  destruct (String.eqb m "password") eqn:M1.
  { set_variable (env "SNOWFLAKE_PASSWORD"). intros [= <-].
    cbn [orb]. cbn. rewrite M1. cbn. eauto. }
  destruct (String.eqb m "okta") eqn:M2.
  { set_variable (env "OKTA_URL"). intros [= <-].
    rewrite !orb_true_r. cbn. rewrite M1, M2.
    destruct (String.eqb m "browser"), (String.eqb m "externalbrowser");
      cbn; eauto. }
  destruct (String.eqb m "token") eqn:M3.
  { set_variable (env "SNOWFLAKE_TOKEN"). intros [= <-].
    rewrite !orb_true_r. cbn. rewrite M1, M2, M3.
    destruct (String.eqb m "browser"), (String.eqb m "externalbrowser");
      cbn; eauto. }
  intros [= <-]. cbn. rewrite M1, M2, M3.
  destruct (String.eqb m "browser"), (String.eqb m "externalbrowser");
    cbn; eauto.
Qed.

(** X22, an instance: password authentication. *)
Lemma loaded_config_and_connect_example :
  get_snowflake_config demo_env = Done (YDict demo_config)
  /\ plain (YDict demo_config) = true
  /\ exists params,
       connection_parameters (_process_env_variables demo_env demo_config)
       = Done params
       /\ lookup "account" params = Some (text_value (demo_env "SNOWFLAKE_ACCOUNT"))
       /\ lookup "database" params = Some (text_value (demo_env "DATABASE"))
       /\ lookup "schema" params = Some (text_value (demo_env "SCHEMA")).
Proof.
  split; [reflexivity|]. split; [reflexivity|].
  exact (loaded_config_and_connect demo_env demo_config eq_refl eq_refl).
Defined.

(** X20, an instance. *)
Lemma plain_config_example :
  plain (YDict demo_config) = true
  /\ _process_env_variables demo_env demo_config = demo_config.
Proof.
  split; [reflexivity|].
  exact (plain_config_is_unchanged demo_env demo_config eq_refl).
Defined.

(** X19, an instance: an empty variable counts as missing. *)
Lemma missing_variables_example :
  forallb (fun n => is_set (env_of [("SNOWFLAKE_USER", "loader"); ("SCHEMA", "")] n))
          required_variables = false
  /\ get_snowflake_config (env_of [("SNOWFLAKE_USER", "loader"); ("SCHEMA", "")])
     = Failed (RValueError
                 "Missing required environment variables: SNOWFLAKE_ACCOUNT, DATABASE, SCHEMA"
                 None).
Proof.
  split; [reflexivity|].
  exact (missing_variables_are_named
           (env_of [("SNOWFLAKE_USER", "loader"); ("SCHEMA", "")]) eq_refl).
Defined.

(** ** The structure of the generated document *)

Section GeneratorProperties.

Variable connector : Type.
Variable get_table_description :
  string -> string -> connector -> attempt string * connector.
Variable get_columns :
  string -> string -> connector -> attempt (list column) * connector.
Variable get_column_descriptions :
  string -> string -> connector -> attempt (list (string * string)) * connector.
Variable tests_config : yval.

Lemma column_structures_shape (table : string)
  (descriptions : list (string * string)) (columns : list column) :
  forall entries,
    column_structures tests_config table descriptions columns = Done entries ->
    map mc_name entries = map name columns
    /\ Forall (tests_attached tests_config) entries.
Proof.
  induction columns as [|c r IH]; intros entries; cbn [column_structures].
  - intros [= <-]. split; [reflexivity|constructor].
  - destruct (_get_tests_for_column tests_config (name c)) as [tests|e] eqn:T;
      cbn [and_then]; [|discriminate].
    destruct (column_structures tests_config table descriptions r) as [others|e];
      cbn [and_then]; [|discriminate].
    intros [= <-]. destruct (IH others eq_refl) as [N F]. split.
    + cbn [map mc_name]. rewrite N. reflexivity.
    + constructor; [|exact F]. unfold tests_attached. cbn [mc_tests mc_name].
      destruct tests; [exact T|]. split; [discriminate|exact T].
Qed.

Lemma table_models_shape (schema : string) (tables : list string) :
  forall c ms c',
    table_models connector get_table_description get_columns
      get_column_descriptions tests_config schema tables c = (Done ms, c') ->
    map tm_name ms = tables
    /\ Forall (fun m => non_empty (tm_description m) = true) ms
    /\ Forall (fun m => Forall (tests_attached tests_config) (tm_columns m)) ms.
Proof.
  induction tables as [|t r IH]; intros c ms c'; cbn [table_models].
  - intros [= <- _]. repeat split; constructor.
  - destruct (get_table_description schema t c) as [[d|e] c1]; [|discriminate].
    destruct (get_columns schema t c1) as [[cols|e] c2]; [|discriminate].
    destruct (get_column_descriptions schema t c2) as [[ds|e] c3]; [|discriminate].
    destruct (column_structures tests_config t ds cols) as [entries|e] eqn:CS;
      [|discriminate].
    destruct (table_models _ _ _ _ _ schema r c3) as [[others|e] c4] eqn:TM;
      [|discriminate].
    intros [= <- _]. destruct (IH _ _ _ TM) as [N [D F]].
    split; [cbn [map tm_name]; rewrite N; reflexivity|]. split.
    + constructor; [|exact D]. cbn [tm_description].
      destruct (non_empty d) eqn:E; [exact E|reflexivity].
    + constructor; [|exact F]. cbn [tm_columns].
      apply (column_structures_shape _ _ _ _ CS).
Qed.

(** X16: a generated document has version 2 and one model per table, in the
    order of the tables and under their names; every model has a non-empty
    description, and a column entry has a ["tests"] key exactly when the
    configuration has tests for the column. *)
Theorem one_model_per_table (schema : string) (tables : list string)
  (c c' : connector) (document : yaml_structure) :
  generate_model_yaml connector get_table_description get_columns
    get_column_descriptions tests_config schema tables c = (Done document, c') ->
  version document = 2%Z
  /\ map tm_name (models document) = tables
  /\ Forall (fun m => non_empty (tm_description m) = true) (models document)
  /\ Forall (fun m => Forall (tests_attached tests_config) (tm_columns m)) (models document).
Proof.
  unfold generate_model_yaml.
  destruct (table_models _ _ _ _ _ schema tables c) as [[ms|e] c1] eqn:TM;
    [|discriminate].
  intros [= <- _]. destruct (table_models_shape _ _ _ _ _ TM) as [N [D F]].
  cbn [version models]. repeat split; assumption.
Qed.

End GeneratorProperties.

(** X16, an instance. *)
Lemma one_model_per_table_example :
  generate_model_yaml unit demo_table_description demo_columns
    demo_column_descriptions plain_tests_config "PUBLIC" ["ORDERS"] tt
  = (Done demo_document, tt)
  /\ version demo_document = 2%Z
  /\ map tm_name (models demo_document) = ["ORDERS"]
  /\ Forall (fun m => non_empty (tm_description m) = true) (models demo_document)
  /\ Forall (fun m => Forall (tests_attached plain_tests_config) (tm_columns m))
            (models demo_document).
Proof.
  split; [reflexivity|].
  exact (one_model_per_table unit demo_table_description demo_columns
           demo_column_descriptions plain_tests_config "PUBLIC" ["ORDERS"] tt tt
           demo_document eq_refl).
Defined.

(** X12, an instance. *)
Lemma tests_of_first_matching_entry_example :
  _get_tests_for_column demo_tests_config "id"
  = Done (filter is_test [YStr "unique"; YInt 3; YStr "not_null"]).
Proof.
  apply (tests_of_first_matching_entry demo_tests_config []
           [YStr "oops";
            YDict [("column", YStr "id"); ("tests", YList [YStr "accepted_values"])]]
           [("column", YStr "id");
            ("tests", YList [YStr "unique"; YInt 3; YStr "not_null"])]
           [YStr "unique"; YInt 3; YStr "not_null"] "id");
    try reflexivity.
  eexists. split; reflexivity.
Defined.

(** X13, an instance. *)
Lemma no_entry_no_tests_example :
  _get_tests_for_column plain_tests_config "amount" = Done [].
Proof.
  apply (no_entry_no_tests plain_tests_config
           [ YDict [("column", YStr "id"); ("tests", YList [YStr "unique"])];
             YDict [("tests", YList [YStr "not_null"])] ] "amount");
    try reflexivity.
  eexists. split; reflexivity.
Defined.

(** X14, an instance. *)
Lemma malformed_entry_raises_example :
  _get_tests_for_column demo_tests_config "customer_id" = Failed RAttributeError.
Proof.
  apply (malformed_entry_raises demo_tests_config
           [YDict [("column", YStr "id");
                   ("tests", YList [YStr "unique"; YInt 3; YStr "not_null"])]]
           [YDict [("column", YStr "id"); ("tests", YList [YStr "accepted_values"])]]
           (YStr "oops") "customer_id");
    try reflexivity.
  eexists. split; reflexivity.
Defined.

(** X15, an instance. *)
Lemma returned_tests_example :
  forallb is_test [YStr "unique"; YStr "not_null"] = true.
Proof.
  exact (returned_tests_are_names_or_dictionaries demo_tests_config "id"
           [YStr "unique"; YStr "not_null"] eq_refl).
Defined.

